(** * Multilingual document ingestion pipeline

    A shallow embedding of
    [src/multilingual_rag_pipeline/multilingual_ingestion_pipeline.py]
    and the properties of its per-document worker, its fallback chunker,
    its extraction and translation steps, its index upload and its run
    report.

    Conventions of the embedding.
    - Python [int] is [Z]; [len] of a string or list is [Z.of_nat] of its
      length; [str] is [string] (characters are the 8-bit code points, with
      Python's whitespace class restricted to that range).
    - A Python call that can raise returns an [Outcome]: [Return v] or
      [Raise e].  Code that talks to a collaborator (blob storage, Document
      Intelligence, the translator, [chunk_content], the search index, the
      file system) runs in the monad [M], which threads the list of calls
      made so far; a collaborator answers a call as a function of that
      history and of the call's arguments, so a backend may answer a
      repeated call differently.
    - [time.time()] and the two floating-point duration fields are not
      modelled, and neither is logging. *)

From Stdlib Require Import ZArith List String Ascii Bool Lia Permutation.
From Stdlib Require Import DecimalString.
Import ListNotations.

Local Open Scope string_scope.
Local Open Scope Z_scope.

(** ** Exceptions and outcomes *)

Inductive PyExc : Type :=
| Exception (msg : string)
| UnsupportedFormatError (msg : string)
| ValueError (msg : string)
| ZeroDivisionError (msg : string)
| ImportError (msg : string)
| ExternalError (cls : string) (msg : string).

(** [str(e)] *)
Definition str_exc (e : PyExc) : string :=
  match e with
  | Exception m | UnsupportedFormatError m | ValueError m
  | ZeroDivisionError m | ImportError m | ExternalError _ m => m
  end.

Inductive Outcome (A : Type) : Type :=
| Return (a : A)
| Raise (e : PyExc).
Arguments Return {A} a.
Arguments Raise {A} e.

(** ** The fragment of Python's built-ins the pipeline uses *)

Module Py.

Definition len_str (s : string) : Z := Z.of_nat (String.length s).
Definition len {A} (l : list A) : Z := Z.of_nat (List.length l).

(** [str.isspace] on one character: TAB..CR, FS..US, SPACE, NEL, NBSP. *)
Definition isspace (c : ascii) : bool :=
  let n := nat_of_ascii c in
  (((9 <=? n) && (n <=? 13)) || ((28 <=? n) && (n <=? 32))
   || (n =? 133) || (n =? 160))%nat.

Definition is_empty (s : string) : bool :=
  match s with EmptyString => true | String _ _ => false end.

(** [s.split()]: maximal runs of non-whitespace characters. [cur] is the
    word being read. *)
Fixpoint split_from (cur s : string) : list string :=
  match s with
  | EmptyString => if is_empty cur then [] else [cur]
  | String c rest =>
      if isspace c
      then ((if is_empty cur then [] else [cur]) ++ split_from "" rest)%list
      else split_from (cur ++ String c "") rest
  end.
Definition split (s : string) : list string := split_from "" s.

Fixpoint lstrip (s : string) : string :=
  match s with
  | EmptyString => EmptyString
  | String c rest => if isspace c then lstrip rest else s
  end.

Fixpoint rstrip (s : string) : string :=
  match s with
  | EmptyString => EmptyString
  | String c rest =>
      let r := rstrip rest in
      if isspace c && is_empty r then EmptyString else String c r
  end.

(** [s.strip()] *)
Definition strip (s : string) : string := rstrip (lstrip s).

(** [sep.join(words)] *)
Definition join (sep : string) (words : list string) : string :=
  String.concat sep words.

(** [s.lstrip(ch)] for a one-character argument. *)
Fixpoint lstrip_char (ch : ascii) (s : string) : string :=
  match s with
  | EmptyString => EmptyString
  | String c rest => if Ascii.eqb c ch then lstrip_char ch rest else s
  end.

Definition lower_char (c : ascii) : ascii :=
  let n := nat_of_ascii c in
  if (((65 <=? n) && (n <=? 90))
      || ((192 <=? n) && (n <=? 222) && negb (n =? 215)))%nat
  then ascii_of_nat (n + 32) else c.

(** [s.lower()] *)
Fixpoint lower (s : string) : string :=
  match s with
  | EmptyString => EmptyString
  | String c rest => String (lower_char c) (lower rest)
  end.

(** [str(n)] for an integer. *)
Definition str_int (n : Z) : string := NilZero.string_of_int (Z.to_int n).

(** The bound of a slice: a negative index counts from the end, and
    both ends are clamped to the sequence. *)
Definition slice_bound (n i : Z) : Z :=
  if i <? 0 then Z.max 0 (i + n) else Z.min i n.

(** [l[i:j]] *)
Definition slice {A} (l : list A) (i j : Z) : list A :=
  let lo := slice_bound (len l) i in
  let hi := slice_bound (len l) j in
  firstn (Z.to_nat (hi - lo)) (skipn (Z.to_nat lo) l).

Fixpoint range_up (fuel : nat) (i stop step : Z) : list Z :=
  match fuel with
  | O => []
  | S fuel' =>
      if i <? stop then i :: range_up fuel' (i + step) stop step else []
  end.

Fixpoint range_down (fuel : nat) (i stop step : Z) : list Z :=
  match fuel with
  | O => []
  | S fuel' =>
      if stop <? i then i :: range_down fuel' (i + step) stop step else []
  end.

(** [range(start, stop, step)], as the list it iterates over. *)
Definition range (start stop step : Z) : Outcome (list Z) :=
  if step =? 0 then Raise (ValueError "range() arg 3 must not be zero")
  else if 0 <? step
       then Return (range_up (Z.to_nat (stop - start)) start stop step)
       else Return (range_down (Z.to_nat (start - stop)) start stop step).

(** [d.get(key, default)] on a key that is either bound or not. *)
Definition get {A} (entry : option A) (default : A) : A :=
  match entry with Some v => v | None => default end.

End Py.

(** ** Data model *)

(** The [processing_settings] section of the configuration. A key may be
    absent: the code reads every one of them with [.get(key, default)]. *)
Record ProcessingSettings : Type := {
  chunk_size : option Z;
  chunk_overlap : option Z;
  min_chunk_size : option Z;
  max_concurrent_files : option Z;
  translation_enabled : option bool;
  force_translation : option bool;
  supported_formats : option (list string)
}.

(** [data_utils.Document], with the fields this file reads or writes. *)
Record Document : Type := {
  content : string;
  title : option string;
  url : option string;
  metadata : option (list (string * string));
  contentVector : option (list Z)
}.

(** [Document(content=..., title=..., url=...)] *)
Definition new_document (c t u : string) : Document :=
  {| content := c; title := Some t; url := Some u;
     metadata := None; contentVector := None |}.

(** ** The fallback chunker *)

(** One iteration of the loop of [_create_simple_chunks]. *)
Definition simple_chunk_step (cs min_size : Z) (words : list string)
    (filename u : string) (chunks : list Document) (i : Z) : list Document :=
  let chunk_words := Py.slice words i (i + cs) in
  let chunk_text := Py.join " " chunk_words in
  if min_size <=? Py.len_str (Py.strip chunk_text)
  then (chunks ++ [new_document chunk_text
                     (filename ++ " (chunk "
                        ++ Py.str_int (Py.len chunks + 1) ++ ")") u])%list
  else chunks.

(** Lines 780-799. *)
Definition _create_simple_chunks (ps : ProcessingSettings)
    (text filename u : string) : Outcome (list Document) :=
  let cs := Py.get (chunk_size ps) 1000 in
  let overlap := Py.get (chunk_overlap ps) 100 in
  let words := Py.split text in
  match Py.range 0 (Py.len words) (cs - overlap) with
  | Raise e => Raise e
  | Return indices =>
      Return (fold_left
                (simple_chunk_step cs (Py.get (min_chunk_size ps) 50)
                   words filename u)
                indices [])
  end.

(** ** Collaborators and the calls made to them *)

(** A document as [index_chunks] sends it to the search index. *)
Record SearchDocument : Type := {
  sd_action : string;
  sd_id : string;
  sd_content : string;
  sd_title : string;
  sd_filepath : string;
  sd_url : string;
  sd_contentVector : option (list Z)
}.

Definition Stats : Type := list (string * Z).

Inductive Call : Type :=
| CallUuid4
| CallOpen (path : string)
| CallReadText (path : string)
| CallUploadBlob (name data : string)
| CallPdfPlumber (path : string)
| CallAnalyzeDocument (path : string)
| CallBeautifulSoup (markup : string)
| CallDetectLanguage (text : string)
| CallTranslateText (text target : string)
| CallDefaultAzureCredential
| CallChunkContent (text file_name u : string)
| CallUploadDocuments (documents : list SearchDocument).

(** The calls made so far, the most recent first. *)
Definition History : Type := list Call.

(** [DocumentIntelligenceClient]: [begin_analyze_document] followed by
    [poller.result()], answering with [result.content]. *)
Record DocumentIntelligenceClient : Type := {
  analyze_document : History -> string -> Outcome (option string)
}.

Record ContainerClient : Type := {
  container_url : string;
  upload_blob : History -> string -> string -> Outcome unit
}.

(** [azure_translator.AzureTranslator] *)
Record AzureTranslator : Type := {
  detect_language : History -> string -> Outcome string;
  translate_text : History -> string -> string -> Outcome (string * Stats)
}.

(** [SearchClient.upload_documents] answers with one [succeeded] flag per
    indexing result. *)
Record SearchClient : Type := {
  upload_documents : History -> list SearchDocument -> Outcome (list bool)
}.

(** What the module imports and the platform provide. *)
Record Runtime : Type := {
  PDF_LIBS_AVAILABLE : bool;
  FILE_FORMAT_DICT : list (string * string);
  (** [str(Path(p))], [Path(p).name], [Path(p).suffix] *)
  path_str : string -> string;
  path_name : string -> string;
  path_suffix : string -> string;
  uuid4 : History -> string;
  (** [open(path, 'rb')] *)
  open_rb : History -> string -> Outcome unit;
  (** [open(path, 'r', encoding='utf-8', errors='ignore').read()] *)
  read_text : History -> string -> Outcome string;
  (** [pdfplumber.open(path)] and [page.extract_text()] of every page *)
  pdfplumber_pages : History -> string -> Outcome (list (option string));
  (** [from bs4 import BeautifulSoup] and [soup.get_text()] *)
  bs4_get_text : History -> string -> Outcome string;
  DefaultAzureCredential : History -> Outcome unit;
  (** [data_utils.chunk_content] with [add_embeddings=True]: arguments are
      content, file name, url, num_tokens, min_chunk_size, token_overlap. *)
  chunk_content :
    History -> string -> string -> string -> Z -> Z -> Z ->
    Outcome (list Document)
}.

(** The pipeline object: its configuration and the four components. *)
Record MultilingualRAGPipeline : Type := {
  processing_settings : ProcessingSettings;
  doc_intelligence_client : option DocumentIntelligenceClient;
  translator : AzureTranslator;
  container_client : option ContainerClient;
  search_client : option SearchClient;
  runtime : Runtime
}.

(** ** The monad of collaborator calls *)

Definition M (A : Type) : Type := History -> Outcome A * History.

Definition ret {A} (a : A) : M A := fun h => (Return a, h).
Definition raise {A} (e : PyExc) : M A := fun h => (Raise e, h).

Definition bind {A B} (m : M A) (k : A -> M B) : M B :=
  fun h =>
    match m h with
    | (Return a, h') => k a h'
    | (Raise e, h') => (Raise e, h')
    end.

(** [try: body except ... as e: handler e] for a handler that catches
    every exception the model has. *)
Definition try_except {A} (body : M A) (handler : PyExc -> M A) : M A :=
  fun h =>
    match body h with
    | (Return a, h') => (Return a, h')
    | (Raise e, h') => handler e h'
    end.

(** A call to a collaborator: it answers from the history, and the call is
    recorded whether it returns or raises. *)
Definition call {A} (c : Call) (answer : History -> Outcome A) : M A :=
  fun h => (answer h, c :: h).

Definition lift {A} (o : Outcome A) : M A := fun h => (o, h).

Notation "x <- m ;; k" := (bind m (fun x => k))
  (at level 61, m at next level, right associativity).
Notation "' pat <- m ;; k" := (bind m (fun x => match x with pat => k end))
  (at level 61, pat pattern, m at next level, right associativity).

Fixpoint mapM {A B} (f : A -> M B) (l : list A) : M (list B) :=
  match l with
  | [] => ret []
  | a :: l' => b <- f a ;; bs <- mapM f l' ;; ret (b :: bs)
  end.

Definition fresh_uuid (rt : Runtime) : M string :=
  call CallUuid4 (fun h => Return (uuid4 rt h)).

Definition newline : string := String (ascii_of_nat 10) "".

Definition in_list (s : string) (l : list string) : bool :=
  existsb (String.eqb s) l.

Fixpoint dict_lookup (d : list (string * string)) (k : string)
  : option string :=
  match d with
  | [] => None
  | (k', v) :: d' => if String.eqb k' k then Some v else dict_lookup d' k
  end.

(** ** DocumentProcessor *)

Section Components.
Variable self : MultilingualRAGPipeline.

Let rt := runtime self.
Let settings := processing_settings self.

(** Lines 278-295. *)
Definition _extract_with_document_intelligence (file_path : string)
  : M string :=
  match doc_intelligence_client self with
  | None => raise (Exception "Document Intelligence client not available")
  | Some client =>
      _ <- call (CallOpen file_path) (fun h => open_rb rt h file_path) ;;
      result_content <-
        call (CallAnalyzeDocument file_path)
             (fun h => analyze_document client h file_path) ;;
      match result_content with
      | Some (String c rest) => ret (String c rest)
      | _ => raise (Exception "No text extracted by Document Intelligence")
      end
  end.

Definition page_texts (pages : list (option string)) : list string :=
  flat_map (fun page_text =>
              match page_text with
              | Some (String c rest) => [String c rest]
              | _ => []
              end) pages.

(** Lines 253-276. The call of Document Intelligence for a short text is
    inside the [try], as in the source. *)
Definition _extract_from_pdf (pdf_path : string) : M string :=
  if negb (PDF_LIBS_AVAILABLE rt)
  then _extract_with_document_intelligence pdf_path
  else
    try_except
      (pages <- call (CallPdfPlumber pdf_path)
                     (fun h => pdfplumber_pages rt h pdf_path) ;;
       let text_content := page_texts pages in
       let text := match text_content with
                   | [] => ""
                   | _ => Py.join newline text_content
                   end in
       if Py.is_empty text || (Py.len_str (Py.strip text) <? 100)
       then _extract_with_document_intelligence pdf_path
       else ret text)
      (fun _ => _extract_with_document_intelligence pdf_path).

Definition _extract_from_text_file (file_path : string) : M string :=
  call (CallReadText file_path) (fun h => read_text rt h file_path).

Definition _extract_from_html (file_path : string) : M string :=
  markup <- call (CallReadText file_path)
                 (fun h => read_text rt h file_path) ;;
  try_except
    (call (CallBeautifulSoup markup) (fun h => bs4_get_text rt h markup))
    (fun e => match e with
              | ImportError _ => ret markup
              | _ => raise e
              end).

(** Lines 226-251. *)
Definition extract_text (file_path file_format : string) : M string :=
  try_except
    (if String.eqb file_format "pdf" then _extract_from_pdf file_path
     else if in_list file_format ["docx"; "pptx"]
          then _extract_with_document_intelligence file_path
     else if in_list file_format ["txt"; "md"]
          then _extract_from_text_file file_path
     else if String.eqb file_format "html"
          then _extract_from_html file_path
     else raise (UnsupportedFormatError
                   ("Unsupported format: " ++ file_format)))
    (fun e => raise e).

(** ** TranslationService *)

(** Lines 352-383. [translate_text] gives a [str] and its statistics. *)
Definition detect_and_translate (text : string)
  : M (string * string * option string * option Stats) :=
  try_except
    (detected_lang <-
       call (CallDetectLanguage text)
            (fun h => detect_language (translator self) h text) ;;
     let enabled := Py.get (translation_enabled settings) true in
     let force := Py.get (force_translation settings) false in
     if negb enabled then ret (detected_lang, text, None, None)
     else if String.eqb detected_lang "en" && negb force
          then ret (detected_lang, text, None, None)
     else
       ' (translated_text, stats) <-
         call (CallTranslateText text "en")
              (fun h => translate_text (translator self) h text "en") ;;
       ret (detected_lang, translated_text, Some translated_text,
            Some stats))
    (fun _ => ret ("unknown", text, None, None)).

(** ** BlobStorageManager *)

(** Lines 410-434. *)
Definition upload_document (file_path : string) (blob_name : option string)
  : M string :=
  match container_client self with
  | None => raise (Exception "Blob storage client not available")
  | Some cc =>
      name <- match blob_name with
              | Some (String c rest) => ret (String c rest)
              | _ => u <- fresh_uuid rt ;;
                     ret ("documents/" ++ u ++ "-" ++ path_name rt file_path)
              end ;;
      _ <- call (CallOpen file_path) (fun h => open_rb rt h file_path) ;;
      _ <- call (CallUploadBlob name file_path)
                (fun h => upload_blob cc h name file_path) ;;
      ret (container_url cc ++ "/" ++ name)
  end.

(** Lines 436-460. *)
Definition upload_translated_content
    (text original_filename detected_language : string) : M string :=
  match container_client self with
  | None => raise (Exception "Blob storage client not available")
  | Some cc =>
      u <- fresh_uuid rt ;;
      let name := "translated/" ++ detected_language ++ "-to-en/" ++ u
                  ++ "-" ++ original_filename ++ ".txt" in
      _ <- call (CallUploadBlob name text)
                (fun h => upload_blob cc h name text) ;;
      ret (container_url cc ++ "/" ++ name)
  end.

(** ** SearchIndexManager *)

Definition doc_dict (chunk : Document) : M SearchDocument :=
  u <- fresh_uuid rt ;;
  ret {| sd_action := "upload";
         sd_id := u;
         sd_content := content chunk;
         sd_title := match title chunk with
                     | Some (String c rest) => String c rest
                     | _ => "Untitled"
                     end;
         sd_filepath := match metadata chunk with
                        | Some (entry :: entries) =>
                            Py.get (dict_lookup (entry :: entries)
                                      "filepath") ""
                        | _ => ""
                        end;
         sd_url := match url chunk with Some u' => u' | None => "" end;
         sd_contentVector := match contentVector chunk with
                             | Some (x :: v) => Some (x :: v)
                             | _ => None
                             end |}.

Definition count_succeeded (results : list bool) : Z :=
  Py.len (filter (fun succeeded => succeeded) results).

(** Lines 503-546. *)
Definition index_chunks (chunks : list Document) : M Z :=
  match search_client self, chunks with
  | None, _ | _, [] => ret 0
  | Some client, _ :: _ =>
      documents_to_upload <- mapM doc_dict chunks ;;
      try_except
        (results <-
           call (CallUploadDocuments documents_to_upload)
                (fun h => upload_documents client h documents_to_upload) ;;
         ret (count_succeeded results))
        (fun _ => ret 0)
  end.

End Components.

(** ** Results *)

Module DocumentProcessingResult.
Record t : Type := make {
  success : bool;
  original_file : string;
  file_format : string;
  detected_language : string;
  translated : bool;
  blob_url : option string;
  chunks_count : Z;
  error_message : option string;
  translation_stats : option Stats
}.
End DocumentProcessingResult.

Module PipelineResult.
Record t : Type := make {
  success : bool;
  total_files : Z;
  processed_files : Z;
  failed_files : Z;
  translated_files : Z;
  total_chunks : Z;
  results : list DocumentProcessingResult.t;
  error_message : option string
}.
End PipelineResult.

(** ** MultilingualRAGPipeline *)

Section Pipeline.
Variable self : MultilingualRAGPipeline.

Let rt := runtime self.
Let settings := processing_settings self.

(** Lines 735-778. Building the embedding endpoint from the configuration
    is part of what [chunk_content] is given; a failure there is a failure
    of this [try] like the others. *)
Definition _chunk_and_embed_content (text filename u file_format : string)
  : M (list Document) :=
  try_except
    (_ <- call CallDefaultAzureCredential
               (fun h => DefaultAzureCredential rt h) ;;
     call (CallChunkContent text filename u)
          (fun h => chunk_content rt h text filename u
                      (Py.get (chunk_size settings) 1000)
                      (Py.get (min_chunk_size settings) 50)
                      (Py.get (chunk_overlap settings) 100)))
    (fun _ => lift (_create_simple_chunks settings text filename u)).

(** [file_path.suffix.lower().lstrip('.')], then the format table. *)
Definition format_of (file_path : string) : string :=
  let file_extension :=
    Py.lstrip_char "."%char (Py.lower (path_suffix rt file_path)) in
  Py.get (dict_lookup (FILE_FORMAT_DICT rt) file_extension) file_extension.

(** The [try] block of [_process_single_document], after [file_format]
    has been bound (the two assignments that bind it cannot raise). *)
Definition process_steps (file_path file_format : string)
  : M DocumentProcessingResult.t :=
  if negb (in_list file_format (Py.get (supported_formats settings) []))
  then raise (UnsupportedFormatError
                ("Unsupported format: " ++ file_format))
  else
    (* Step 1: upload the original document *)
    blob <- upload_document self (path_str rt file_path) None ;;
    (* Step 2: extract the text *)
    text_content <- extract_text self (path_str rt file_path) file_format ;;
    if Py.is_empty text_content
       || (Py.len_str (Py.strip text_content) <? 50)
    then raise (Exception "Insufficient text content extracted")
    else
      (* Step 3: language detection and translation *)
      ' (detected_lang, final_text, translated_text, stats) <-
        detect_and_translate self text_content ;;
      let is_translated :=
        match translated_text with Some _ => true | None => false end in
      (* Step 4: upload the translation *)
      _ <- (if is_translated
            then _ <- upload_translated_content self final_text
                        (path_name rt file_path) detected_lang ;;
                 ret tt
            else ret tt) ;;
      (* Step 5: chunk and embed *)
      chunks <- _chunk_and_embed_content final_text
                  (path_name rt file_path) blob file_format ;;
      (* Step 6: index *)
      indexed_chunks <- index_chunks self chunks ;;
      ret (DocumentProcessingResult.make true (path_str rt file_path)
             file_format detected_lang is_translated (Some blob)
             indexed_chunks None stats).

(** Lines 649-733. *)
Definition _process_single_document (file_path : string)
    (output_dir : option string) : M DocumentProcessingResult.t :=
  let file_format := format_of file_path in
  try_except
    (process_steps file_path file_format)
    (fun e =>
       ret (DocumentProcessingResult.make false (path_str rt file_path)
              file_format "unknown" false None 0 (Some (str_exc e)) None)).

(** Only the arithmetic of the summary is modelled, not the text it
    prints: the success rate divides by [total_files], the translation
    rate by [processed_files]. *)
Definition _print_pipeline_summary (result : PipelineResult.t)
  : Outcome unit :=
  if PipelineResult.total_files result =? 0
  then Raise (ZeroDivisionError "division by zero")
  else if (0 <? PipelineResult.translated_files result)
          && (PipelineResult.processed_files result =? 0)
       then Raise (ZeroDivisionError "division by zero")
       else Return tt.

(** A future holds what its task returned or raised. Every task starts
    from its own, empty history of calls: the calls the other tasks make
    on the same collaborators are not in it. That is enough for what
    [ingest_documents] does with the futures; [run_in_turn] below runs the
    tasks on one history. *)
Definition Future : Type := Outcome DocumentProcessingResult.t.

Definition submit (task : M DocumentProcessingResult.t) : Future :=
  fst (task []).

(** [as_completed]: the futures in the order in which they finish,
    given as the list of their submission indices. *)
Definition as_completed {A} (completion : list nat) (futures : list A)
  : list A :=
  flat_map (fun i => match nth_error futures i with
                     | Some f => [f]
                     | None => []
                     end) completion.

(** The body of the collecting loop of [ingest_documents]. *)
Definition collect
    (acc : list DocumentProcessingResult.t * Z) (entry : Future * string)
  : list DocumentProcessingResult.t * Z :=
  let '(collected, total) := acc in
  let '(future, file_path) := entry in
  match future with
  | Return result =>
      ((collected ++ [result])%list,
       total + DocumentProcessingResult.chunks_count result)
  | Raise e =>
      ((collected ++
          [DocumentProcessingResult.make false file_path "unknown" "unknown"
             false None 0 (Some (str_exc e)) None])%list,
       total)
  end.

Definition count_if {A} (f : A -> bool) (l : list A) : Z :=
  Py.len (filter f l).

(** Lines 576-647. [ThreadPoolExecutor] refuses a pool of no workers. *)
Definition ingest_documents (completion : list nat)
    (file_paths : list string) (output_dir : option string)
  : Outcome PipelineResult.t :=
  let max_workers := Py.get (max_concurrent_files settings) 5 in
  if max_workers <=? 0
  then Raise (ValueError "max_workers must be greater than 0")
  else
    let future_to_file :=
      map (fun file_path =>
             (submit (_process_single_document file_path output_dir),
              file_path)) file_paths in
    let '(collected, chunks) :=
      fold_left collect (as_completed completion future_to_file) ([], 0) in
    let processed := count_if DocumentProcessingResult.success collected in
    let failed := Py.len collected - processed in
    let translated :=
      count_if DocumentProcessingResult.translated collected in
    let pipeline_result :=
      PipelineResult.make (failed =? 0) (Py.len file_paths) processed failed
        translated chunks collected None in
    match _print_pipeline_summary pipeline_result with
    | Raise e => Raise e
    | Return _ => Return pipeline_result
    end.

End Pipeline.

(** ** A small deployment, used to run the definitions *)

Module Demo.

Definition settings : ProcessingSettings :=
  {| chunk_size := Some 4; chunk_overlap := Some 1;
     min_chunk_size := Some 4; max_concurrent_files := Some 2;
     translation_enabled := Some true; force_translation := Some false;
     supported_formats := Some ["pdf"; "docx"; "txt"; "md"; "html"] |}.

Fixpoint has_dot (s : string) : bool :=
  match s with
  | EmptyString => false
  | String c rest => Ascii.eqb c "."%char || has_dot rest
  end.

(** The suffix of a plain file name. *)
Fixpoint suffix (s : string) : string :=
  match s with
  | EmptyString => EmptyString
  | String c rest =>
      if has_dot rest then suffix rest
      else if Ascii.eqb c "."%char then s else EmptyString
  end.

Definition french : string :=
  "le chat dort sur le canape pendant que la pluie tombe dehors".
Definition english : string :=
  "the cat sleeps on the sofa while the rain falls outside".

(** Files hold French text, except [bad.txt], which cannot be read. *)
Definition rt : Runtime :=
  {| PDF_LIBS_AVAILABLE := true;
     FILE_FORMAT_DICT := [("htm", "html")];
     path_str := fun p => p;
     path_name := fun p => p;
     path_suffix := suffix;
     uuid4 := fun h => "u" ++ Py.str_int (Py.len h);
     open_rb := fun _ _ => Return tt;
     read_text := fun _ p =>
       if String.eqb p "bad.txt"
       then Raise (ExternalError "OSError" "cannot read bad.txt")
       else Return french;
     pdfplumber_pages := fun _ _ => Return [Some "scanned"];
     bs4_get_text := fun _ m => Return m;
     DefaultAzureCredential := fun _ =>
       Raise (ExternalError "CredentialUnavailableError" "no credential");
     chunk_content := fun _ _ _ _ _ _ _ => Return [] |}.

Definition azure_translator : AzureTranslator :=
  {| detect_language := fun _ _ => Return "fr";
     translate_text := fun _ _ _ => Return (english, [("characters", 59)]) |}.

Definition storage : ContainerClient :=
  {| container_url := "https://blob/documents";
     upload_blob := fun _ _ _ => Return tt |}.

(** The index accepts every second document. *)
Fixpoint alternate (b : bool) (n : nat) : list bool :=
  match n with
  | O => []
  | S n' => b :: alternate (negb b) n'
  end.

Definition search : SearchClient :=
  {| upload_documents := fun _ docs =>
       Return (alternate true (List.length docs)) |}.

Definition analysis : DocumentIntelligenceClient :=
  {| analyze_document := fun _ _ => Return (Some french) |}.

Definition deployment (ps : ProcessingSettings)
    (di : option DocumentIntelligenceClient) (tr : AzureTranslator)
    (cc : option ContainerClient) (sc : option SearchClient)
  : MultilingualRAGPipeline :=
  {| processing_settings := ps;
     doc_intelligence_client := di;
     translator := tr;
     container_client := cc;
     search_client := sc;
     runtime := rt |}.

Definition pipeline : MultilingualRAGPipeline :=
  deployment settings (Some analysis) azure_translator (Some storage)
    (Some search).

(** Translation switched off. *)
Definition no_translation : ProcessingSettings :=
  {| chunk_size := Some 4; chunk_overlap := Some 1;
     min_chunk_size := Some 4; max_concurrent_files := Some 2;
     translation_enabled := Some false; force_translation := Some false;
     supported_formats := Some ["pdf"; "docx"; "txt"; "md"; "html"] |}.

(** A translator that detects French and then fails to translate. *)
Definition broken_translator : AzureTranslator :=
  {| detect_language := fun _ _ => Return "fr";
     translate_text := fun _ _ _ =>
       Raise (ExternalError "HTTPError" "translator unavailable") |}.

(** Storage that takes originals and refuses translations. *)
Definition flaky_storage : ContainerClient :=
  {| container_url := "https://blob/documents";
     upload_blob := fun _ name _ =>
       if String.prefix "translated/" name
       then Raise (ExternalError "ServiceRequestError" "storage unavailable")
       else Return tt |}.

(** An analysis backend that finds no text. *)
Definition silent_analysis : DocumentIntelligenceClient :=
  {| analyze_document := fun _ _ => Return None |}.

Definition analyzed_before (h : History) : bool :=
  existsb (fun c => match c with CallAnalyzeDocument _ => true | _ => false end)
    h.

(** An analysis backend that times out on the first request it gets. *)
Definition flaky_analysis : DocumentIntelligenceClient :=
  {| analyze_document := fun h _ =>
       if analyzed_before h then Return (Some french)
       else Raise (ExternalError "ServiceResponseTimeoutError" "timed out") |}.

(** An index that cannot be reached. *)
Definition dead_search : SearchClient :=
  {| upload_documents := fun _ _ =>
       Raise (ExternalError "HttpResponseError" "index unavailable") |}.

(** The deployments the examples run on. *)
Definition untranslated : MultilingualRAGPipeline :=
  deployment no_translation (Some analysis) azure_translator (Some storage)
    (Some search).

Definition untranslatable : MultilingualRAGPipeline :=
  deployment settings (Some analysis) broken_translator (Some storage)
    (Some search).

Definition unstorable : MultilingualRAGPipeline :=
  deployment settings (Some analysis) azure_translator (Some flaky_storage)
    (Some search).

Definition unindexable : MultilingualRAGPipeline :=
  deployment settings (Some analysis) azure_translator (Some storage)
    (Some dead_search).

Definition unreadable : MultilingualRAGPipeline :=
  deployment settings (Some silent_analysis) azure_translator (Some storage)
    (Some search).

Definition retried : MultilingualRAGPipeline :=
  deployment settings (Some flaky_analysis) azure_translator (Some storage)
    (Some search).

(** The calls made by the time [a.txt] has been uploaded, and read. *)
Definition uploaded : History :=
  [CallUploadBlob "documents/u0-a.txt" "a.txt"; CallOpen "a.txt"; CallUuid4].
Definition extracted : History := CallReadText "a.txt" :: uploaded.

Definition blob_of_a : string := "https://blob/documents/documents/u0-a.txt".

(** The calls made by the time the text of [a.txt] has been translated. *)
Definition decided : History :=
  CallTranslateText french "en" :: CallDetectLanguage french :: extracted.

(** The calls made by the time the upload of the translation has been
    attempted. *)
Definition attempted : History :=
  CallUploadBlob "translated/fr-to-en/u6-a.txt.txt" english
    :: CallUuid4 :: decided.

(** A machine without Azure libraries, PDF libraries or HTML parser,
    whose files hold a line of markup. *)
Definition parserless : MultilingualRAGPipeline :=
  {| processing_settings := settings;
     doc_intelligence_client := None;
     translator := azure_translator;
     container_client := None;
     search_client := None;
     runtime :=
       {| PDF_LIBS_AVAILABLE := false;
          FILE_FORMAT_DICT := [];
          path_str := fun p => p;
          path_name := fun p => p;
          path_suffix := suffix;
          uuid4 := fun _ => "u";
          open_rb := fun _ _ => Return tt;
          read_text := fun _ _ => Return "<p>bonjour</p>";
          pdfplumber_pages := fun _ _ => Return [];
          bs4_get_text := fun _ _ =>
            Raise (ImportError "No module named bs4");
          DefaultAzureCredential := fun _ => Return tt;
          chunk_content := fun _ _ _ _ _ _ _ => Return [] |} |}.

(** A configuration that also lists a format [extract_text] does not
    know. *)
Definition lenient : MultilingualRAGPipeline :=
  deployment
    {| chunk_size := Some 4; chunk_overlap := Some 1;
       min_chunk_size := Some 4; max_concurrent_files := Some 2;
       translation_enabled := Some true; force_translation := Some false;
       supported_formats := Some ["pdf"; "rtf"] |}
    (Some analysis) azure_translator (Some storage) (Some search).

(** An analysis backend that reads one word. *)
Definition brief_analysis : DocumentIntelligenceClient :=
  {| analyze_document := fun _ _ => Return (Some "bref") |}.

Definition brief : MultilingualRAGPipeline :=
  deployment settings (Some brief_analysis) azure_translator (Some storage)
    (Some search).

(** The calls made by the time [name] has been uploaded. *)
Definition uploaded_as (name : string) : History :=
  [CallUploadBlob ("documents/u0-" ++ name) name; CallOpen name; CallUuid4].

(** An index that accepts the first document it is sent and rejects the
    others. *)
Definition choosy_search : SearchClient :=
  {| upload_documents := fun _ docs =>
       match docs with
       | [] => Return []
       | _ :: rest => Return (true :: map (fun _ => false) rest)
       end |}.

Definition choosy : MultilingualRAGPipeline :=
  deployment settings (Some analysis) azure_translator (Some storage)
    (Some choosy_search).

(** A pool of one worker. *)
Definition single_worker : ProcessingSettings :=
  {| chunk_size := Some 4; chunk_overlap := Some 1;
     min_chunk_size := Some 4; max_concurrent_files := Some 1;
     translation_enabled := Some true; force_translation := Some false;
     supported_formats := Some ["pdf"; "docx"; "txt"; "md"; "html"] |}.

(** One worker, and the analysis backend that times out on the first
    request it gets, whichever document it is for. *)
Definition queued : MultilingualRAGPipeline :=
  deployment single_worker (Some flaky_analysis) azure_translator
    (Some storage) (Some search).

(** One worker and collaborators none of which looks at what was called
    before; the uuid is a new one at every call. *)
Definition steady : MultilingualRAGPipeline :=
  deployment single_worker (Some analysis) azure_translator
    (Some storage) (Some search).

End Demo.

(** ** Observations on a run *)

(** How often the analysis backend was invoked. *)
Definition is_analysis (c : Call) : bool :=
  match c with CallAnalyzeDocument _ => true | _ => false end.

Definition analyze_calls (h : History) : nat :=
  List.length (filter is_analysis h).

(** The result [ingest_documents] records for a future. *)
Definition recorded (entry : Outcome DocumentProcessingResult.t * string)
  : DocumentProcessingResult.t :=
  match fst entry with
  | Return result => result
  | Raise e =>
      DocumentProcessingResult.make false (snd entry) "unknown" "unknown"
        false None 0 (Some (str_exc e)) None
  end.

(** The result recorded for one document, processed on its own. *)
Definition document_outcome (self : MultilingualRAGPipeline)
    (output_dir : option string) (file_path : string)
  : DocumentProcessingResult.t :=
  recorded (submit (_process_single_document self file_path output_dir),
            file_path).

(** The results of a run, in completion order. *)
Definition run_results (self : MultilingualRAGPipeline)
    (output_dir : option string) (completion : list nat)
    (file_paths : list string) : list DocumentProcessingResult.t :=
  map recorded
    (as_completed completion
       (map (fun file_path =>
               (submit (_process_single_document self file_path output_dir),
                file_path)) file_paths)).

(** The result [_process_single_document] builds in its handler. *)
Definition failed_result (self : MultilingualRAGPipeline)
    (file_path : string) (e : PyExc) : DocumentProcessingResult.t :=
  DocumentProcessingResult.make false (path_str (runtime self) file_path)
    (format_of self file_path) "unknown" false None 0 (Some (str_exc e)) None.

(** What is left of the steps of [_process_single_document] once the
    language decision has returned. *)
Definition after_decision (self : MultilingualRAGPipeline)
    (file_path blob lang final : string) (is_translated : bool)
    (stats : option Stats) : M DocumentProcessingResult.t :=
  let rt := runtime self in
  let file_format := format_of self file_path in
  _ <- (if is_translated
        then _ <- upload_translated_content self final
                    (path_name rt file_path) lang ;;
             ret tt
        else ret tt) ;;
  chunks <- _chunk_and_embed_content self final (path_name rt file_path)
              blob file_format ;;
  indexed_chunks <- index_chunks self chunks ;;
  ret (DocumentProcessingResult.make true (path_str rt file_path) file_format
         lang is_translated (Some blob) indexed_chunks None stats).

(** The steps of [_process_single_document] that come before indexing:
    they give the blob url, the language, the [translated] flag, the
    translation statistics and the chunks. *)
Definition before_indexing (self : MultilingualRAGPipeline)
    (file_path file_format : string)
  : M (string * string * bool * option Stats * list Document) :=
  let rt := runtime self in
  let settings := processing_settings self in
  if negb (in_list file_format (Py.get (supported_formats settings) []))
  then raise (UnsupportedFormatError ("Unsupported format: " ++ file_format))
  else
    blob <- upload_document self (path_str rt file_path) None ;;
    text_content <- extract_text self (path_str rt file_path) file_format ;;
    if Py.is_empty text_content
       || (Py.len_str (Py.strip text_content) <? 50)
    then raise (Exception "Insufficient text content extracted")
    else
      ' (detected_lang, final_text, translated_text, stats) <-
        detect_and_translate self text_content ;;
      let is_translated :=
        match translated_text with Some _ => true | None => false end in
      _ <- (if is_translated
            then _ <- upload_translated_content self final_text
                        (path_name rt file_path) detected_lang ;;
                 ret tt
            else ret tt) ;;
      chunks <- _chunk_and_embed_content self final_text
                  (path_name rt file_path) blob file_format ;;
      ret (blob, detected_lang, is_translated, stats, chunks).

(** The text the fast path of [_extract_from_pdf] gets from the pages. *)
Definition text_layer (pages : list (option string)) : string :=
  match page_texts pages with
  | [] => ""
  | _ => Py.join newline (page_texts pages)
  end.

(** Whether [_extract_from_pdf] turns to Document Intelligence: the PDF
    libraries are missing, the fast path raises, or its text is empty or
    strips to fewer than 100 characters. *)
Definition needs_analysis (self : MultilingualRAGPipeline)
    (pdf_path : string) (h : History) : bool :=
  negb (PDF_LIBS_AVAILABLE (runtime self))
  || match pdfplumber_pages (runtime self) h pdf_path with
     | Raise _ => true
     | Return pages =>
         Py.is_empty (text_layer pages)
         || (Py.len_str (Py.strip (text_layer pages)) <? 100)
     end.

(** The calls made when [_extract_from_pdf] turns to Document
    Intelligence for the first time. *)
Definition before_analysis (self : MultilingualRAGPipeline)
    (pdf_path : string) (h : History) : History :=
  if PDF_LIBS_AVAILABLE (runtime self) then CallPdfPlumber pdf_path :: h
  else h.

(** The translated-text upload read as a best-effort step: when the
    original upload, the extraction and the translation have succeeded and
    only the upload of the translation raises, the document is a
    success. *)
Definition translated_upload_best_effort : Prop :=
  forall (self : MultilingualRAGPipeline) (file_path : string)
    (output_dir : option string) (h0 h1 h2 h3 h4 h' : History)
    (blob text lang final t : string) (stats : option Stats) (e : PyExc)
    (r : DocumentProcessingResult.t),
    in_list (format_of self file_path)
      (Py.get (supported_formats (processing_settings self)) []) = true ->
    upload_document self (path_str (runtime self) file_path) None h0
    = (Return blob, h1) ->
    extract_text self (path_str (runtime self) file_path)
      (format_of self file_path) h1 = (Return text, h2) ->
    Py.is_empty text || (Py.len_str (Py.strip text) <? 50) = false ->
    detect_and_translate self text h2
    = (Return (lang, final, Some t, stats), h3) ->
    upload_translated_content self final (path_name (runtime self) file_path)
      lang h3 = (Raise e, h4) ->
    _process_single_document self file_path output_dir h0 = (Return r, h') ->
    DocumentProcessingResult.success r = true.

(** ** Documents processed on the same collaborators *)

(** The documents of a batch processed one after the other on the same
    collaborators: the calls made for a document come after all the calls
    made for the documents before it. This is how the pool runs the tasks
    when it has a single worker; each result is recorded as
    [ingest_documents] records it. *)
Fixpoint run_in_turn (self : MultilingualRAGPipeline)
    (output_dir : option string) (file_paths : list string) (h : History)
  : list DocumentProcessingResult.t * History :=
  match file_paths with
  | [] => ([], h)
  | file_path :: rest =>
      let '(future, h1) :=
        _process_single_document self file_path output_dir h in
      let '(results, h2) := run_in_turn self output_dir rest h1 in
      (recorded (future, file_path) :: results, h2)
  end.

(** A computation whose outcome does not depend on the calls made
    before it. *)
Definition oblivious {A} (m : M A) : Prop :=
  forall h1 h2, fst (m h1) = fst (m h2).

(** Whether a call returned. *)
Definition returned {A} (o : Outcome A) : bool :=
  match o with Return _ => true | Raise _ => false end.

(** Two outcomes that both return, with values related by [R], or both
    raise. *)
Definition alike {A B} (R : A -> B -> Prop) (o1 : Outcome A)
    (o2 : Outcome B) : Prop :=
  match o1, o2 with
  | Return a, Return b => R a b
  | Raise _, Raise _ => True
  | _, _ => False
  end.

(** Two computations with alike outcomes whatever was called before
    each. *)
Definition related {A B} (R : A -> B -> Prop) (m1 : M A) (m2 : M B)
  : Prop :=
  forall h1 h2, alike R (fst (m1 h1)) (fst (m2 h2)).

(** Collaborators that answer every call from its arguments alone,
    whatever was called before. Nothing is asked of [uuid4], which gives
    a new id at every call, nor of the search index, whose answer
    [index_chunks] only counts: the storage accepts or refuses a blob
    whatever the id in its name, and the chunker succeeds or fails
    whatever the url it is given. *)
Record stateless (self : MultilingualRAGPipeline) : Prop := {
  stateless_open_rb :
    forall h h' path,
      open_rb (runtime self) h path = open_rb (runtime self) h' path;
  stateless_read_text :
    forall h h' path,
      read_text (runtime self) h path = read_text (runtime self) h' path;
  stateless_pdfplumber :
    forall h h' path,
      pdfplumber_pages (runtime self) h path
      = pdfplumber_pages (runtime self) h' path;
  stateless_bs4 :
    forall h h' markup,
      bs4_get_text (runtime self) h markup
      = bs4_get_text (runtime self) h' markup;
  stateless_credential :
    forall h h',
      DefaultAzureCredential (runtime self) h
      = DefaultAzureCredential (runtime self) h';
  stateless_chunk_content :
    forall h h' text name u u' size min_size overlap,
      returned
        (chunk_content (runtime self) h text name u size min_size overlap)
      = returned
          (chunk_content (runtime self) h' text name u' size min_size
             overlap);
  stateless_detect :
    forall h h' text,
      detect_language (translator self) h text
      = detect_language (translator self) h' text;
  stateless_translate :
    forall h h' text target,
      translate_text (translator self) h text target
      = translate_text (translator self) h' text target;
  stateless_analyze :
    forall client, doc_intelligence_client self = Some client ->
      forall h h' path,
        analyze_document client h path = analyze_document client h' path;
  stateless_upload_original :
    forall client, container_client self = Some client ->
      forall h h' u u' name data,
        returned
          (upload_blob client h ("documents/" ++ u ++ "-" ++ name) data)
        = returned
            (upload_blob client h' ("documents/" ++ u' ++ "-" ++ name)
               data);
  stateless_upload_translated :
    forall client, container_client self = Some client ->
      forall h h' u u' lang name data,
        returned
          (upload_blob client h
             ("translated/" ++ lang ++ "-to-en/" ++ u ++ "-" ++ name
              ++ ".txt") data)
        = returned
            (upload_blob client h'
               ("translated/" ++ lang ++ "-to-en/" ++ u' ++ "-" ++ name
                ++ ".txt") data)
}.

(** C1's isolation read on one batch: every document succeeds or fails in
    a batch as it does when processed on its own. *)
Definition outcomes_isolated : Prop :=
  forall (self : MultilingualRAGPipeline) (output_dir : option string)
    (file_paths : list string),
    map DocumentProcessingResult.success
      (fst (run_in_turn self output_dir file_paths []))
    = map (fun file_path =>
             DocumentProcessingResult.success
               (document_outcome self output_dir file_path)) file_paths.

(** ** The chunker as the specification words it *)

(** The [k]-th window: [cs] tokens starting [k * step] tokens in. *)
Definition window (words : list string) (cs step k : nat) : list string :=
  firstn cs (skipn (k * step) words).

(** Windows start at 0, [step], [2 * step], ... while the start is inside
    the token sequence. *)
Definition window_count (n step : nat) : nat := Nat.div (n + step - 1) step.

Definition sliding_windows (words : list string) (cs step : nat)
  : list (list string) :=
  map (window words cs step) (seq 0 (window_count (List.length words) step)).

Definition rendered (w : list string) : string := Py.join " " w.

(** A token: not empty, and [strip] leaves it alone. *)
Definition token (s : string) : Prop :=
  s <> "" /\ Py.lstrip s = s /\ Py.rstrip s = s.

(** The room a list of words takes: every word and one separator each. *)
Definition room (ws : list string) : nat :=
  list_sum (map (fun w => S (String.length w)) ws).

(** ** Words *)

(** No character of [s] is whitespace. *)
Fixpoint no_space (s : string) : bool :=
  match s with
  | EmptyString => true
  | String c rest => negb (Py.isspace c) && no_space rest
  end.

(** A word as [split] produces it: not empty, without whitespace. *)
Definition word (s : string) : Prop := s <> "" /\ no_space s = true.

(** The title [_create_simple_chunks] gives the chunk at position [k]. *)
Definition simple_chunk_title (filename : string) (k : nat) : string :=
  filename ++ " (chunk " ++ Py.str_int (Z.of_nat k + 1) ++ ")".

(** Position, provenance and absence of an embedding of every chunk of a
    list. *)
Definition shaped (filename u : string) (chunks : list Document) : Prop :=
  forall k c, nth_error chunks k = Some c ->
    title c = Some (simple_chunk_title filename k)
    /\ url c = Some u /\ metadata c = None /\ contentVector c = None.

(** What holds of every result of the worker. *)
Definition well_formed (self : MultilingualRAGPipeline) (file_path : string)
    (r : DocumentProcessingResult.t) : Prop :=
  DocumentProcessingResult.original_file r
  = path_str (runtime self) file_path
  /\ DocumentProcessingResult.file_format r = format_of self file_path
  /\ (DocumentProcessingResult.success r = true <->
      DocumentProcessingResult.error_message r = None)
  /\ (DocumentProcessingResult.success r = false ->
      DocumentProcessingResult.chunks_count r = 0
      /\ DocumentProcessingResult.translated r = false
      /\ DocumentProcessingResult.blob_url r = None
      /\ DocumentProcessingResult.detected_language r = "unknown")
  /\ (DocumentProcessingResult.success r = true ->
      DocumentProcessingResult.blob_url r <> None)
  /\ 0 <= DocumentProcessingResult.chunks_count r
  /\ (DocumentProcessingResult.translated r = true <->
      DocumentProcessingResult.translation_stats r <> None).

(** The chunks of a list of results, added up. *)
Definition sum_chunks (rs : list DocumentProcessingResult.t) : Z :=
  fold_right (fun r total => DocumentProcessingResult.chunks_count r + total)
    0 rs.

(** ** Construction of the pipeline *)

(** What constructing the components needs from the outside: the
    configuration file, the Azure client libraries and the services behind
    them. The configuration is taken to have its [processing_settings]
    section; the other sections are read by the constructors below. *)
Record Platform : Type := {
  AZURE_LIBS_AVAILABLE : bool;
  (** [MultilingualRAGConfig(config_file)] *)
  load_config : string -> Outcome ProcessingSettings;
  (** [DocumentIntelligenceClient(...)] *)
  new_document_intelligence_client : Outcome DocumentIntelligenceClient;
  (** the body of [TranslationService.__init__] *)
  new_translator : Outcome AzureTranslator;
  (** [BlobServiceClient(...)], [get_container_client] and the attempt to
      create the container, whose failure is ignored *)
  new_container_client : Outcome ContainerClient;
  (** [SearchClient(...)] and [SearchIndexClient(...)] *)
  new_search_client : Outcome SearchClient;
  create_or_update_search_index : Outcome unit;
  platform_runtime : Runtime
}.

Definition and_then {A B} (o : Outcome A) (k : A -> Outcome B) : Outcome B :=
  match o with
  | Return a => k a
  | Raise e => Raise e
  end.

(** A client that is only built when the Azure libraries were imported. *)
Definition when_available {A} (pf : Platform) (build : Outcome A)
  : Outcome (option A) :=
  if AZURE_LIBS_AVAILABLE pf
  then and_then build (fun client => Return (Some client))
  else Return None.

(** Lines 483-501: [ensure_index_exists], given whether the index client
    is there. *)
Definition ensure_index_exists {A} (pf : Platform) (index_client : option A)
  : Outcome unit :=
  match index_client with
  | None => Raise (Exception "Search index client not available")
  | Some _ => create_or_update_search_index pf
  end.

(** Lines 562-574: [MultilingualRAGPipeline.__init__], with the
    constructors of the four components (lines 215-224, 319-343, 389-408,
    466-481). *)
Definition new_pipeline (pf : Platform) (config_file : string)
  : Outcome MultilingualRAGPipeline :=
  and_then (load_config pf config_file) (fun config =>
  and_then (when_available pf (new_document_intelligence_client pf))
    (fun di =>
  and_then (new_translator pf) (fun tr =>
  and_then (when_available pf (new_container_client pf)) (fun cc =>
  and_then (when_available pf (new_search_client pf)) (fun sc =>
  and_then (ensure_index_exists pf sc) (fun _ =>
  Return {| processing_settings := config;
            doc_intelligence_client := di;
            translator := tr;
            container_client := cc;
            search_client := sc;
            runtime := platform_runtime pf |})))))).

(** ** The command line *)

(** The parsed arguments of [main]. *)
Record Args : Type := {
  arg_files : list string;
  arg_batch : option string;
  arg_config : string;
  arg_output_dir : option string;
  arg_verbose : bool
}.

(** The file system as [main] sees it, and the order in which the
    documents of a run complete. *)
Record Shell : Type := {
  (** [Path(p).exists()] *)
  path_exists : string -> bool;
  (** [str(f) for f in Path(directory).glob(pattern)] *)
  glob : string -> string -> list string;
  completion_of : list string -> list nat
}.

(** Lines 868-891: the files to process, or the exit code. *)
Definition files_to_process (sh : Shell) (pipeline : MultilingualRAGPipeline)
    (args : Args) : Z + list string :=
  match arg_batch args with
  | Some (String c rest) =>
      let batch := String c rest in
      if negb (path_exists sh batch) then inl 1
      else
        match supported_formats (processing_settings pipeline) with
        | None => inl 1
        | Some formats =>
            let files :=
              flat_map (fun fmt => glob sh batch ("*." ++ fmt)) formats in
            match files with
            | [] => inl 1
            | _ => inr files
            end
        end
  | _ =>
      match arg_files args with
      | [] => inl 2
      | files => inr files
      end
  end.

(** Lines 864-912: what [main] does once the arguments are parsed, as
    the exit code of the process. *)
Definition run_main (pf : Platform) (sh : Shell) (args : Args) : Z :=
  match new_pipeline pf (arg_config args) with
  | Raise _ => 1
  | Return pipeline =>
      match files_to_process sh pipeline args with
      | inl code => code
      | inr file_paths =>
          if negb (forallb (path_exists sh) file_paths) then 1
          else
            match ingest_documents pipeline (completion_of sh file_paths)
                    file_paths (arg_output_dir args) with
            | Raise _ => 1
            | Return result =>
                if PipelineResult.success result then 0 else 1
            end
      end
  end.

(** The [nargs] of an argument, as far as [argparse] distinguishes
    them. *)
Inductive Nargs : Type :=
| NargsOne
| NargsOptional
| NargsZeroOrMore
| NargsOneOrMore.

(** [argparse]: whether a positional argument is required. It is, unless
    its [nargs] is ['?'], or ['*'] with a default value. *)
Definition positional_required (nargs : Nargs) (has_default : bool) : bool :=
  match nargs with
  | NargsOptional => false
  | NargsZeroOrMore => negb has_default
  | NargsOne | NargsOneOrMore => true
  end.

(** [argparse]: adding an argument to a mutually exclusive group. *)
Definition add_to_exclusive_group (required : bool) : Outcome unit :=
  if required
  then Raise (ValueError "mutually exclusive arguments must be optional")
  else Return tt.

(** Lines 836-856: the construction of the argument parser. The
    positional [files] has [nargs="*"] and no default; [--batch] is an
    option. The arguments outside the group cannot fail. *)
Definition build_parser : Outcome unit :=
  and_then (add_to_exclusive_group (positional_required NargsZeroOrMore false))
    (fun _ => add_to_exclusive_group false).

(** Lines 832-922: [main]. It returns the exit code it asks for, or
    raises: the parser is built outside the [try] of line 864, so its
    exception reaches the interpreter. [args] is what [parse_args] gives
    once there is a parser. *)
Definition main (pf : Platform) (sh : Shell) (args : Args) : Outcome Z :=
  and_then build_parser (fun _ => Return (run_main pf sh args)).

(** ** The set-up script *)

Module Setup.

(** The machine [setup.py] runs on. *)
Record Machine : Type := {
  python_major : Z;
  python_minor : Z;
  (** [sys.real_prefix], [sys.base_prefix] when they exist, [sys.prefix] *)
  real_prefix : option string;
  base_prefix : option string;
  prefix : string;
  (** what the user types at a prompt *)
  input : string -> string;
  (** whether the command exits with status 0 *)
  command_succeeds : string -> bool;
  template_exists : bool;
  config_exists : bool;
  (** [config_template.read_text()] *)
  read_template : Outcome string;
  (** [config_file.write_text(text)] *)
  write_config : string -> Outcome unit;
  (** whether the pipeline module can be imported *)
  import_succeeds : bool
}.

(** What the script asks of the user and does to the machine: a prompt,
    a command run, a call of [write_text] on the configuration file. *)
Inductive Action : Type :=
| Asked (prompt : string)
| Ran (command : string)
| Wrote (text : string).

(** [setup.py], lines 15-25. *)
Definition run_command (m : Machine) (command : string)
  : bool * list Action :=
  (command_succeeds m command, [Ran command]).

(** [setup.py], lines 28-36. *)
Definition check_python_version (m : Machine) : bool :=
  negb ((python_major m <? 3)
        || ((python_major m =? 3) && (python_minor m <? 8))).

Definition in_venv (m : Machine) : bool :=
  match real_prefix m with
  | Some _ => true
  | None =>
      match base_prefix m with
      | Some base => negb (String.eqb base (prefix m))
      | None => false
      end
  end.

Definition continue_prompt : string := "   Continue anyway? (y/N): ".
Definition overwrite_prompt : string := "   Overwrite? (y/N): ".

(** [setup.py], lines 39-55. *)
Definition install_dependencies (m : Machine) : bool * list Action :=
  if negb (in_venv m)
  then
    let response := input m continue_prompt in
    if negb (String.eqb (Py.lower response) "y")
    then (false, [Asked continue_prompt])
    else
      let '(ok, actions) :=
        run_command m "pip install -r requirements.txt" in
      (ok, (Asked continue_prompt :: actions)%list)
  else run_command m "pip install -r requirements.txt".

(** [setup.py], lines 72-81: the copy of the template, read twice as in
    the source. *)
Definition copy_template (m : Machine) : bool * list Action :=
  match read_template m with
  | Raise _ => (false, [])
  | Return _ =>
      match read_template m with
      | Raise _ => (false, [])
      | Return text =>
          match write_config m text with
          | Raise _ => (false, [Wrote text])
          | Return _ => (true, [Wrote text])
          end
      end
  end.

(** [setup.py], lines 58-81. *)
Definition setup_configuration (m : Machine) : bool * list Action :=
  if negb (template_exists m) then (false, [])
  else if config_exists m
  then
    let response := input m overwrite_prompt in
    if negb (String.eqb (Py.lower response) "y")
    then (true, [Asked overwrite_prompt])
    else
      let '(ok, actions) := copy_template m in
      (ok, (Asked overwrite_prompt :: actions)%list)
  else copy_template m.

(** [setup.py], lines 84-96. *)
Definition verify_setup (m : Machine) : bool := import_succeeds m.

(** [setup.py], lines 120-144: [main], as the exit code and what was
    done. *)
Definition main (m : Machine) : Z * list Action :=
  if negb (check_python_version m) then (1, [])
  else
    let '(installed, a1) := install_dependencies m in
    if negb installed then (1, a1)
    else
      let '(configured, a2) := setup_configuration m in
      if negb configured then (1, (a1 ++ a2)%list)
      else
        let _ := verify_setup m in
        (0, (a1 ++ a2)%list).

Definition wrote (a : Action) : bool :=
  match a with Wrote _ => true | _ => false end.

Definition ran (a : Action) : bool :=
  match a with Ran _ => true | _ => false end.

End Setup.

(** ** Machines to run the command line and the set-up on *)

Module Site.

(** A platform with the Azure libraries, whose services answer as those of
    [Demo.pipeline]. *)
Definition cloud : Platform :=
  {| AZURE_LIBS_AVAILABLE := true;
     load_config := fun _ => Return Demo.settings;
     new_document_intelligence_client := Return Demo.analysis;
     new_translator := Return Demo.azure_translator;
     new_container_client := Return Demo.storage;
     new_search_client := Return Demo.search;
     create_or_update_search_index := Return tt;
     platform_runtime := Demo.rt |}.

(** The same platform without the Azure libraries. *)
Definition bare : Platform :=
  {| AZURE_LIBS_AVAILABLE := false;
     load_config := fun _ => Return Demo.settings;
     new_document_intelligence_client := Return Demo.analysis;
     new_translator := Return Demo.azure_translator;
     new_container_client := Return Demo.storage;
     new_search_client := Return Demo.search;
     create_or_update_search_index := Return tt;
     platform_runtime := Demo.rt |}.

(** A machine with Python 3.11 outside a virtual environment, with a
    configuration file already in place, and a user who answers [n]. *)
Definition laptop : Setup.Machine :=
  {| Setup.python_major := 3;
     Setup.python_minor := 11;
     Setup.real_prefix := None;
     Setup.base_prefix := Some "/usr";
     Setup.prefix := "/usr";
     Setup.input := fun _ => "n";
     Setup.command_succeeds := fun _ => true;
     Setup.template_exists := true;
     Setup.config_exists := true;
     Setup.read_template := Return "{}";
     Setup.write_config := fun _ => Return tt;
     Setup.import_succeeds := false |}.

(** The same machine inside a virtual environment, without a
    configuration file yet. *)
Definition fresh : Setup.Machine :=
  {| Setup.python_major := 3;
     Setup.python_minor := 11;
     Setup.real_prefix := None;
     Setup.base_prefix := Some "/usr";
     Setup.prefix := "/home/me/env";
     Setup.input := fun _ => "n";
     Setup.command_succeeds := fun _ => true;
     Setup.template_exists := true;
     Setup.config_exists := false;
     Setup.read_template := Return "{}";
     Setup.write_config := fun _ => Return tt;
     Setup.import_succeeds := false |}.

End Site.

(** * Properties *)

(** ** Strings: [split], [strip], [join] *)

Section StringFacts.

Lemma length_append (a b : string) :
  String.length (a ++ b) = (String.length a + String.length b)%nat.
Proof. induction a as [|c a IH]; simpl; [reflexivity | now rewrite IH]. Qed.

Lemma is_empty_true (s : string) : Py.is_empty s = true -> s = "".
Proof. destruct s; simpl; [reflexivity | discriminate]. Qed.

Lemma is_empty_append (a b : string) :
  Py.is_empty b = false -> Py.is_empty (a ++ b) = false.
Proof. destruct a; simpl; auto. Qed.

Lemma rstrip_append (a b : string) :
  Py.is_empty b = false -> Py.rstrip b = b -> Py.rstrip (a ++ b) = a ++ b.
Proof.
  intros Hb Hr. induction a as [|c a IH]; simpl; [exact Hr|].
  rewrite IH, (is_empty_append a b Hb), andb_false_r. reflexivity.
Qed.

Lemma lstrip_append (a b : string) :
  a <> "" -> Py.lstrip a = a -> Py.lstrip (a ++ b) = a ++ b.
Proof.
  destruct a as [|c a]; [congruence|]. simpl. intros _.
  destruct (Py.isspace c) eqn:E; [|reflexivity].
  intros H. apply (f_equal String.length) in H. simpl in H.
  assert (String.length (Py.lstrip a) <= String.length a)%nat.
  { clear. induction a as [|d a IH]; simpl; [lia|].
    destruct (Py.isspace d); simpl; lia. }
  lia.
Qed.

Lemma token_single (c : ascii) :
  Py.isspace c = false -> token (String c "").
Proof.
  intros E. repeat split; simpl; [discriminate | now rewrite E | now rewrite E].
Qed.

Lemma token_snoc (cur : string) (c : ascii) :
  cur = "" \/ token cur -> Py.isspace c = false ->
  token (cur ++ String c "").
Proof.
  intros [->|(Hne & Hl & Hr)] E; [now apply token_single|].
  destruct (token_single c E) as (_ & _ & Hr').
  repeat split.
  - destruct cur; [congruence | discriminate].
  - now apply lstrip_append.
  - now apply rstrip_append.
Qed.

Lemma pending_word_token (cur : string) :
  cur = "" \/ token cur ->
  Forall token (if Py.is_empty cur then [] else [cur]).
Proof.
  intros [->|H]; simpl; [constructor|].
  destruct (Py.is_empty cur); [constructor|].
  constructor; [assumption | constructor].
Qed.

Lemma split_from_tokens (s cur : string) :
  cur = "" \/ token cur -> Forall token (Py.split_from cur s).
Proof.
  revert cur. induction s as [|c s IH]; intros cur Hcur; simpl.
  - now apply pending_word_token.
  - destruct (Py.isspace c) eqn:E.
    + apply Forall_app. split; [now apply pending_word_token|].
      apply IH; now left.
    + apply IH. right. now apply token_snoc.
Qed.

Lemma split_tokens (s : string) : Forall token (Py.split s).
Proof. apply split_from_tokens. now left. Qed.

Lemma rendered_cons (w : string) (ws : list string) :
  ws <> [] -> rendered (w :: ws) = w ++ " " ++ rendered ws.
Proof. destruct ws; [congruence | reflexivity]. Qed.

(** Joining tokens with one space gives a string [strip] leaves alone. *)
Lemma strip_rendered (ws : list string) :
  Forall token ws -> Py.strip (rendered ws) = rendered ws.
Proof.
  intros H. unfold Py.strip.
  assert (Hl : Py.lstrip (rendered ws) = rendered ws).
  { destruct H as [|w ws (Hne & Hl & _) _]; [reflexivity|].
    destruct ws as [|w' ws]; [exact Hl|].
    rewrite rendered_cons by discriminate. now apply lstrip_append. }
  rewrite Hl. clear Hl.
  induction H as [|w ws (Hne & Hl & Hr) Hws IH]; [reflexivity|].
  destruct ws as [|w' ws]; [exact Hr|].
  rewrite rendered_cons by discriminate.
  apply rstrip_append; [|].
  - inversion Hws as [|? ? (Hne' & _) _]; subst.
    destruct ws; [destruct w'; [congruence | reflexivity]|].
    rewrite rendered_cons by discriminate.
    destruct w'; [congruence | reflexivity].
  - change (String " " (rendered (w' :: ws)))
      with (String " " "" ++ rendered (w' :: ws)).
    apply rstrip_append; [|exact IH].
    inversion Hws as [|? ? (Hne' & _) _]; subst.
    destruct ws; [destruct w'; [congruence | reflexivity]|].
    rewrite rendered_cons by discriminate.
    destruct w'; [congruence | reflexivity].
Qed.

Lemma rstrip_length (s : string) :
  (String.length (Py.rstrip s) <= String.length s)%nat.
Proof.
  induction s as [|c s IH]; simpl; [lia|].
  destruct (Py.isspace c && Py.is_empty (Py.rstrip s)); simpl; lia.
Qed.

Lemma lstrip_length (s : string) :
  (String.length (Py.lstrip s) <= String.length s)%nat.
Proof.
  induction s as [|c s IH]; simpl; [lia|].
  destruct (Py.isspace c); simpl; lia.
Qed.

Lemma strip_length (s : string) : Py.len_str (Py.strip s) <= Py.len_str s.
Proof.
  unfold Py.len_str, Py.strip.
  pose proof (rstrip_length (Py.lstrip s)). pose proof (lstrip_length s).
  lia.
Qed.

Lemma room_app (a b : list string) : room (a ++ b) = (room a + room b)%nat.
Proof. unfold room. now rewrite map_app, list_sum_app. Qed.

Lemma split_from_room (s cur : string) :
  (room (Py.split_from cur s)
   <= String.length cur + String.length s + 1)%nat.
Proof.
  revert cur. induction s as [|c s IH]; intros cur; simpl.
  - destruct (Py.is_empty cur); unfold room; simpl; lia.
  - destruct (Py.isspace c).
    + rewrite room_app. specialize (IH ""). simpl in IH.
      destruct (Py.is_empty cur); unfold room at 1; simpl; lia.
    + specialize (IH (cur ++ String c "")).
      rewrite length_append in IH. simpl in IH. lia.
Qed.

Lemma room_window (ws : list string) (n m : nat) :
  (room (firstn n (skipn m ws)) <= room ws)%nat.
Proof.
  rewrite <- (firstn_skipn m ws) at 2.
  rewrite <- (firstn_skipn n (skipn m ws)) at 2.
  rewrite !room_app. lia.
Qed.

(** No window of the tokens of a text renders longer than the text. *)
Lemma rendered_window_length (s : string) (n m : nat) :
  Py.len_str (rendered (firstn n (skipn m (Py.split s)))) <= Py.len_str s.
Proof.
  unfold Py.len_str. apply inj_le.
  destruct (firstn n (skipn m (Py.split s))) as [|w ws] eqn:E;
    [simpl; lia|].
  pose proof (room_window (Py.split s) n m) as H1. rewrite E in H1.
  pose proof (split_from_room s "") as H2. fold (Py.split s) in H2.
  simpl in H2.
  assert (S (String.length (rendered (w :: ws))) <= room (w :: ws))%nat.
  { clear. revert w. induction ws as [|w' ws IH]; intros w.
    - unfold room, rendered, Py.join; simpl; lia.
    - rewrite rendered_cons by discriminate. rewrite length_append.
      change (room (w :: w' :: ws))
        with (S (String.length w) + room (w' :: ws))%nat.
      specialize (IH w'). simpl String.length at 2. lia. }
  lia.
Qed.

End StringFacts.

(** ** [range] and slices *)

Section RangeFacts.

Lemma range_up_indices (stop step : Z) (fuel : nat) (i : Z) :
  0 < step -> stop - i <= Z.of_nat fuel ->
  Py.range_up fuel i stop step
  = map (fun k => i + Z.of_nat k * step)
        (seq 0 (Z.to_nat ((stop - i + step - 1) / step))).
Proof.
  intros Hstep. revert i.
  assert (Hnone : forall i, stop <= i ->
            Z.to_nat ((stop - i + step - 1) / step) = 0%nat).
  { intros i Hi.
    assert ((stop - i + step - 1) / step < 1)
      by (apply Z.div_lt_upper_bound; lia).
    lia. }
  induction fuel as [|fuel IH]; intros i Hfuel; simpl.
  - rewrite Hnone by lia. reflexivity.
  - destruct (Z.ltb_spec i stop) as [Hlt|Hge];
      [|rewrite Hnone by lia; reflexivity].
    rewrite IH by lia.
    replace (stop - (i + step) + step - 1)
      with ((stop - i + step - 1) + (-1) * step) by ring.
    rewrite Z.div_add by lia.
    assert (1 <= (stop - i + step - 1) / step)
      by (apply Z.div_le_lower_bound; lia).
    replace (Z.to_nat ((stop - i + step - 1) / step))
      with (S (Z.to_nat ((stop - i + step - 1) / step + -1))) by lia.
    simpl seq. rewrite <- seq_shift. simpl map. rewrite map_map.
    f_equal; [lia|]. apply map_ext. intros k. lia.
Qed.

Lemma window_count_Z (n st : nat) :
  (0 < st)%nat ->
  Z.to_nat ((Z.of_nat n - 0 + Z.of_nat st - 1) / Z.of_nat st)
  = window_count n st.
Proof.
  intros Hst. unfold window_count.
  replace (Z.of_nat n - 0 + Z.of_nat st - 1)
    with (Z.of_nat (n + st - 1)) by lia.
  rewrite <- Nat2Z.inj_div. apply Nat2Z.id.
Qed.

Lemma window_start_inside (n st k : nat) :
  (0 < st)%nat -> (k < window_count n st)%nat -> (k * st < n)%nat.
Proof.
  unfold window_count. intros Hst Hk.
  destruct (Nat.lt_ge_cases (k * st) n) as [|Hge]; [assumption|].
  exfalso.
  assert ((n + st - 1) / st < S k)%nat
    by (apply Nat.Div0.div_lt_upper_bound; lia).
  lia.
Qed.

Lemma slice_window {A} (words : list A) (cs : Z) (st k : nat) :
  0 < cs -> (k * st < List.length words)%nat ->
  Py.slice words (Z.of_nat (k * st)) (Z.of_nat (k * st) + cs)
  = firstn (Z.to_nat cs) (skipn (k * st) words).
Proof.
  intros Hcs Hk. unfold Py.slice, Py.slice_bound, Py.len.
  destruct (Z.ltb_spec (Z.of_nat (k * st)) 0) as [|_]; [lia|].
  destruct (Z.ltb_spec (Z.of_nat (k * st) + cs) 0) as [|_]; [lia|].
  rewrite (Z.min_l (Z.of_nat (k * st))) by lia.
  rewrite Nat2Z.id.
  destruct (Z.le_gt_cases (Z.of_nat (k * st) + cs)
              (Z.of_nat (List.length words))) as [Hin|Hout].
  - rewrite Z.min_l by lia. f_equal. lia.
  - rewrite Z.min_r by lia.
    rewrite !firstn_all2; [reflexivity | |]; rewrite length_skipn; lia.
Qed.

End RangeFacts.

(** ** The fallback chunker *)

Section SimpleChunks.
Variables (cs min_size : Z) (words : list string) (filename u : string).

Let step_fn := simple_chunk_step cs min_size words filename u.
Let text_at (i : Z) : string := Py.join " " (Py.slice words i (i + cs)).
Let keeps (t : string) : bool := min_size <=? Py.len_str (Py.strip t).

(** The loop keeps what it had and appends, in order, the texts that
    pass the size test. *)
Lemma simple_chunks_loop (indices : list Z) (chunks : list Document) :
  map content (fold_left step_fn indices chunks)
  = (map content chunks ++ filter keeps (map text_at indices))%list.
Proof.
  revert chunks. induction indices as [|i indices IH]; intros chunks.
  - simpl. now rewrite app_nil_r.
  - simpl fold_left. rewrite IH. simpl map. simpl filter.
    unfold step_fn at 1, simple_chunk_step.
    fold (text_at i). change (min_size <=? Py.len_str (Py.strip (text_at i)))
      with (keeps (text_at i)).
    destruct (keeps (text_at i)); [|reflexivity].
    rewrite map_app. simpl. now rewrite <- app_assoc.
Qed.

End SimpleChunks.

Lemma filter_none {A} (f : A -> bool) (l : list A) :
  (forall x, In x l -> f x = false) -> filter f l = [].
Proof.
  induction l as [|a l IH]; intros H; simpl; [reflexivity|].
  rewrite (H a) by now left. apply IH. intros x Hx. apply H. now right.
Qed.

Lemma window_tokens (text : string) (cs st k : nat) :
  Forall token (window (Py.split text) cs st k).
Proof.
  unfold window. pose proof (split_tokens text) as H.
  rewrite <- (firstn_skipn (k * st) (Py.split text)) in H.
  apply Forall_app in H. destruct H as [_ H].
  rewrite <- (firstn_skipn cs (skipn (k * st) (Py.split text))) in H.
  apply Forall_app in H. exact (proj1 H).
Qed.

(** What [_create_simple_chunks] returns when the step is positive: the
    rendered windows that are long enough, in order. *)
Lemma create_simple_chunks_windows (ps : ProcessingSettings)
    (text filename u : string) :
  let cs := Py.get (chunk_size ps) 1000 in
  let overlap := Py.get (chunk_overlap ps) 100 in
  let min_size := Py.get (min_chunk_size ps) 50 in
  0 < overlap < cs ->
  exists chunks,
    _create_simple_chunks ps text filename u = Return chunks /\
    map content chunks
    = filter (fun t => min_size <=? Py.len_str t)
        (map rendered
           (sliding_windows (Py.split text) (Z.to_nat cs)
              (Z.to_nat (cs - overlap)))).
Proof.
  intros cs overlap min_size Hov.
  unfold _create_simple_chunks. fold cs overlap min_size.
  set (words := Py.split text). set (st := Z.to_nat (cs - overlap)).
  assert (Hst : Z.of_nat st = cs - overlap) by (unfold st; lia).
  unfold Py.range.
  destruct (Z.eqb_spec (cs - overlap) 0) as [|_]; [lia|].
  destruct (Z.ltb_spec 0 (cs - overlap)) as [_|]; [|lia].
  eexists. split; [reflexivity|].
  rewrite simple_chunks_loop. cbv zeta. simpl app.
  rewrite range_up_indices by lia.
  rewrite <- Hst. unfold Py.len at 1. rewrite window_count_Z by lia.
  unfold sliding_windows. rewrite !map_map.
  erewrite map_ext_in
    with (g := fun k => rendered (window words (Z.to_nat cs) st k)).
  - apply filter_ext_in. intros t Ht. apply in_map_iff in Ht.
    destruct Ht as (k & <- & _). cbv beta. unfold words.
    now rewrite (strip_rendered _ (window_tokens text (Z.to_nat cs) st k)).
  - intros k Hk. apply in_seq in Hk. unfold rendered, window. f_equal.
    replace (0 + Z.of_nat k * Z.of_nat st) with (Z.of_nat (k * st)) by lia.
    apply slice_window; [lia|].
    apply window_start_inside; lia.
Qed.

(** C4. With [0 < overlap < chunkSize] (and whatever the minimum is, so in
    particular when [minChunkSize <= chunkSize]) the fallback chunker
    returns, without an error, the whitespace-joined windows of [chunkSize]
    tokens taken every [chunkSize - overlap] tokens whose length is at
    least [minChunkSize], in order; the shorter windows are left out; every
    chunk it returns is at least [minChunkSize] long; and a text that is
    empty or shorter than [minChunkSize] gives the empty list. *)
Theorem create_simple_chunks_sliding_window (ps : ProcessingSettings)
    (text filename u : string) :
  let cs := Py.get (chunk_size ps) 1000 in
  let overlap := Py.get (chunk_overlap ps) 100 in
  let min_size := Py.get (min_chunk_size ps) 50 in
  0 < overlap < cs -> min_size <= cs ->
  exists chunks,
    _create_simple_chunks ps text filename u = Return chunks /\
    map content chunks
    = filter (fun t => min_size <=? Py.len_str t)
        (map rendered
           (sliding_windows (Py.split text) (Z.to_nat cs)
              (Z.to_nat (cs - overlap)))) /\
    (forall c, In c chunks -> min_size <= Py.len_str (content c)) /\
    (text = "" \/ Py.len_str text < min_size -> chunks = []).
Proof.
  intros cs overlap min_size Hov _.
  destruct (create_simple_chunks_windows ps text filename u Hov)
    as (chunks & Hrun & Hmap).
  fold cs overlap min_size in Hmap.
  exists chunks. split; [exact Hrun|]. split; [exact Hmap|]. split.
  - intros c Hc. apply (in_map content) in Hc. rewrite Hmap in Hc.
    apply filter_In in Hc. destruct Hc as [_ Hc]. lia.
  - intros Hsmall. apply (map_eq_nil content). rewrite Hmap.
    destruct Hsmall as [->|Hshort].
    { unfold sliding_windows, window_count. simpl List.length.
      rewrite Nat.div_small by lia. reflexivity. }
    apply filter_none. intros t Ht. apply in_map_iff in Ht.
    destruct Ht as (w & <- & Hw). apply in_map_iff in Hw.
    destruct Hw as (k & <- & _). unfold window.
    pose proof (rendered_window_length text (Z.to_nat cs)
                  (k * Z.to_nat (cs - overlap))).
    lia.
Qed.

Lemma create_simple_chunks_sliding_window_witness :
  0 < 1 < 4 /\ 4 <= 4 /\
  exists chunks,
    _create_simple_chunks Demo.settings "aa bb cc dd ee ff gg hh ii y" "f.txt"
      "http://blob" = Return chunks /\
    map content chunks = ["aa bb cc dd"; "dd ee ff gg"; "gg hh ii y"] /\
    _create_simple_chunks Demo.settings "a b" "f.txt" "http://blob"
    = Return [].
Proof.
  split; [lia|]. split; [lia|].
  destruct (create_simple_chunks_sliding_window Demo.settings
              "aa bb cc dd ee ff gg hh ii y" "f.txt" "http://blob")
    as (chunks & Hrun & Hmap & _); [simpl; lia | simpl; lia |].
  destruct (create_simple_chunks_sliding_window Demo.settings
              "a b" "f.txt" "http://blob")
    as (none & Hrun' & _ & _ & Hnone); [simpl; lia | simpl; lia |].
  exists chunks. split; [exact Hrun|]. split; [exact Hmap|].
  rewrite Hrun'. f_equal. apply Hnone. right. vm_compute. reflexivity.
Defined.

(** ** Running the monad *)

Section MonadFacts.
Context {A B : Type}.

Lemma bind_return (m : M A) (k : A -> M B) (h h' : History) (a : A) :
  m h = (Return a, h') -> bind m k h = k a h'.
Proof. unfold bind. now intros ->. Qed.

Lemma bind_raise (m : M A) (k : A -> M B) (h h' : History) (e : PyExc) :
  m h = (Raise e, h') -> bind m k h = (Raise e, h').
Proof. unfold bind. now intros ->. Qed.

Lemma try_return (m : M A) (handler : PyExc -> M A) (h h' : History)
    (a : A) :
  m h = (Return a, h') -> try_except m handler h = (Return a, h').
Proof. unfold try_except. now intros ->. Qed.

Lemma try_raise (m : M A) (handler : PyExc -> M A) (h h' : History)
    (e : PyExc) :
  m h = (Raise e, h') -> try_except m handler h = handler e h'.
Proof. unfold try_except. now intros ->. Qed.

(** A [try] whose handler returns a value never raises. *)
Lemma try_total (m : M A) (fallback : PyExc -> A) (h : History) :
  exists a h', try_except m (fun e => ret (fallback e)) h = (Return a, h').
Proof.
  unfold try_except, ret. destruct (m h) as [[a|e] h']; eauto.
Qed.

End MonadFacts.

(** Destructs the outcome, or the tuple, the goal is waiting for. *)
Ltac case_outcome :=
  match goal with
  | |- context [match ?x with pair _ _ => _ end] =>
      is_var x; destruct x
  | |- context [if ?c then _ else _] => destruct c
  | |- context [match ?m ?h with pair _ _ => _ end] =>
      let o := fresh "o" in let h' := fresh "h" in let E := fresh "E" in
      destruct (m h) as [o h'] eqn:E; destruct o
  end.

(** Runs a sequence of binds by cases on what each step gives. *)
Ltac run_steps :=
  unfold bind;
  repeat (cbv beta iota;
          first [ reflexivity
                | let H := fresh in intro H; discriminate H
                | case_outcome ]).

(** ** The language decision *)

Section LanguageDecision.
Variable self : MultilingualRAGPipeline.

Let tr := translator self.
Let ps := processing_settings self.

(** The decision always returns: both collaborator calls sit inside the
    [try]. *)
Lemma detect_and_translate_total (text : string) (h : History) :
  exists v h', detect_and_translate self text h = (Return v, h').
Proof. apply (try_total _ (fun _ => ("unknown", text, None, None))). Qed.

(** The four shapes of what the decision returns. *)
Lemma detect_and_translate_cases (text : string) (h h' : History)
    (lang final : string) (translated_text : option string)
    (stats : option Stats) :
  detect_and_translate self text h
  = (Return (lang, final, translated_text, stats), h') ->
  (final = text /\ translated_text = None /\ stats = None)
  \/ (translated_text = Some final
      /\ Py.get (translation_enabled ps) true = true
      /\ exists s,
           translate_text tr (CallDetectLanguage text :: h) text "en"
           = Return (final, s) /\ stats = Some s).
Proof.
  unfold detect_and_translate, try_except, bind, call, ret. cbv zeta.
  fold tr ps.
  destruct (detect_language tr h text) as [l|e];
    [|intros [= <- <- <- <- <-]; now left].
  destruct (Py.get (translation_enabled ps) true); simpl;
    [|intros [= <- <- <- <- <-]; now left].
  destruct (String.eqb l "en" && negb (Py.get (force_translation ps) false));
    [intros [= <- <- <- <- <-]; now left|].
  destruct (translate_text tr (CallDetectLanguage text :: h) text "en")
    as [[t s]|e]; [|intros [= <- <- <- <- <-]; now left].
  intros [= <- <- <- <- <-]. right. eauto.
Qed.

End LanguageDecision.

(** C6. With [translation_enabled] false the language decision returns the
    input text itself and no translated text (so the document's
    [translated] flag is false), whatever language was detected and also
    when detection fails. *)
Theorem translation_disabled_keeps_text (self : MultilingualRAGPipeline)
    (text : string) (h : History) :
  translation_enabled (processing_settings self) = Some false ->
  exists lang,
    detect_and_translate self text h
    = (Return (lang, text, None, None), CallDetectLanguage text :: h)
    /\ (forall l, detect_language (translator self) h text = Return l ->
                  lang = l).
Proof.
  intros Hoff.
  unfold detect_and_translate, try_except, bind, call, ret. cbv zeta.
  rewrite Hoff. simpl.
  destruct (detect_language (translator self) h text) as [l|e].
  - exists l. split; [reflexivity | now intros ? [= ->]].
  - exists "unknown". split; [reflexivity | discriminate].
Qed.

Lemma translation_disabled_keeps_text_witness :
  translation_enabled Demo.no_translation = Some false /\
  fst (detect_and_translate
         Demo.untranslated Demo.french [])
  = Return ("fr", Demo.french, None, None).
Proof.
  split; [reflexivity|].
  destruct (translation_disabled_keeps_text Demo.untranslated
              Demo.french [] eq_refl) as (lang & Hrun & Hlang).
  rewrite Hrun. simpl. now rewrite (Hlang "fr" eq_refl).
Defined.

(** ** The per-document worker *)

Section Worker.
Variable self : MultilingualRAGPipeline.
Variable file_path : string.
Variable output_dir : option string.

Let rt := runtime self.
Let ps := processing_settings self.
Let fmt := format_of self file_path.

(** The [try] of the worker turns a raised exception into a failed
    result and passes a returned result on. *)
Lemma process_single_document_unfold (h : History) :
  _process_single_document self file_path output_dir h
  = match process_steps self file_path fmt h with
    | (Return r, h') => (Return r, h')
    | (Raise e, h') => (Return (failed_result self file_path e), h')
    end.
Proof. reflexivity. Qed.

Lemma process_steps_after_decision (h h1 h2 h3 : History)
    (blob text lang final : string) (translated_text : option string)
    (stats : option Stats) :
  in_list fmt (Py.get (supported_formats ps) []) = true ->
  upload_document self (path_str rt file_path) None h = (Return blob, h1) ->
  extract_text self (path_str rt file_path) fmt h1 = (Return text, h2) ->
  Py.is_empty text || (Py.len_str (Py.strip text) <? 50) = false ->
  detect_and_translate self text h2
  = (Return (lang, final, translated_text, stats), h3) ->
  process_steps self file_path fmt h
  = after_decision self file_path blob lang final
      (match translated_text with Some _ => true | None => false end)
      stats h3.
Proof.
  intros Hfmt Hup Hex Hlen Hdec. unfold process_steps. cbv zeta.
  fold rt ps. rewrite Hfmt. cbn [negb].
  rewrite (bind_return _ _ _ _ _ Hup).
  rewrite (bind_return _ _ _ _ _ Hex).
  rewrite Hlen.
  rewrite (bind_return _ _ _ _ _ Hdec).
  reflexivity.
Qed.

(** The steps are the ones before indexing, then indexing, then the
    construction of the successful result. *)
Lemma process_steps_split (h : History) :
  process_steps self file_path fmt h
  = bind (before_indexing self file_path fmt)
      (fun '(blob, lang, is_translated, stats, chunks) =>
         indexed_chunks <- index_chunks self chunks ;;
         ret (DocumentProcessingResult.make true (path_str rt file_path) fmt
                lang is_translated (Some blob) indexed_chunks None stats))
      h.
Proof.
  unfold process_steps, before_indexing. cbv zeta.
  destruct (negb _); [reflexivity|]. run_steps.
Qed.

(** A result the steps return is a success without an error message. *)
Lemma process_steps_success (h h' : History)
    (r : DocumentProcessingResult.t) :
  process_steps self file_path fmt h = (Return r, h') ->
  DocumentProcessingResult.success r = true
  /\ DocumentProcessingResult.error_message r = None.
Proof.
  unfold process_steps. cbv zeta.
  destruct (negb _); [discriminate|].
  run_steps; unfold ret; intros [= <- <-]; split; reflexivity.
Qed.

(** The worker always returns a result; it is a success exactly when the
    steps returned. *)
Lemma process_single_document_total (h : History) :
  exists r h',
    _process_single_document self file_path output_dir h = (Return r, h')
    /\ (DocumentProcessingResult.translated r = true ->
        DocumentProcessingResult.success r = true).
Proof.
  rewrite process_single_document_unfold.
  destruct (process_steps self file_path fmt h) as [[r|e] h'] eqn:E.
  - exists r, h'. split; [reflexivity|]. intros _.
    exact (proj1 (process_steps_success _ _ _ E)).
  - exists (failed_result self file_path e), h'.
    split; [reflexivity | discriminate].
Qed.

End Worker.

(** ** Chunking and indexing inside the worker *)

Section Degradation.
Variable self : MultilingualRAGPipeline.

Let rt := runtime self.
Let ps := processing_settings self.

(** Chunking falls back to [_create_simple_chunks]; with a step other than
    zero the fallback cannot raise, so chunking returns. *)
Lemma chunk_and_embed_total (text filename u file_format : string)
    (h : History) :
  Py.get (chunk_size ps) 1000 - Py.get (chunk_overlap ps) 100 <> 0 ->
  exists chunks h',
    _chunk_and_embed_content self text filename u file_format h
    = (Return chunks, h').
Proof.
  intros Hstep. unfold _chunk_and_embed_content, try_except. cbv zeta.
  fold ps. case_outcome; [eauto|].
  unfold lift, _create_simple_chunks, Py.range.
  destruct (Z.eqb_spec (Py.get (chunk_size ps) 1000
                        - Py.get (chunk_overlap ps) 100) 0) as [|_];
    [contradiction|].
  destruct (0 <? _); eauto.
Qed.

Lemma doc_dicts_total (chunks : list Document) (h : History) :
  exists docs h', mapM (doc_dict self) chunks h = (Return docs, h').
Proof.
  revert h. induction chunks as [|c chunks IH]; intros h; simpl.
  - unfold ret. eauto.
  - unfold bind at 1. unfold doc_dict at 1, fresh_uuid, bind, call, ret.
    destruct (IH (CallUuid4 :: h)) as (docs & h' & ->). eauto.
Qed.

Lemma index_chunks_total (chunks : list Document) (h : History) :
  exists n h', index_chunks self chunks h = (Return n, h').
Proof.
  unfold index_chunks.
  destruct (search_client self) as [client|]; [|unfold ret; eauto].
  destruct chunks as [|c chunks]; [unfold ret; eauto|].
  destruct (doc_dicts_total (c :: chunks) h) as (docs & h1 & Hdocs).
  rewrite (bind_return _ _ _ _ _ Hdocs).
  apply (try_total _ (fun _ => 0)).
Qed.

(** Once the decision has come back without a translation, the worker
    chunks and indexes and reports a success. *)
Lemma after_decision_untranslated (file_path blob lang text : string)
    (stats : option Stats) (h : History) :
  Py.get (chunk_size ps) 1000 - Py.get (chunk_overlap ps) 100 <> 0 ->
  exists n h',
    after_decision self file_path blob lang text false stats h
    = (Return (DocumentProcessingResult.make true (path_str rt file_path)
                 (format_of self file_path) lang false (Some blob) n None
                 stats), h').
Proof.
  intros Hstep. unfold after_decision. cbv zeta.
  rewrite (bind_return _ _ h h tt eq_refl).
  destruct (chunk_and_embed_total text (path_name rt file_path) blob
              (format_of self file_path) h Hstep) as (chunks & h1 & Hchunk).
  fold rt. rewrite (bind_return _ _ _ _ _ Hchunk).
  destruct (index_chunks_total chunks h1) as (n & h2 & Hindex).
  rewrite (bind_return _ _ _ _ _ Hindex). unfold ret. eauto.
Qed.

End Degradation.

(** C7. When the translation call raises, the language decision returns
    the original text, no translated text and the language ["unknown"];
    the worker goes on with that text and, with a chunking step other than
    zero, reports the document as a success. *)
Theorem translation_failure_keeps_document (self : MultilingualRAGPipeline)
    (text : string) (h : History) (lang : string) (e : PyExc) :
  let ps := processing_settings self in
  let rt := runtime self in
  detect_language (translator self) h text = Return lang ->
  Py.get (translation_enabled ps) true = true ->
  String.eqb lang "en" && negb (Py.get (force_translation ps) false) = false ->
  translate_text (translator self) (CallDetectLanguage text :: h) text "en"
  = Raise e ->
  detect_and_translate self text h
  = (Return ("unknown", text, None, None),
     CallTranslateText text "en" :: CallDetectLanguage text :: h)
  /\ forall (file_path : string) (output_dir : option string)
       (h0 h1 : History) (blob : string),
       in_list (format_of self file_path) (Py.get (supported_formats ps) [])
       = true ->
       upload_document self (path_str rt file_path) None h0
       = (Return blob, h1) ->
       extract_text self (path_str rt file_path) (format_of self file_path) h1
       = (Return text, h) ->
       Py.is_empty text || (Py.len_str (Py.strip text) <? 50) = false ->
       Py.get (chunk_size ps) 1000 - Py.get (chunk_overlap ps) 100 <> 0 ->
       exists n h',
         _process_single_document self file_path output_dir h0
         = (Return (DocumentProcessingResult.make true
                      (path_str rt file_path) (format_of self file_path)
                      "unknown" false (Some blob) n None None), h').
Proof.
  intros ps rt Hdet Hon Hneed Htr.
  assert (Hdec : detect_and_translate self text h
                 = (Return ("unknown", text, None, None),
                    CallTranslateText text "en"
                      :: CallDetectLanguage text :: h)).
  { unfold detect_and_translate, try_except, bind, call, ret. cbv zeta.
    fold ps. rewrite Hdet, Hon. cbn [negb]. rewrite Hneed, Htr.
    reflexivity. }
  split; [exact Hdec|].
  intros file_path output_dir h0 h1 blob Hfmt Hup Hex Hlen Hstep.
  rewrite process_single_document_unfold.
  rewrite (process_steps_after_decision self file_path _ _ _ _ _ _ _ _ _ _
             Hfmt Hup Hex Hlen Hdec).
  destruct (after_decision_untranslated self file_path blob "unknown" text
              None (CallTranslateText text "en" :: CallDetectLanguage text :: h)
              Hstep) as (n & h' & ->).
  eauto.
Qed.

Lemma translation_failure_keeps_document_witness :
  detect_and_translate Demo.untranslatable Demo.french Demo.extracted
  = (Return ("unknown", Demo.french, None, None),
     CallTranslateText Demo.french "en"
       :: CallDetectLanguage Demo.french :: Demo.extracted)
  /\ exists n h',
       _process_single_document Demo.untranslatable "a.txt" None []
       = (Return (DocumentProcessingResult.make true "a.txt" "txt" "unknown"
                    false (Some Demo.blob_of_a) n None None), h').
Proof.
  destruct (translation_failure_keeps_document Demo.untranslatable
              Demo.french Demo.extracted "fr"
              (ExternalError "HTTPError" "translator unavailable")
              eq_refl eq_refl eq_refl eq_refl) as [Hdec Hproc].
  split; [exact Hdec|].
  apply (Hproc "a.txt" None [] Demo.uploaded Demo.blob_of_a);
    vm_compute; solve [reflexivity | discriminate].
Defined.

(** C8. Whenever the language decision returns and the worker's
    [translated] flag is false, the final text is the input text, and it
    is this text that the worker hands to chunking. *)
Theorem untranslated_text_is_input (self : MultilingualRAGPipeline)
    (text : string) (h h' : History) (lang final : string)
    (translated_text : option string) (stats : option Stats) :
  let ps := processing_settings self in
  let rt := runtime self in
  detect_and_translate self text h
  = (Return (lang, final, translated_text, stats), h') ->
  match translated_text with Some _ => true | None => false end = false ->
  final = text
  /\ forall (file_path : string) (h0 h1 : History) (blob : string),
       in_list (format_of self file_path) (Py.get (supported_formats ps) [])
       = true ->
       upload_document self (path_str rt file_path) None h0
       = (Return blob, h1) ->
       extract_text self (path_str rt file_path) (format_of self file_path) h1
       = (Return text, h) ->
       Py.is_empty text || (Py.len_str (Py.strip text) <? 50) = false ->
       process_steps self file_path (format_of self file_path) h0
       = (chunks <- _chunk_and_embed_content self text
                      (path_name rt file_path) blob
                      (format_of self file_path) ;;
          indexed_chunks <- index_chunks self chunks ;;
          ret (DocumentProcessingResult.make true (path_str rt file_path)
                 (format_of self file_path) lang false (Some blob)
                 indexed_chunks None stats)) h'.
Proof.
  intros ps rt Hdec Hflag.
  assert (Hfinal : final = text).
  { destruct (detect_and_translate_cases self text h h' lang final
                translated_text stats Hdec) as [(-> & _)|(-> & _)];
      [reflexivity | discriminate]. }
  split; [exact Hfinal|]. subst final.
  intros file_path h0 h1 blob Hfmt Hup Hex Hlen.
  rewrite (process_steps_after_decision self file_path _ _ _ _ _ _ _ _ _ _
             Hfmt Hup Hex Hlen Hdec).
  rewrite Hflag. reflexivity.
Qed.

Lemma untranslated_text_is_input_witness :
  process_steps Demo.untranslated "a.txt" "txt" []
  = (chunks <- _chunk_and_embed_content Demo.untranslated Demo.french "a.txt"
                 Demo.blob_of_a "txt" ;;
     indexed_chunks <- index_chunks Demo.untranslated chunks ;;
     ret (DocumentProcessingResult.make true "a.txt" "txt" "fr" false
            (Some Demo.blob_of_a) indexed_chunks None None))
      (CallDetectLanguage Demo.french :: Demo.extracted).
Proof.
  destruct (untranslated_text_is_input Demo.untranslated Demo.french
              Demo.extracted (CallDetectLanguage Demo.french :: Demo.extracted)
              "fr" Demo.french None None eq_refl eq_refl) as [_ Hproc].
  apply (Hproc "a.txt" [] Demo.uploaded Demo.blob_of_a); reflexivity.
Defined.

(** ** Indexing *)

(** The count [index_chunks] takes from the indexing results is the number
    of results whose [succeeded] flag is set. *)
Lemma count_succeeded_accepted (results : list bool) :
  count_succeeded results = Z.of_nat (count_occ Bool.bool_dec results true)
  /\ 0 <= count_succeeded results <= Py.len results
  /\ (count_succeeded results = Py.len results <->
      Forall (fun succeeded => succeeded = true) results).
Proof.
  unfold count_succeeded, Py.len.
  induction results as [|[|] results (IH & Hle & Hall)];
    cbn [filter count_occ List.length].
  - repeat split; try lia. constructor.
  - destruct (Bool.bool_dec true true) as [_|Hne]; [|congruence].
    cbn [List.length]. repeat split; try lia.
    + intros H. constructor; [reflexivity | apply Hall; lia].
    + intros H. inversion H as [|? ? _ Hrest]; subst.
      apply Hall in Hrest. lia.
  - destruct (Bool.bool_dec false true) as [Heq|_]; [discriminate|].
    repeat split; try lia.
    intros H. inversion H. discriminate.
Qed.

(** C9. [index_chunks] always returns a number: 0 for an empty chunk list
    (and without a search client), 0 when the upload call raises, and
    otherwise the number of indexing results the index marks as
    succeeded, which lies between 0 and the number of results and reaches
    it exactly when every document was accepted. Hence, once the steps
    before indexing have returned, the worker reports a success whose
    [chunks_count] is that number: 0 after a total indexing failure, fewer
    than submitted after a partial one. *)
Theorem index_chunks_never_raises (self : MultilingualRAGPipeline)
    (chunks : list Document) (h : History) :
  exists n h',
    index_chunks self chunks h = (Return n, h')
    /\ (chunks = [] \/ search_client self = None -> n = 0)
    /\ (forall client docs h1,
          search_client self = Some client -> chunks <> [] ->
          mapM (doc_dict self) chunks h = (Return docs, h1) ->
          match upload_documents client h1 docs with
          | Raise _ => n = 0
          | Return results =>
              n = Z.of_nat (count_occ Bool.bool_dec results true)
              /\ 0 <= n <= Py.len results
              /\ (n = Py.len results <->
                  Forall (fun succeeded => succeeded = true) results)
          end)
    /\ (forall file_path output_dir h0 blob lang is_translated stats,
          before_indexing self file_path (format_of self file_path) h0
          = (Return (blob, lang, is_translated, stats, chunks), h) ->
          _process_single_document self file_path output_dir h0
          = (Return (DocumentProcessingResult.make true
                       (path_str (runtime self) file_path)
                       (format_of self file_path) lang is_translated
                       (Some blob) n None stats), h')).
Proof.
  destruct (index_chunks_total self chunks h) as (n & h' & Hrun).
  exists n, h'. split; [exact Hrun|]. split; [|split].
  - revert Hrun. unfold index_chunks, ret.
    intros Hrun [->|Hnone].
    + destruct (search_client self); now injection Hrun as <-.
    + rewrite Hnone in Hrun. now injection Hrun as <-.
  - intros client docs h1 Hclient Hne Hdocs. revert Hrun.
    unfold index_chunks. rewrite Hclient.
    destruct chunks as [|c chunks']; [congruence|].
    rewrite (bind_return _ _ _ _ _ Hdocs).
    unfold try_except, bind, call, ret.
    destruct (upload_documents client h1 docs) as [results|e];
      intros [= <- _]; [|reflexivity].
    apply count_succeeded_accepted.
  - intros file_path output_dir h0 blob lang is_translated stats Hpre.
    rewrite process_single_document_unfold, process_steps_split.
    rewrite (bind_return _ _ _ _ _ Hpre). cbv beta iota.
    rewrite (bind_return _ _ _ _ _ Hrun). reflexivity.
Qed.

(** The same document, four chunks each time, on an index that cannot be
    reached, on one that accepts the first document only, and on one that
    accepts every second document: 0, 1 and 2 chunks are counted. *)
Lemma index_chunks_never_raises_witness :
  fst (_process_single_document Demo.unindexable "a.txt" None [])
  = Return (DocumentProcessingResult.make true "a.txt" "txt" "fr" true
              (Some Demo.blob_of_a) 0 None (Some [("characters", 59)]))
  /\ fst (_process_single_document Demo.choosy "a.txt" None [])
     = Return (DocumentProcessingResult.make true "a.txt" "txt" "fr" true
                 (Some Demo.blob_of_a) 1 None (Some [("characters", 59)]))
  /\ fst (_process_single_document Demo.pipeline "a.txt" None [])
     = Return (DocumentProcessingResult.make true "a.txt" "txt" "fr" true
                 (Some Demo.blob_of_a) 2 None (Some [("characters", 59)])).
Proof.
  split; [|split].
  - destruct (before_indexing Demo.unindexable "a.txt" "txt" [])
      as [[[[[[blob lang] tr] stats] chunks]|e] h] eqn:Hpre;
      [|vm_compute in Hpre; discriminate].
    destruct (index_chunks_never_raises Demo.unindexable chunks h)
      as (n & h' & Hrun & _ & _ & Hproc).
    rewrite (Hproc "a.txt" None [] blob lang tr stats Hpre).
    vm_compute in Hpre. injection Hpre as <- <- <- <- <- <-.
    vm_compute in Hrun. injection Hrun as <- <-. reflexivity.
  - destruct (before_indexing Demo.choosy "a.txt" "txt" [])
      as [[[[[[blob lang] tr] stats] chunks]|e] h] eqn:Hpre;
      [|vm_compute in Hpre; discriminate].
    destruct (index_chunks_never_raises Demo.choosy chunks h)
      as (n & h' & Hrun & _ & _ & Hproc).
    rewrite (Hproc "a.txt" None [] blob lang tr stats Hpre).
    vm_compute in Hpre. injection Hpre as <- <- <- <- <- <-.
    vm_compute in Hrun. injection Hrun as <- <-. reflexivity.
  - destruct (before_indexing Demo.pipeline "a.txt" "txt" [])
      as [[[[[[blob lang] tr] stats] chunks]|e] h] eqn:Hpre;
      [|vm_compute in Hpre; discriminate].
    destruct (index_chunks_never_raises Demo.pipeline chunks h)
      as (n & h' & Hrun & _ & _ & Hproc).
    rewrite (Hproc "a.txt" None [] blob lang tr stats Hpre).
    vm_compute in Hpre. injection Hpre as <- <- <- <- <- <-.
    vm_compute in Hrun. injection Hrun as <- <-. reflexivity.
Defined.

(** ** Storage failures *)

Section Storage.
Variable self : MultilingualRAGPipeline.
Variable file_path : string.
Variable output_dir : option string.

Let rt := runtime self.
Let ps := processing_settings self.
Let fmt := format_of self file_path.

Lemma original_upload_failure (h0 h1 : History) (e : PyExc) :
  in_list fmt (Py.get (supported_formats ps) []) = true ->
  upload_document self (path_str rt file_path) None h0 = (Raise e, h1) ->
  _process_single_document self file_path output_dir h0
  = (Return (failed_result self file_path e), h1).
Proof.
  intros Hfmt Hup. rewrite process_single_document_unfold.
  unfold process_steps. cbv zeta. fold rt ps fmt. rewrite Hfmt. cbn [negb].
  now rewrite (bind_raise _ _ _ _ _ Hup).
Qed.

Lemma translated_upload_failure (h0 h1 h2 h3 h4 : History)
    (blob text lang final t : string) (stats : option Stats) (e : PyExc) :
  in_list fmt (Py.get (supported_formats ps) []) = true ->
  upload_document self (path_str rt file_path) None h0 = (Return blob, h1) ->
  extract_text self (path_str rt file_path) fmt h1 = (Return text, h2) ->
  Py.is_empty text || (Py.len_str (Py.strip text) <? 50) = false ->
  detect_and_translate self text h2
  = (Return (lang, final, Some t, stats), h3) ->
  upload_translated_content self final (path_name rt file_path) lang h3
  = (Raise e, h4) ->
  _process_single_document self file_path output_dir h0
  = (Return (failed_result self file_path e), h4).
Proof.
  intros Hfmt Hup Hex Hlen Hdec Htr.
  rewrite process_single_document_unfold.
  rewrite (process_steps_after_decision self file_path _ _ _ _ _ _ _ _ _ _
             Hfmt Hup Hex Hlen Hdec).
  unfold after_decision. cbv zeta. fold rt.
  rewrite (bind_raise _ _ h3 h4 e); [reflexivity|].
  now rewrite (bind_raise _ _ _ _ _ Htr).
Qed.

End Storage.

(** C3, as the code has it. A storage failure is a hard failure of the
    document at both uploads: when the upload of the original raises, and
    when the document is translated and the upload of the translation
    raises, the worker catches the exception and returns a failed result
    whose [error_message] is the storage error. *)
Theorem storage_failure_fails_document (self : MultilingualRAGPipeline)
    (file_path : string) (output_dir : option string) (h0 : History)
    (e : PyExc) :
  let rt := runtime self in
  let ps := processing_settings self in
  in_list (format_of self file_path) (Py.get (supported_formats ps) [])
  = true ->
  (forall h1,
     upload_document self (path_str rt file_path) None h0 = (Raise e, h1) ->
     _process_single_document self file_path output_dir h0
     = (Return (failed_result self file_path e), h1))
  /\ (forall h1 h2 h3 h4 blob text lang final t stats,
        upload_document self (path_str rt file_path) None h0
        = (Return blob, h1) ->
        extract_text self (path_str rt file_path) (format_of self file_path)
          h1 = (Return text, h2) ->
        Py.is_empty text || (Py.len_str (Py.strip text) <? 50) = false ->
        detect_and_translate self text h2
        = (Return (lang, final, Some t, stats), h3) ->
        upload_translated_content self final (path_name rt file_path) lang h3
        = (Raise e, h4) ->
        _process_single_document self file_path output_dir h0
        = (Return (failed_result self file_path e), h4))
  /\ DocumentProcessingResult.success (failed_result self file_path e) = false
  /\ DocumentProcessingResult.error_message (failed_result self file_path e)
     = Some (str_exc e).
Proof.
  intros rt ps Hfmt. split; [|split; [|split; reflexivity]].
  - intros h1. now apply original_upload_failure.
  - intros h1 h2 h3 h4 blob text lang final t stats.
    now apply translated_upload_failure.
Qed.

Lemma storage_failure_fails_document_witness :
  _process_single_document Demo.unstorable "a.txt" None []
  = (Return (DocumentProcessingResult.make false "a.txt" "txt" "unknown"
               false None 0 (Some "storage unavailable") None),
     Demo.attempted).
Proof.
  destruct (storage_failure_fails_document Demo.unstorable "a.txt" None []
              (ExternalError "ServiceRequestError" "storage unavailable")
              eq_refl) as (_ & Htranslated & _).
  apply (Htranslated Demo.uploaded Demo.extracted Demo.decided Demo.attempted
           Demo.blob_of_a Demo.french "fr" Demo.english Demo.english
           (Some [("characters", 59)])); reflexivity.
Defined.

(** The run that refutes C3 as stated: the original of [a.txt] is stored,
    its text is translated, the upload of the translation raises, and the
    document is reported as failed. *)
Lemma translated_upload_is_not_best_effort :
  upload_document Demo.unstorable "a.txt" None []
  = (Return Demo.blob_of_a, Demo.uploaded)
  /\ detect_and_translate Demo.unstorable Demo.french Demo.extracted
     = (Return ("fr", Demo.english, Some Demo.english,
                Some [("characters", 59)]), Demo.decided)
  /\ fst (upload_translated_content Demo.unstorable Demo.english "a.txt" "fr"
            Demo.decided)
     = Raise (ExternalError "ServiceRequestError" "storage unavailable")
  /\ fst (_process_single_document Demo.unstorable "a.txt" None [])
     = Return (DocumentProcessingResult.make false "a.txt" "txt" "unknown"
                 false None 0 (Some "storage unavailable") None)
  /\ ~ translated_upload_best_effort.
Proof.
  repeat split; try reflexivity.
  intros Hclaim.
  specialize (Hclaim Demo.unstorable "a.txt" None [] Demo.uploaded
                Demo.extracted Demo.decided Demo.attempted Demo.attempted
                Demo.blob_of_a Demo.french "fr" Demo.english Demo.english
                (Some [("characters", 59)])
                (ExternalError "ServiceRequestError" "storage unavailable")
                (DocumentProcessingResult.make false "a.txt" "txt" "unknown"
                   false None 0 (Some "storage unavailable") None)
                eq_refl eq_refl eq_refl eq_refl eq_refl eq_refl eq_refl).
  discriminate Hclaim.
Qed.

(** ** Extraction from a PDF *)

Section PdfExtraction.
Variable self : MultilingualRAGPipeline.
Variable pdf_path : string.

Let rt := runtime self.

(** One call of [_extract_with_document_intelligence] invokes the backend
    at most once, and exactly once when it returns a text. *)
Lemma analysis_invoked_once (h h' : History) (o : Outcome string) :
  _extract_with_document_intelligence self pdf_path h = (o, h') ->
  (analyze_calls h' <= S (analyze_calls h))%nat
  /\ (forall t, o = Return t -> analyze_calls h' = S (analyze_calls h)).
Proof.
  unfold _extract_with_document_intelligence, bind, call, raise, ret.
  destruct (doc_intelligence_client self) as [client|];
    [|intros [= <- <-]; split; [lia | discriminate]].
  destruct (open_rb (runtime self) h pdf_path);
    [|intros [= <- <-]; split; [unfold analyze_calls; simpl; lia
                               | discriminate]].
  destruct (analyze_document client (CallOpen pdf_path :: h) pdf_path)
    as [[[|c t]|]|e]; intros [= <- <-]; split;
    solve [unfold analyze_calls; simpl; lia | discriminate | reflexivity].
Qed.

(** The fast path is enough: the backend is not invoked. *)
Lemma pdf_fast_path (h : History) (pages : list (option string)) :
  needs_analysis self pdf_path h = false ->
  pdfplumber_pages rt h pdf_path = Return pages ->
  _extract_from_pdf self pdf_path h
  = (Return (text_layer pages), CallPdfPlumber pdf_path :: h).
Proof.
  unfold needs_analysis, _extract_from_pdf. fold rt. intros Hneed Hpages.
  apply orb_false_iff in Hneed. destruct Hneed as [Hlibs Hshort].
  rewrite Hlibs. rewrite Hpages in Hshort.
  unfold try_except, bind, call, ret. rewrite Hpages. cbv zeta.
  unfold text_layer in Hshort |- *.
  destruct (page_texts pages); rewrite Hshort; reflexivity.
Qed.

(** The fallback when the backend answers: it is invoked once. *)
Lemma pdf_fallback_once (h h' : History) (t : string) :
  needs_analysis self pdf_path h = true ->
  _extract_with_document_intelligence self pdf_path
    (before_analysis self pdf_path h) = (Return t, h') ->
  _extract_from_pdf self pdf_path h = (Return t, h')
  /\ analyze_calls h' = S (analyze_calls h).
Proof.
  unfold needs_analysis, before_analysis, _extract_from_pdf. fold rt.
  intros Hneed Hrun.
  assert (Hcount : analyze_calls h' = S (analyze_calls h)).
  { destruct (analysis_invoked_once _ _ _ Hrun) as [_ H].
    rewrite (H t eq_refl). now destruct (PDF_LIBS_AVAILABLE rt). }
  split; [|exact Hcount].
  destruct (PDF_LIBS_AVAILABLE rt); cbn [negb orb] in *; [|exact Hrun].
  unfold try_except, bind, call, ret.
  destruct (pdfplumber_pages rt h pdf_path) as [pages|e]; [|exact Hrun].
  cbv zeta. unfold text_layer in Hneed.
  destruct (page_texts pages); rewrite Hneed, Hrun; reflexivity.
Qed.

(** The fallback when the fast path gave too little and the backend
    raises: the exception is caught by the [except] that guards the fast
    path, and the backend is tried again. *)
Lemma pdf_fallback_again (h h1 : History) (pages : list (option string))
    (e : PyExc) :
  PDF_LIBS_AVAILABLE rt = true ->
  pdfplumber_pages rt h pdf_path = Return pages ->
  Py.is_empty (text_layer pages)
  || (Py.len_str (Py.strip (text_layer pages)) <? 100) = true ->
  _extract_with_document_intelligence self pdf_path
    (CallPdfPlumber pdf_path :: h) = (Raise e, h1) ->
  _extract_from_pdf self pdf_path h
  = _extract_with_document_intelligence self pdf_path h1.
Proof.
  intros Hlibs Hpages Hshort Hrun. unfold _extract_from_pdf. fold rt.
  rewrite Hlibs. cbn [negb].
  unfold try_except, bind, call, ret. rewrite Hpages. cbv zeta.
  unfold text_layer in Hshort.
  destruct (page_texts pages); rewrite Hshort, Hrun; reflexivity.
Qed.

End PdfExtraction.

(** C5, where the code departs from it. The fast path of [c.pdf] gives 7
    characters. With a backend that finds no text the extraction raises
    after invoking the backend twice; with a backend that times out on its
    first request the extraction returns the text of the second request:
    again two invocations, not one. *)
Theorem pdf_fallback_invokes_backend_twice :
  _extract_from_pdf Demo.unreadable "c.pdf" []
  = (Raise (Exception "No text extracted by Document Intelligence"),
     [CallAnalyzeDocument "c.pdf"; CallOpen "c.pdf";
      CallAnalyzeDocument "c.pdf"; CallOpen "c.pdf"; CallPdfPlumber "c.pdf"])
  /\ analyze_calls (snd (_extract_from_pdf Demo.unreadable "c.pdf" [])) = 2%nat
  /\ fst (_extract_from_pdf Demo.retried "c.pdf" []) = Return Demo.french
  /\ analyze_calls (snd (_extract_from_pdf Demo.retried "c.pdf" [])) = 2%nat.
Proof. repeat split. Qed.

(** ** The run *)

Section Completion.
Context {A : Type}.

Lemma as_completed_in_order (done rest : list A) :
  as_completed (seq (List.length done) (List.length rest)) (done ++ rest)%list
  = rest.
Proof.
  revert done. induction rest as [|a rest IH]; intros done; [reflexivity|].
  simpl. rewrite nth_error_app2, Nat.sub_diag by lia. simpl. f_equal.
  specialize (IH (done ++ [a])%list).
  rewrite length_app, Nat.add_1_r, <- app_assoc in IH. exact IH.
Qed.

Lemma as_completed_permutation (completion completion' : list nat)
    (futures : list A) :
  Permutation completion completion' ->
  Permutation (as_completed completion futures)
    (as_completed completion' futures).
Proof.
  unfold as_completed. induction 1; simpl.
  - constructor.
  - now apply Permutation_app_head.
  - rewrite !app_assoc. apply Permutation_app_tail, Permutation_app_comm.
  - eapply Permutation_trans; eassumption.
Qed.

(** Every future comes out of [as_completed] once. *)
Lemma as_completed_all (completion : list nat) (futures : list A) :
  Permutation completion (seq 0 (List.length futures)) ->
  Permutation (as_completed completion futures) futures.
Proof.
  intros H. apply (as_completed_permutation _ _ futures) in H.
  pose proof (as_completed_in_order [] futures) as E. simpl in E.
  now rewrite E in H.
Qed.

End Completion.

Lemma filter_length_le {A} (f g : A -> bool) (l : list A) :
  (forall x, In x l -> f x = true -> g x = true) ->
  (List.length (filter f l) <= List.length (filter g l))%nat.
Proof.
  induction l as [|a l IH]; intros H; simpl; [lia|].
  assert (IH' := IH (fun x Hx => H x (or_intror Hx))).
  specialize (H a (or_introl eq_refl)).
  destruct (f a), (g a); simpl; try lia.
Qed.

Section Run.
Variable self : MultilingualRAGPipeline.
Variable output_dir : option string.

Let ps := processing_settings self.

(** A document on its own: the worker's result, whatever it is. *)
Lemma document_outcome_worker (file_path : string) :
  exists h,
    _process_single_document self file_path output_dir []
    = (Return (document_outcome self output_dir file_path), h).
Proof.
  unfold document_outcome, recorded, submit. simpl fst.
  destruct (process_single_document_total self file_path output_dir [])
    as (r & h & Hrun & _).
  rewrite Hrun. simpl. eauto.
Qed.

Lemma document_outcome_translated (file_path : string) :
  DocumentProcessingResult.translated
    (document_outcome self output_dir file_path) = true ->
  DocumentProcessingResult.success
    (document_outcome self output_dir file_path) = true.
Proof.
  unfold document_outcome, recorded, submit. simpl fst.
  destruct (process_single_document_total self file_path output_dir [])
    as (r & h & Hrun & Hr).
  rewrite Hrun. exact Hr.
Qed.

(** The collecting loop appends one recorded result per future. *)
Lemma collect_all (entries : list (Future * string))
    (collected : list DocumentProcessingResult.t) (chunks : Z) :
  fst (fold_left collect entries (collected, chunks))
  = (collected ++ map recorded entries)%list.
Proof.
  revert collected chunks.
  induction entries as [|[future file_path] entries IH];
    intros collected chunks; simpl.
  - now rewrite app_nil_r.
  - unfold recorded at 2. simpl fst. simpl snd.
    destruct future as [result|e]; rewrite IH, <- app_assoc; reflexivity.
Qed.

Lemma run_results_permutation (completion : list nat)
    (file_paths : list string) :
  Permutation completion (seq 0 (List.length file_paths)) ->
  Permutation (run_results self output_dir completion file_paths)
    (map (document_outcome self output_dir) file_paths).
Proof.
  intros Hperm. unfold run_results.
  replace (map (document_outcome self output_dir) file_paths)
    with (map recorded
            (map (fun file_path =>
                    (submit (_process_single_document self file_path
                               output_dir), file_path)) file_paths))
    by (rewrite map_map; reflexivity).
  apply Permutation_map, as_completed_all. now rewrite length_map.
Qed.

(** What [ingest_documents] returns, when it returns. *)
Lemma ingest_documents_returned (completion : list nat)
    (file_paths : list string) (pr : PipelineResult.t) :
  ingest_documents self completion file_paths output_dir = Return pr ->
  let rs := run_results self output_dir completion file_paths in
  PipelineResult.results pr = rs
  /\ PipelineResult.total_files pr = Py.len file_paths
  /\ PipelineResult.processed_files pr
     = count_if DocumentProcessingResult.success rs
  /\ PipelineResult.failed_files pr
     = Py.len rs - count_if DocumentProcessingResult.success rs
  /\ PipelineResult.success pr
     = (PipelineResult.failed_files pr =? 0).
Proof.
  unfold ingest_documents. cbv zeta.
  destruct (_ <=? 0); [discriminate|].
  destruct (fold_left _ _ _) as [collected chunks] eqn:Hloop.
  apply (f_equal fst) in Hloop. rewrite collect_all in Hloop.
  simpl in Hloop.
  fold (run_results self output_dir completion file_paths) in Hloop.
  destruct (_print_pipeline_summary _); [|discriminate].
  intros [= <-]. simpl. rewrite <- Hloop. repeat split; reflexivity.
Qed.

(** With a worker pool that can be built and at least one document, the
    run returns. *)
Lemma ingest_documents_returns (completion : list nat)
    (file_paths : list string) :
  Permutation completion (seq 0 (List.length file_paths)) ->
  0 < Py.get (max_concurrent_files ps) 5 ->
  file_paths <> [] ->
  exists pr, ingest_documents self completion file_paths output_dir = Return pr.
Proof.
  intros Hperm Hworkers Hne. unfold ingest_documents. cbv zeta. fold ps.
  destruct (Z.leb_spec (Py.get (max_concurrent_files ps) 5) 0); [lia|].
  destruct (fold_left _ _ _) as [collected chunks] eqn:Hloop.
  apply (f_equal fst) in Hloop. rewrite collect_all in Hloop.
  simpl in Hloop.
  fold (run_results self output_dir completion file_paths) in Hloop.
  subst collected. unfold _print_pipeline_summary. simpl.
  destruct (Z.eqb_spec (Py.len file_paths) 0) as [Hzero|_].
  { destruct file_paths; [congruence | discriminate]. }
  assert (Hle : count_if DocumentProcessingResult.translated
                  (run_results self output_dir completion file_paths)
                <= count_if DocumentProcessingResult.success
                     (run_results self output_dir completion file_paths)).
  { unfold count_if, Py.len. apply inj_le, filter_length_le.
    intros r Hr.
    apply (Permutation_in _ (run_results_permutation _ _ Hperm)) in Hr.
    apply in_map_iff in Hr. destruct Hr as (file_path & <- & _).
    apply document_outcome_translated. }
  destruct (Z.ltb_spec 0 (count_if DocumentProcessingResult.translated
                            (run_results self output_dir completion
                               file_paths)));
    destruct (Z.eqb_spec (count_if DocumentProcessingResult.success
                            (run_results self output_dir completion
                               file_paths)) 0);
    simpl; try lia; eauto.
Qed.

(** The results of a returned run are the outcomes of its documents. *)
Lemma returned_results_permutation (completion : list nat)
    (file_paths : list string) (pr : PipelineResult.t) :
  Permutation completion (seq 0 (List.length file_paths)) ->
  ingest_documents self completion file_paths output_dir = Return pr ->
  Permutation (PipelineResult.results pr)
    (map (document_outcome self output_dir) file_paths).
Proof.
  intros Hperm Hrun.
  destruct (ingest_documents_returned _ _ _ Hrun) as (-> & _).
  now apply run_results_permutation.
Qed.

End Run.

Lemma filter_keeps_all {A} (f : A -> bool) (l : list A) :
  List.length (filter f l) = List.length l <->
  (forall x, In x l -> f x = true).
Proof.
  induction l as [|a l IH]; simpl; [tauto|].
  pose proof (filter_length_le f (fun _ => true) l (fun _ _ _ => eq_refl))
    as Hle.
  replace (filter (fun _ => true) l) with l in Hle
    by (clear; induction l as [|b l IH]; simpl; congruence).
  destruct (f a) eqn:E; simpl; split.
  - intros H x [<-|Hx]; [exact E|]. apply IH; [lia | exact Hx].
  - intros H. f_equal. apply IH. intros x Hx. apply H. now right.
  - lia.
  - intros H. specialize (H a (or_introl eq_refl)). congruence.
Qed.

(** C2. When [ingest_documents] returns, [processed_files + failed_files]
    is [total_files], which is the number of file paths, and the results
    are, up to their order, the outcomes of the input documents: one per
    document. It does return whenever the worker pool can be built and
    there is at least one document (the summary of an empty run divides by
    zero). *)
Theorem ingest_documents_accounts_for_every_document
    (self : MultilingualRAGPipeline) (output_dir : option string)
    (completion : list nat) (file_paths : list string) :
  Permutation completion (seq 0 (List.length file_paths)) ->
  (forall pr,
     ingest_documents self completion file_paths output_dir = Return pr ->
     PipelineResult.processed_files pr + PipelineResult.failed_files pr
     = PipelineResult.total_files pr
     /\ PipelineResult.total_files pr = Py.len file_paths
     /\ Py.len (PipelineResult.results pr) = Py.len file_paths
     /\ Permutation (PipelineResult.results pr)
          (map (document_outcome self output_dir) file_paths))
  /\ (0 < Py.get (max_concurrent_files (processing_settings self)) 5 ->
      file_paths <> [] ->
      exists pr,
        ingest_documents self completion file_paths output_dir = Return pr).
Proof.
  intros Hperm. split.
  - intros pr Hrun.
    destruct (ingest_documents_returned self output_dir _ _ _ Hrun)
      as (Hres & Htotal & Hproc & Hfail & _).
    pose proof (run_results_permutation self output_dir _ _ Hperm) as Hrs.
    assert (Hlen : Py.len (run_results self output_dir completion file_paths)
                   = Py.len file_paths).
    { unfold Py.len. f_equal.
      rewrite (Permutation_length Hrs). apply length_map. }
    rewrite Hres, Hproc, Hfail, Htotal. repeat split; try lia. exact Hrs.
  - intros Hworkers Hne. now apply ingest_documents_returns.
Qed.

Lemma ingest_documents_accounts_for_every_document_witness :
  Permutation [1; 0; 2]%nat (seq 0 3)
  /\ exists pr,
       ingest_documents Demo.pipeline [1; 0; 2]%nat
         ["a.txt"; "bad.txt"; "c.pdf"] None = Return pr
       /\ PipelineResult.processed_files pr + PipelineResult.failed_files pr
          = 3.
Proof.
  assert (Hperm : Permutation [1; 0; 2]%nat (seq 0 3)) by apply perm_swap.
  split; [exact Hperm|].
  destruct (ingest_documents_accounts_for_every_document Demo.pipeline None
              [1; 0; 2]%nat ["a.txt"; "bad.txt"; "c.pdf"] Hperm)
    as [Hcounts Hreturns].
  destruct Hreturns as (pr & Hrun); [reflexivity | discriminate |].
  exists pr. split; [exact Hrun|].
  destruct (Hcounts pr Hrun) as (Hsum & Htotal & _).
  rewrite Hsum, Htotal. reflexivity.
Defined.

(** C10. The [success] flag of a returned run is true exactly when
    [failed_files] is 0, that is, when every recorded outcome is a success.
    A run in which some document fails returns all the same (given a
    worker pool that can be built): a complete report, one outcome per
    document, with [success] false. *)
Theorem run_succeeds_iff_no_document_fails
    (self : MultilingualRAGPipeline) (output_dir : option string)
    (completion : list nat) (file_paths : list string) :
  Permutation completion (seq 0 (List.length file_paths)) ->
  (forall pr,
     ingest_documents self completion file_paths output_dir = Return pr ->
     (PipelineResult.success pr = true <-> PipelineResult.failed_files pr = 0)
     /\ (PipelineResult.failed_files pr = 0 <->
         forall r, In r (PipelineResult.results pr) ->
                   DocumentProcessingResult.success r = true))
  /\ (0 < Py.get (max_concurrent_files (processing_settings self)) 5 ->
      (exists file_path,
         In file_path file_paths
         /\ DocumentProcessingResult.success
              (document_outcome self output_dir file_path) = false) ->
      exists pr,
        ingest_documents self completion file_paths output_dir = Return pr
        /\ PipelineResult.success pr = false
        /\ Permutation (PipelineResult.results pr)
             (map (document_outcome self output_dir) file_paths)).
Proof.
  intros Hperm.
  assert (Hflag : forall pr,
            ingest_documents self completion file_paths output_dir
            = Return pr ->
            (PipelineResult.success pr = true
             <-> PipelineResult.failed_files pr = 0)
            /\ (PipelineResult.failed_files pr = 0 <->
                forall r, In r (PipelineResult.results pr) ->
                          DocumentProcessingResult.success r = true)).
  { intros pr Hrun.
    destruct (ingest_documents_returned self output_dir _ _ _ Hrun)
      as (Hres & _ & _ & Hfail & Hsucc).
    split; [rewrite Hsucc; apply Z.eqb_eq|].
    rewrite Hfail, Hres. unfold count_if, Py.len.
    rewrite <- filter_keeps_all. lia. }
  split; [exact Hflag|].
  intros Hworkers (file_path & Hin & Hfails).
  destruct (ingest_documents_returns self output_dir completion file_paths
              Hperm Hworkers) as (pr & Hrun).
  { intros ->. contradiction. }
  pose proof (returned_results_permutation self output_dir _ _ _ Hperm Hrun)
    as Hrs.
  exists pr. split; [exact Hrun|]. split; [|exact Hrs].
  destruct (PipelineResult.success pr) eqn:Hs; [|reflexivity].
  destruct (Hflag pr Hrun) as [H1 H2].
  assert (Hall := proj1 H2 (proj1 H1 Hs)).
  rewrite Hall in Hfails; [discriminate|].
  apply (Permutation_in _ (Permutation_sym Hrs)).
  now apply in_map.
Qed.

Lemma run_succeeds_iff_no_document_fails_witness :
  Permutation [1; 0; 2]%nat (seq 0 3)
  /\ DocumentProcessingResult.success
       (document_outcome Demo.pipeline None "bad.txt") = false
  /\ exists pr,
       ingest_documents Demo.pipeline [1; 0; 2]%nat
         ["a.txt"; "bad.txt"; "c.pdf"] None = Return pr
       /\ PipelineResult.success pr = false.
Proof.
  assert (Hperm : Permutation [1; 0; 2]%nat (seq 0 3)) by apply perm_swap.
  split; [exact Hperm|]. split; [reflexivity|].
  destruct (run_succeeds_iff_no_document_fails Demo.pipeline None
              [1; 0; 2]%nat ["a.txt"; "bad.txt"; "c.pdf"] Hperm)
    as [_ Hfails].
  destruct Hfails as (pr & Hrun & Hflag & _); [reflexivity | | eauto].
  exists "bad.txt". split; [simpl; tauto | reflexivity].
Defined.

(** ** Isolation of failures *)

(** *** Computations that do not look at the history *)

Section Oblivious.
Context {A B : Type}.

Lemma oblivious_ret (a : A) : oblivious (ret a).
Proof. intros h1 h2. reflexivity. Qed.

Lemma oblivious_raise (e : PyExc) : oblivious (@raise A e).
Proof. intros h1 h2. reflexivity. Qed.

Lemma oblivious_lift (o : Outcome A) : oblivious (lift o).
Proof. intros h1 h2. reflexivity. Qed.

Lemma oblivious_call (c : Call) (answer : History -> Outcome A) :
  (forall h1 h2, answer h1 = answer h2) -> oblivious (call c answer).
Proof. intros H h1 h2. unfold call. simpl. apply H. Qed.

Lemma oblivious_bind (m : M A) (k : A -> M B) :
  oblivious m -> (forall a, oblivious (k a)) -> oblivious (bind m k).
Proof.
  intros Hm Hk h1 h2. unfold bind. specialize (Hm h1 h2).
  destruct (m h1) as [o1 h1'], (m h2) as [o2 h2']. simpl in Hm. subst o2.
  destruct o1 as [a|e]; [apply Hk | reflexivity].
Qed.

Lemma oblivious_try (m : M A) (handler : PyExc -> M A) :
  oblivious m -> (forall e, oblivious (handler e)) ->
  oblivious (try_except m handler).
Proof.
  intros Hm Hh h1 h2. unfold try_except. specialize (Hm h1 h2).
  destruct (m h1) as [o1 h1'], (m h2) as [o2 h2']. simpl in Hm. subst o2.
  destruct o1 as [a|e]; [reflexivity | apply Hh].
Qed.

End Oblivious.

(** *** Computations with alike outcomes *)

Section Related.
Context {A1 A2 B1 B2 : Type}.
Variable R : A1 -> A2 -> Prop.
Variable S : B1 -> B2 -> Prop.

Lemma related_ret (a : A1) (b : A2) : R a b -> related R (ret a) (ret b).
Proof. intros H h1 h2. exact H. Qed.

Lemma related_raise (e1 e2 : PyExc) :
  related R (@raise A1 e1) (@raise A2 e2).
Proof. intros h1 h2. exact I. Qed.

Lemma related_lift (o1 : Outcome A1) (o2 : Outcome A2) :
  alike R o1 o2 -> related R (lift o1) (lift o2).
Proof. intros H h1 h2. exact H. Qed.

Lemma related_call (c1 c2 : Call) (answer1 : History -> Outcome A1)
    (answer2 : History -> Outcome A2) :
  (forall h1 h2, alike R (answer1 h1) (answer2 h2)) ->
  related R (call c1 answer1) (call c2 answer2).
Proof. intros H h1 h2. unfold call. simpl. apply H. Qed.

Lemma related_bind (m1 : M A1) (m2 : M A2) (k1 : A1 -> M B1)
    (k2 : A2 -> M B2) :
  related R m1 m2 ->
  (forall a b, R a b -> related S (k1 a) (k2 b)) ->
  related S (bind m1 k1) (bind m2 k2).
Proof.
  intros Hm Hk h1 h2. unfold bind. specialize (Hm h1 h2).
  destruct (m1 h1) as [[a|e1] h1'], (m2 h2) as [[b|e2] h2'];
    simpl in *; try contradiction; [now apply Hk | exact I].
Qed.

Lemma related_try (m1 : M A1) (m2 : M A2) (handler1 : PyExc -> M A1)
    (handler2 : PyExc -> M A2) :
  related R m1 m2 ->
  (forall e1 e2, related R (handler1 e1) (handler2 e2)) ->
  related R (try_except m1 handler1) (try_except m2 handler2).
Proof.
  intros Hm Hh h1 h2. unfold try_except. specialize (Hm h1 h2).
  destruct (m1 h1) as [[a|e1] h1'], (m2 h2) as [[b|e2] h2'];
    simpl in *; try contradiction; [exact Hm | apply Hh].
Qed.

End Related.

Lemma oblivious_related {A} (m : M A) : oblivious m -> related eq m m.
Proof.
  intros Hm h1 h2. rewrite (Hm h1 h2).
  destruct (fst (m h2)); simpl; trivial.
Qed.

Lemma returned_alike {A B} (o1 : Outcome A) (o2 : Outcome B) :
  returned o1 = returned o2 -> alike (fun _ _ => True) o1 o2.
Proof. destruct o1, o2; simpl; intros H; [exact I | | | exact I];
  discriminate H. Qed.

(** Computations that always return are alike. *)
Lemma total_related {A B} (m1 : M A) (m2 : M B) :
  (forall h, exists a h', m1 h = (Return a, h')) ->
  (forall h, exists b h', m2 h = (Return b, h')) ->
  related (fun _ _ => True) m1 m2.
Proof.
  intros H1 H2 h1 h2.
  destruct (H1 h1) as (a & h1' & ->), (H2 h2) as (b & h2' & ->). exact I.
Qed.

Lemma simple_chunks_returned (ps : ProcessingSettings)
    (text filename u u' : string) :
  returned (_create_simple_chunks ps text filename u)
  = returned (_create_simple_chunks ps text filename u').
Proof.
  unfold _create_simple_chunks. cbv zeta.
  destruct (Py.range _ _ _); reflexivity.
Qed.

(** Takes a computation apart down to its calls. *)
Ltac oblivious_steps :=
  repeat first
    [ apply oblivious_ret
    | apply oblivious_raise
    | apply oblivious_lift
    | apply oblivious_bind; [|intro]
    | apply oblivious_try; [|intro]
    | match goal with
      | |- oblivious (if ?c then _ else _) => destruct c
      | |- oblivious (match ?x with _ => _ end) => destruct x
      end ].

Section StatelessCollaborators.
Variable self : MultilingualRAGPipeline.
Hypothesis Hstateless : stateless self.

Lemma oblivious_analysis (file_path : string) :
  oblivious (_extract_with_document_intelligence self file_path).
Proof.
  unfold _extract_with_document_intelligence.
  destruct (doc_intelligence_client self) as [client|] eqn:Hclient;
    [|apply oblivious_raise].
  apply oblivious_bind;
    [apply oblivious_call; intros; apply (stateless_open_rb self Hstateless)|].
  intros _. apply oblivious_bind;
    [apply oblivious_call; intros;
     apply (stateless_analyze self Hstateless client Hclient)|].
  intros text. oblivious_steps.
Qed.

Lemma oblivious_extract_text (file_path file_format : string) :
  oblivious (extract_text self file_path file_format).
Proof.
  unfold extract_text. apply oblivious_try; [|intro; apply oblivious_raise].
  destruct (String.eqb file_format "pdf").
  - unfold _extract_from_pdf.
    destruct (negb _); [apply oblivious_analysis|].
    apply oblivious_try; [|intro; apply oblivious_analysis].
    apply oblivious_bind;
      [apply oblivious_call; intros;
       apply (stateless_pdfplumber self Hstateless)|].
    intros pages. cbv zeta.
    destruct (_ || _); [apply oblivious_analysis | apply oblivious_ret].
  - destruct (in_list file_format ["docx"; "pptx"]);
      [apply oblivious_analysis|].
    destruct (in_list file_format ["txt"; "md"]).
    + apply oblivious_call. intros.
      apply (stateless_read_text self Hstateless).
    + destruct (String.eqb file_format "html"); [|apply oblivious_raise].
      unfold _extract_from_html. apply oblivious_bind;
        [apply oblivious_call; intros;
         apply (stateless_read_text self Hstateless)|].
      intros markup. apply oblivious_try;
        [apply oblivious_call; intros;
         apply (stateless_bs4 self Hstateless)|].
      intros e. oblivious_steps.
Qed.

Lemma oblivious_decision (text : string) :
  oblivious (detect_and_translate self text).
Proof.
  unfold detect_and_translate.
  apply oblivious_try; [|intro; apply oblivious_ret].
  apply oblivious_bind;
    [apply oblivious_call; intros; apply (stateless_detect self Hstateless)|].
  intros lang. cbv zeta.
  destruct (negb _); [apply oblivious_ret|].
  destruct (_ && _); [apply oblivious_ret|].
  apply oblivious_bind;
    [apply oblivious_call; intros;
     apply (stateless_translate self Hstateless)|].
  intros [t s]. apply oblivious_ret.
Qed.

Lemma related_uuid :
  related (fun _ _ : string => True) (fresh_uuid (runtime self))
    (fresh_uuid (runtime self)).
Proof. apply related_call. intros h1 h2. exact I. Qed.

Lemma related_upload_document (file_path : string) :
  related (fun _ _ => True) (upload_document self file_path None)
    (upload_document self file_path None).
Proof.
  unfold upload_document.
  destruct (container_client self) as [client|] eqn:Hclient;
    [|apply related_raise].
  apply related_bind
    with (R := fun n1 n2 =>
                 exists u1 u2,
                   n1 = "documents/" ++ u1 ++ "-"
                        ++ path_name (runtime self) file_path
                   /\ n2 = "documents/" ++ u2 ++ "-"
                           ++ path_name (runtime self) file_path).
  { apply related_bind with (R := fun _ _ => True); [apply related_uuid|].
    intros u1 u2 _. apply related_ret. eauto. }
  intros n1 n2 (u1 & u2 & -> & ->).
  apply related_bind with (R := eq).
  { apply oblivious_related, oblivious_call. intros.
    apply (stateless_open_rb self Hstateless). }
  intros _ _ _. apply related_bind with (R := fun _ _ => True).
  { apply related_call. intros h1 h2. apply returned_alike.
    apply (stateless_upload_original self Hstateless client Hclient). }
  intros _ _ _. apply related_ret. exact I.
Qed.

Lemma related_upload_translated (text name lang : string) :
  related (fun _ _ => True)
    (upload_translated_content self text name lang)
    (upload_translated_content self text name lang).
Proof.
  unfold upload_translated_content.
  destruct (container_client self) as [client|] eqn:Hclient;
    [|apply related_raise].
  apply related_bind with (R := fun _ _ => True); [apply related_uuid|].
  intros u1 u2 _. cbv zeta.
  apply related_bind with (R := fun _ _ => True).
  { apply related_call. intros h1 h2. apply returned_alike.
    apply (stateless_upload_translated self Hstateless client Hclient). }
  intros _ _ _. apply related_ret. exact I.
Qed.

Lemma related_chunking (text filename u1 u2 file_format : string) :
  related (fun _ _ => True)
    (_chunk_and_embed_content self text filename u1 file_format)
    (_chunk_and_embed_content self text filename u2 file_format).
Proof.
  unfold _chunk_and_embed_content.
  apply related_try.
  - apply related_bind with (R := eq).
    { apply oblivious_related, oblivious_call. intros.
      apply (stateless_credential self Hstateless). }
    intros _ _ _. apply related_call. intros h1 h2. apply returned_alike.
    apply (stateless_chunk_content self Hstateless).
  - intros _ _. apply related_lift, returned_alike, simple_chunks_returned.
Qed.

(** With stateless collaborators a document succeeds or fails whatever
    was called before. *)
Lemma related_worker (file_path : string) (output_dir : option string) :
  related
    (fun r1 r2 =>
       DocumentProcessingResult.success r1
       = DocumentProcessingResult.success r2)
    (_process_single_document self file_path output_dir)
    (_process_single_document self file_path output_dir).
Proof.
  unfold _process_single_document. cbv zeta.
  apply related_try; [|intros; apply related_ret; reflexivity].
  unfold process_steps. cbv zeta.
  destruct (negb _); [apply related_raise|].
  apply related_bind with (R := fun _ _ => True);
    [apply related_upload_document|].
  intros blob1 blob2 _.
  apply related_bind with (R := eq);
    [apply oblivious_related, oblivious_extract_text|].
  intros text ? <-.
  destruct (_ || _); [apply related_raise|].
  apply related_bind with (R := eq);
    [apply oblivious_related, oblivious_decision|].
  intros [[[lang final] translated_text] stats] ? <-.
  apply related_bind with (R := fun _ _ => True).
  { destruct translated_text; [|apply related_ret; exact I].
    apply related_bind with (R := fun _ _ => True);
      [apply related_upload_translated|].
    intros _ _ _. apply related_ret. exact I. }
  intros _ _ _.
  apply related_bind with (R := fun _ _ => True);
    [apply related_chunking|].
  intros chunks1 chunks2 _.
  apply related_bind with (R := fun _ _ => True);
    [apply total_related; apply index_chunks_total|].
  intros n1 n2 _. apply related_ret. reflexivity.
Qed.

Lemma stateless_worker_result (file_path : string)
    (output_dir : option string) (h : History) :
  exists r h',
    _process_single_document self file_path output_dir h = (Return r, h')
    /\ DocumentProcessingResult.success r
       = DocumentProcessingResult.success
           (document_outcome self output_dir file_path).
Proof.
  destruct (process_single_document_total self file_path output_dir h)
    as (r & h' & Hrun & _).
  exists r, h'. split; [exact Hrun|].
  pose proof (related_worker file_path output_dir h []) as Hrel.
  destruct (document_outcome_worker self output_dir file_path)
    as (h0 & Halone).
  rewrite Hrun, Halone in Hrel. exact Hrel.
Qed.

Lemma stateless_run_in_turn (output_dir : option string)
    (file_paths : list string) (h : History) :
  map DocumentProcessingResult.success
    (fst (run_in_turn self output_dir file_paths h))
  = map (fun file_path =>
           DocumentProcessingResult.success
             (document_outcome self output_dir file_path)) file_paths.
Proof.
  revert h. induction file_paths as [|file_path rest IH]; intros h;
    [reflexivity|].
  simpl.
  destruct (stateless_worker_result file_path output_dir h)
    as (r & h1 & Hrun & Hsuccess).
  rewrite Hrun. specialize (IH h1).
  destruct (run_in_turn self output_dir rest h1) as [results h2].
  unfold recorded. simpl in *. now rewrite Hsuccess, IH.
Qed.

End StatelessCollaborators.

(** Every document of a batch gets the result of the worker, at the calls
    made by then, whether the documents before it failed or not. *)
Lemma run_in_turn_results (self : MultilingualRAGPipeline)
    (output_dir : option string) (file_paths : list string) (h : History) :
  Forall2
    (fun file_path r =>
       exists h0 h1,
         _process_single_document self file_path output_dir h0
         = (Return r, h1))
    file_paths (fst (run_in_turn self output_dir file_paths h)).
Proof.
  revert h. induction file_paths as [|file_path rest IH]; intros h;
    [constructor|].
  simpl.
  destruct (process_single_document_total self file_path output_dir h)
    as (r & h1 & Hrun & _).
  rewrite Hrun. specialize (IH h1).
  destruct (run_in_turn self output_dir rest h1) as [results h2].
  simpl in *. constructor; [|exact IH]. eauto.
Qed.


Lemma steady_is_stateless : stateless Demo.steady.
Proof.
  constructor; try reflexivity; simpl; intros client [= <-]; reflexivity.
Defined.



(** * Further properties of the code *)

(** ** [split] and [join] *)

Section Words.

Lemma no_space_append (a b : string) :
  no_space (a ++ b) = no_space a && no_space b.
Proof.
  induction a as [|c a IH]; simpl; [reflexivity|].
  now rewrite IH, andb_assoc.
Qed.

Lemma split_from_words (s cur : string) :
  no_space cur = true -> Forall word (Py.split_from cur s).
Proof.
  revert cur. induction s as [|c s IH]; intros cur Hcur; simpl.
  - destruct cur; simpl; constructor; [|constructor].
    split; [discriminate | exact Hcur].
  - destruct (Py.isspace c) eqn:E.
    + apply Forall_app. split; [|now apply IH].
      destruct cur; simpl; constructor; [|constructor].
      split; [discriminate | exact Hcur].
    + apply IH. rewrite no_space_append, Hcur. simpl. now rewrite E.
Qed.

(** Reading on through a stretch without whitespace extends the word
    being read. *)
Lemma split_from_no_space (w cur rest : string) :
  no_space w = true ->
  Py.split_from cur (w ++ rest) = Py.split_from (cur ++ w) rest.
Proof.
  revert cur. induction w as [|c w IH]; intros cur Hw; simpl.
  - f_equal. clear. induction cur as [|c cur IH]; simpl; congruence.
  - simpl in Hw. apply andb_true_iff in Hw. destruct Hw as [Hc Hw].
    apply negb_true_iff in Hc. rewrite Hc, (IH _ Hw). f_equal.
    clear. induction cur as [|d cur IH]; simpl; congruence.
Qed.

Lemma split_rendered (ws : list string) :
  Forall word ws -> Py.split (rendered ws) = ws.
Proof.
  induction 1 as [|w ws [Hne Hw] Hws IH]; [reflexivity|].
  unfold Py.split in *. destruct ws as [|w' ws].
  - unfold rendered, Py.join. simpl String.concat.
    replace w with (w ++ "") at 1
      by (clear; induction w as [|c w IH]; simpl; congruence).
    rewrite (split_from_no_space w "" "" Hw). simpl.
    destruct w; [congruence | reflexivity].
  - rewrite rendered_cons by discriminate.
    rewrite (split_from_no_space w "" _ Hw). simpl.
    destruct w; [congruence|]. simpl. now rewrite IH.
Qed.

End Words.

(** Splitting the rendering of the words of a text gives the words back:
    the chunker's [' '.join] loses nothing of what [split] found. *)
Theorem split_join_round_trip (text : string) :
  Py.split (Py.join " " (Py.split text)) = Py.split text
  /\ Forall word (Py.split text).
Proof.
  assert (H : Forall word (Py.split text))
    by now apply split_from_words.
  split; [exact (split_rendered _ H) | exact H].
Qed.

(** ** More on the fallback chunker *)

Section ChunkShape.
Variables (cs min_size : Z) (words : list string) (filename u : string).

Lemma simple_chunks_shaped (indices : list Z) (chunks : list Document) :
  shaped filename u chunks ->
  shaped filename u
    (fold_left (simple_chunk_step cs min_size words filename u)
       indices chunks).
Proof.
  revert chunks. induction indices as [|i indices IH]; intros chunks Hc;
    [exact Hc|].
  simpl. apply IH. unfold simple_chunk_step.
  destruct (min_size <=? _); [|exact Hc].
  intros k c Hk.
  destruct (Nat.lt_ge_cases k (List.length chunks)) as [Hlt|Hge].
  - rewrite nth_error_app1 in Hk by exact Hlt. now apply Hc.
  - rewrite nth_error_app2 in Hk by exact Hge.
    destruct (k - List.length chunks)%nat as [|m] eqn:E;
      [|destruct m; discriminate].
    injection Hk as <-. simpl.
    replace k with (List.length chunks) by lia.
    repeat split.
Qed.

End ChunkShape.

(** The chunks the fallback chunker returns are titled
    ["<filename> (chunk 1)"], ["... (chunk 2)"], ... in the order of the
    list, without a gap; each carries the url it was given and neither
    metadata nor an embedding. *)
Theorem simple_chunks_numbered (ps : ProcessingSettings)
    (text filename u : string) (chunks : list Document) :
  _create_simple_chunks ps text filename u = Return chunks ->
  forall k c, nth_error chunks k = Some c ->
    title c = Some (filename ++ " (chunk "
                      ++ Py.str_int (Z.of_nat k + 1) ++ ")")
    /\ url c = Some u /\ metadata c = None /\ contentVector c = None.
Proof.
  unfold _create_simple_chunks.
  destruct (Py.range _ _ _) as [indices|e]; [|discriminate].
  intros [= <-]. apply simple_chunks_shaped.
  intros k c Hk. destruct k; discriminate.
Qed.

Lemma simple_chunks_numbered_witness :
  exists chunks c,
    _create_simple_chunks Demo.settings "aa bb cc dd ee ff gg hh ii y" "f.txt"
      "http://blob" = Return chunks
    /\ nth_error chunks 2 = Some c
    /\ title c = Some "f.txt (chunk 3)".
Proof.
  destruct (_create_simple_chunks Demo.settings
              "aa bb cc dd ee ff gg hh ii y" "f.txt" "http://blob")
    as [chunks|e] eqn:Hrun; [|vm_compute in Hrun; discriminate].
  destruct (nth_error chunks 2) as [c|] eqn:Hc;
    [|vm_compute in Hrun; injection Hrun as <-; discriminate].
  exists chunks, c. split; [reflexivity|]. split; [exact Hc|].
  exact (proj1 (simple_chunks_numbered Demo.settings _ _ _ chunks Hrun
                  2%nat c Hc)).
Defined.

(** Without a positive step there is no chunking: with [chunk_overlap]
    equal to [chunk_size] the fallback chunker raises the [ValueError] of
    [range], and with a larger overlap it returns no chunk at all, whatever
    the text. *)
Theorem simple_chunks_without_step (ps : ProcessingSettings)
    (text filename u : string) :
  let cs := Py.get (chunk_size ps) 1000 in
  let overlap := Py.get (chunk_overlap ps) 100 in
  (overlap = cs ->
   _create_simple_chunks ps text filename u
   = Raise (ValueError "range() arg 3 must not be zero"))
  /\ (cs < overlap -> _create_simple_chunks ps text filename u = Return []).
Proof.
  intros cs overlap. unfold _create_simple_chunks, Py.range.
  fold cs overlap. split; intros H.
  - rewrite H, Z.sub_diag. reflexivity.
  - destruct (Z.eqb_spec (cs - overlap) 0); [lia|].
    destruct (Z.ltb_spec 0 (cs - overlap)); [lia|].
    replace (Z.to_nat (0 - Py.len (Py.split text))) with 0%nat
      by (unfold Py.len; lia).
    reflexivity.
Qed.

Lemma simple_chunks_without_step_witness :
  _create_simple_chunks
    {| chunk_size := Some 3; chunk_overlap := Some 3;
       min_chunk_size := None; max_concurrent_files := None;
       translation_enabled := None; force_translation := None;
       supported_formats := None |} Demo.french "f.txt" "http://blob"
  = Raise (ValueError "range() arg 3 must not be zero")
  /\ _create_simple_chunks
       {| chunk_size := Some 3; chunk_overlap := Some 5;
          min_chunk_size := None; max_concurrent_files := None;
          translation_enabled := None; force_translation := None;
          supported_formats := None |} Demo.french "f.txt" "http://blob"
     = Return [].
Proof.
  split.
  - apply (proj1 (simple_chunks_without_step _ Demo.french "f.txt"
                    "http://blob")). reflexivity.
  - apply (proj2 (simple_chunks_without_step _ Demo.french "f.txt"
                    "http://blob")). reflexivity.
Defined.

Lemma slice_from {A} (l : list A) (i c : Z) :
  0 <= i -> 0 <= c ->
  Py.slice l i (i + c) = firstn (Z.to_nat c) (skipn (Z.to_nat i) l).
Proof.
  intros Hi Hc. unfold Py.slice, Py.slice_bound, Py.len.
  destruct (Z.ltb_spec i 0) as [|_]; [lia|].
  destruct (Z.ltb_spec (i + c) 0) as [|_]; [lia|].
  destruct (Z.le_gt_cases (i + c) (Z.of_nat (List.length l))) as [Hin|Hout].
  - rewrite !Z.min_l by lia. f_equal. lia.
  - rewrite (Z.min_r (i + c)) by lia.
    destruct (Z.le_gt_cases i (Z.of_nat (List.length l))) as [Hi'|Hi'].
    + rewrite Z.min_l by lia.
      rewrite !firstn_all2; [reflexivity | |]; rewrite length_skipn; lia.
    + rewrite Z.min_r by lia. rewrite Nat2Z.id.
      rewrite !skipn_all2 by lia. now rewrite !firstn_nil.
Qed.

(** Two successive windows of the chunker share exactly the overlap: what
    is left of a window after [chunk_size - overlap] tokens is what the
    next window starts with, for [overlap] tokens. *)
Theorem successive_windows_overlap (words : list string)
    (cs overlap i : Z) :
  0 < overlap < cs -> 0 <= i ->
  skipn (Z.to_nat (cs - overlap)) (Py.slice words i (i + cs))
  = firstn (Z.to_nat overlap)
      (Py.slice words (i + (cs - overlap)) (i + (cs - overlap) + cs)).
Proof.
  intros Hov Hi. rewrite !slice_from by lia.
  rewrite skipn_firstn_comm, skipn_skipn, firstn_firstn.
  replace (Z.to_nat cs - Z.to_nat (cs - overlap))%nat with (Z.to_nat overlap)
    by lia.
  rewrite Nat.min_l by lia. do 2 f_equal. lia.
Qed.

Lemma successive_windows_overlap_witness :
  0 < 1 < 4 /\ 0 <= 0
  /\ skipn (Z.to_nat (4 - 1))
       (Py.slice (Py.split "aa bb cc dd ee ff gg hh ii y") 0 (0 + 4))
     = firstn (Z.to_nat 1)
         (Py.slice (Py.split "aa bb cc dd ee ff gg hh ii y")
            (0 + (4 - 1)) (0 + (4 - 1) + 4)).
Proof.
  split; [lia|]. split; [lia|].
  apply successive_windows_overlap; lia.
Defined.

Lemma Forall_window {A} (P : A -> Prop) (l : list A) (n m : nat) :
  Forall P l -> Forall P (firstn n (skipn m l)).
Proof.
  intros H. rewrite <- (firstn_skipn m l) in H.
  apply Forall_app in H. destruct H as [_ H].
  rewrite <- (firstn_skipn n (skipn m l)) in H.
  apply Forall_app in H. exact (proj1 H).
Qed.

(** Every chunk of the fallback chunker holds at least one and at most
    [chunk_size] tokens: splitting its text again gives back the window it
    was rendered from. *)
Theorem simple_chunks_token_bound (ps : ProcessingSettings)
    (text filename u : string) :
  let cs := Py.get (chunk_size ps) 1000 in
  let overlap := Py.get (chunk_overlap ps) 100 in
  0 < overlap < cs ->
  exists chunks,
    _create_simple_chunks ps text filename u = Return chunks
    /\ forall c, In c chunks -> 1 <= Py.len (Py.split (content c)) <= cs.
Proof.
  intros cs overlap Hov.
  destruct (create_simple_chunks_windows ps text filename u Hov)
    as (chunks & Hrun & Hmap).
  fold cs overlap in Hmap.
  exists chunks. split; [exact Hrun|]. intros c Hc.
  apply (in_map content) in Hc. rewrite Hmap in Hc.
  apply filter_In in Hc. destruct Hc as [Hc _].
  apply in_map_iff in Hc. destruct Hc as (w & <- & Hw).
  apply in_map_iff in Hw. destruct Hw as (k & <- & Hk).
  apply in_seq in Hk. unfold window.
  rewrite split_rendered
    by (apply Forall_window, split_from_words; reflexivity).
  assert (k * Z.to_nat (cs - overlap) < List.length (Py.split text))%nat
    by (apply window_start_inside; lia).
  unfold Py.len. rewrite length_firstn, length_skipn. lia.
Qed.

Lemma simple_chunks_token_bound_witness :
  0 < 1 < 4
  /\ exists chunks,
       _create_simple_chunks Demo.settings Demo.english "f.txt" "http://blob"
       = Return chunks
       /\ forall c, In c chunks -> 1 <= Py.len (Py.split (content c)) <= 4.
Proof.
  split; [lia|].
  apply (simple_chunks_token_bound Demo.settings Demo.english "f.txt"
           "http://blob"). simpl. lia.
Defined.

(** The windows the chunker slides over the text leave no token out:
    every word of the text lies in the window of one of the indices the
    loop visits. *)
Theorem windows_cover_text (text : string) (cs overlap : Z) :
  0 < overlap < cs ->
  exists indices,
    Py.range 0 (Py.len (Py.split text)) (cs - overlap) = Return indices
    /\ forall w, In w (Py.split text) ->
         exists i, In i indices /\ In w (Py.slice (Py.split text) i (i + cs)).
Proof.
  intros Hov. set (words := Py.split text).
  set (st := Z.to_nat (cs - overlap)).
  assert (Hst : Z.of_nat st = cs - overlap) by (unfold st; lia).
  unfold Py.range.
  destruct (Z.eqb_spec (cs - overlap) 0) as [|_]; [lia|].
  destruct (Z.ltb_spec 0 (cs - overlap)) as [_|]; [|lia].
  eexists. split; [reflexivity|].
  rewrite range_up_indices by lia.
  rewrite <- Hst. unfold Py.len. rewrite window_count_Z by lia.
  intros w Hw. apply In_nth_error in Hw. destruct Hw as (j & Hj).
  assert (Hjn : (j < List.length words)%nat)
    by (apply nth_error_Some; congruence).
  pose proof (Nat.Div0.mul_div_le j st) as Hlo.
  pose proof (Nat.mul_succ_div_gt j st ltac:(lia)) as Hhi.
  set (k := (j / st)%nat) in *.
  exists (0 + Z.of_nat k * Z.of_nat st). split.
  - apply in_map_iff. exists k. split; [reflexivity|].
    apply in_seq. split; [lia|]. simpl. unfold window_count.
    assert (S k <= (List.length words + st - 1) / st)%nat
      by (apply Nat.div_le_lower_bound; lia).
    lia.
  - replace (0 + Z.of_nat k * Z.of_nat st) with (Z.of_nat (k * st)) by lia.
    rewrite slice_window by lia.
    apply (nth_error_In _ (j - k * st)).
    rewrite nth_error_firstn, nth_error_skipn, <- Hj.
    destruct (Nat.ltb_spec (j - k * st) (Z.to_nat cs)); [f_equal; lia | lia].
Qed.

Lemma windows_cover_text_witness :
  0 < 1 < 4
  /\ exists i,
       In i [0; 3; 6; 9]
       /\ In "hh"
            (Py.slice (Py.split "aa bb cc dd ee ff gg hh ii y") i (i + 4)).
Proof.
  split; [lia|].
  destruct (windows_cover_text "aa bb cc dd ee ff gg hh ii y" 4 1)
    as (indices & Hrange & Hcover); [lia|].
  vm_compute in Hrange. injection Hrange as <-.
  apply Hcover. vm_compute. tauto.
Defined.

(** ** More on the language decision *)

(** The translator is not asked to translate what needs no translation:
    text detected as English, unless translation is forced, and text whose
    language could not be detected come back unchanged after the one
    detection call. *)
Theorem translation_not_attempted (self : MultilingualRAGPipeline)
    (text : string) (h : History) :
  let ps := processing_settings self in
  (detect_language (translator self) h text = Return "en" ->
   Py.get (force_translation ps) false = false ->
   detect_and_translate self text h
   = (Return ("en", text, None, None), CallDetectLanguage text :: h))
  /\ (forall e,
        detect_language (translator self) h text = Raise e ->
        detect_and_translate self text h
        = (Return ("unknown", text, None, None),
           CallDetectLanguage text :: h)).
Proof.
  intros ps. unfold detect_and_translate, try_except, bind, call, ret.
  cbv zeta. fold ps. split.
  - intros -> ->. destruct (Py.get (translation_enabled ps) true);
      reflexivity.
  - intros e ->. reflexivity.
Qed.

Lemma translation_not_attempted_witness :
  detect_and_translate
    (Demo.deployment Demo.settings (Some Demo.analysis)
       {| detect_language := fun _ _ => Return "en";
          translate_text := fun _ _ _ => Return (Demo.french, []) |}
       (Some Demo.storage) (Some Demo.search))
    Demo.english []
  = (Return ("en", Demo.english, None, None),
     [CallDetectLanguage Demo.english]).
Proof.
  apply (proj1 (translation_not_attempted _ Demo.english []));
    reflexivity.
Defined.

(** When translation is enabled and the text is not English, or
    translation is forced, a translation that succeeds becomes the final
    text, is also the translated text, and comes with its statistics; the
    translator was asked for English. *)
Theorem translation_becomes_final_text (self : MultilingualRAGPipeline)
    (text : string) (h : History) (lang t : string) (s : Stats) :
  let ps := processing_settings self in
  detect_language (translator self) h text = Return lang ->
  Py.get (translation_enabled ps) true = true ->
  String.eqb lang "en" = false \/ Py.get (force_translation ps) false = true ->
  translate_text (translator self) (CallDetectLanguage text :: h) text "en"
  = Return (t, s) ->
  detect_and_translate self text h
  = (Return (lang, t, Some t, Some s),
     CallTranslateText text "en" :: CallDetectLanguage text :: h).
Proof.
  intros ps Hdet Hon Hneed Htr.
  unfold detect_and_translate, try_except, bind, call, ret. cbv zeta.
  fold ps. rewrite Hdet, Hon. cbn [negb].
  replace (String.eqb lang "en" && negb (Py.get (force_translation ps) false))
    with false
    by (destruct Hneed as [-> | ->]; [reflexivity | now rewrite andb_false_r]).
  rewrite Htr. reflexivity.
Qed.

Lemma translation_becomes_final_text_witness :
  detect_and_translate Demo.pipeline Demo.french []
  = (Return ("fr", Demo.english, Some Demo.english,
             Some [("characters", 59)]),
     [CallTranslateText Demo.french "en"; CallDetectLanguage Demo.french]).
Proof.
  apply (translation_becomes_final_text Demo.pipeline Demo.french [] "fr"
           Demo.english [("characters", 59)]);
    solve [reflexivity | left; reflexivity].
Defined.

(** Whatever the collaborators do, the decision makes one detection call
    on the text, then at most one translation call, of that text into
    English, and no other call. *)
Theorem decision_calls (self : MultilingualRAGPipeline) (text : string)
    (h : History) :
  snd (detect_and_translate self text h) = CallDetectLanguage text :: h
  \/ snd (detect_and_translate self text h)
     = CallTranslateText text "en" :: CallDetectLanguage text :: h.
Proof.
  unfold detect_and_translate, try_except, bind, call, ret. cbv zeta.
  destruct (detect_language (translator self) h text); [|now left].
  destruct (negb _); [now left|].
  destruct (_ && _); [now left|].
  destruct (translate_text _ _ _ _) as [[t s]|e]; now right.
Qed.

(** ** More on indexing *)

Section IndexUpload.
Variable self : MultilingualRAGPipeline.

(** The search documents built for a list of chunks: one per chunk, in
    order, each after drawing one uuid. *)
Lemma doc_dicts_mirror (chunks : list Document) (h : History) :
  exists docs,
    mapM (doc_dict self) chunks h
    = (Return docs, (repeat CallUuid4 (List.length chunks) ++ h)%list)
    /\ map sd_content docs = map content chunks
    /\ map sd_url docs
       = map (fun c => match url c with Some u => u | None => "" end) chunks
    /\ Forall (fun d => sd_action d = "upload" /\ sd_title d <> "") docs.
Proof.
  revert h. induction chunks as [|c chunks IH]; intros h.
  - exists []. repeat split; constructor.
  - destruct (IH (CallUuid4 :: h)) as (docs & Hrun & Hcontent & Hurl & Hall).
    simpl mapM. unfold bind at 1.
    unfold doc_dict at 1, fresh_uuid, bind, call, ret.
    rewrite Hrun. eexists. split; [|split; [|split]].
    + simpl List.length. simpl repeat. simpl app. do 2 f_equal.
      clear. induction (List.length chunks) as [|n IH]; simpl;
        [reflexivity | now rewrite IH].
    + simpl. now rewrite Hcontent.
    + simpl. now rewrite Hurl.
    + constructor; [|exact Hall]. simpl. split; [reflexivity|].
      destruct (title c) as [[|ch t]|]; discriminate.
Qed.

End IndexUpload.

(** With a search client and at least one chunk, [index_chunks] makes one
    upload call, after drawing one uuid per chunk: it sends one document
    per chunk, in the order of the chunks, with the chunk's content and
    url, the action ["upload"] and a title that is never empty. *)
Theorem index_upload_mirrors_chunks (self : MultilingualRAGPipeline)
    (client : SearchClient) (chunks : list Document) (h : History) :
  search_client self = Some client -> chunks <> [] ->
  exists n docs,
    index_chunks self chunks h
    = (Return n,
       CallUploadDocuments docs
         :: (repeat CallUuid4 (List.length chunks) ++ h)%list)
    /\ map sd_content docs = map content chunks
    /\ map sd_url docs
       = map (fun c => match url c with Some u => u | None => "" end) chunks
    /\ Forall (fun d => sd_action d = "upload" /\ sd_title d <> "") docs
    /\ 0 <= n.
Proof.
  intros Hclient Hne. unfold index_chunks. rewrite Hclient.
  destruct chunks as [|c chunks]; [congruence|].
  destruct (doc_dicts_mirror self (c :: chunks) h)
    as (docs & Hrun & Hcontent & Hurl & Hall).
  rewrite (bind_return _ _ _ _ _ Hrun).
  unfold try_except, bind, call, ret.
  destruct (upload_documents client _ docs) as [results|e];
    eexists; exists docs; (split; [reflexivity|]);
    repeat split; try assumption;
    unfold count_succeeded, Py.len; lia.
Qed.

Lemma index_upload_mirrors_chunks_witness :
  exists docs,
    index_chunks Demo.pipeline
      [new_document "the cat sleeps on" "a.txt (chunk 1)" Demo.blob_of_a;
       new_document "on the sofa while" "a.txt (chunk 2)" Demo.blob_of_a] []
    = (Return 1, [CallUploadDocuments docs; CallUuid4; CallUuid4])
    /\ map sd_content docs = ["the cat sleeps on"; "on the sofa while"].
Proof.
  destruct (index_upload_mirrors_chunks Demo.pipeline Demo.search
              [new_document "the cat sleeps on" "a.txt (chunk 1)"
                 Demo.blob_of_a;
               new_document "on the sofa while" "a.txt (chunk 2)"
                 Demo.blob_of_a] [] eq_refl ltac:(discriminate))
    as (n & docs & Hrun & Hcontent & _).
  exists docs. split; [|exact Hcontent].
  rewrite Hrun. f_equal. f_equal.
  apply (f_equal fst) in Hrun. vm_compute in Hrun. now injection Hrun.
Defined.

(** ** More on extraction *)

Section ExtractionMore.
Variable self : MultilingualRAGPipeline.
Variable file_path : string.

Let rt := runtime self.

Lemma analysis_calls_grow (h h' : History) (o : Outcome string) :
  _extract_with_document_intelligence self file_path h = (o, h') ->
  (analyze_calls h <= analyze_calls h')%nat
  /\ (forall t, o = Return t -> t <> "").
Proof.
  unfold _extract_with_document_intelligence, bind, call, raise, ret.
  destruct (doc_intelligence_client self) as [client|];
    [|intros [= <- <-]; split; [lia | discriminate]].
  destruct (open_rb (runtime self) h file_path);
    [|intros [= <- <-]; split; [unfold analyze_calls; simpl; lia
                               | discriminate]].
  destruct (analyze_document client (CallOpen file_path :: h) file_path)
    as [[[|c t]|]|e]; intros [= <- <-]; split;
    solve [unfold analyze_calls; simpl; lia | discriminate
          | intros ? [= <-]; discriminate].
Qed.

(** The three ways [_extract_from_pdf] can run. *)
Lemma extract_from_pdf_cases (h h' : History) (o : Outcome string) :
  _extract_from_pdf self file_path h = (o, h') ->
  (exists pages,
     o = Return (text_layer pages) /\ h' = CallPdfPlumber file_path :: h
     /\ Py.is_empty (text_layer pages)
        || (Py.len_str (Py.strip (text_layer pages)) <? 100) = false)
  \/ (exists h0,
        analyze_calls h0 = analyze_calls h
        /\ _extract_with_document_intelligence self file_path h0 = (o, h'))
  \/ (exists e h1,
        _extract_with_document_intelligence self file_path
          (CallPdfPlumber file_path :: h) = (Raise e, h1)
        /\ _extract_with_document_intelligence self file_path h1 = (o, h')).
Proof.
  unfold _extract_from_pdf. fold rt.
  destruct (PDF_LIBS_AVAILABLE rt); cbn [negb];
    [|intros H; right; left; exists h; split; [reflexivity | exact H]].
  unfold try_except, bind, call, ret.
  destruct (pdfplumber_pages rt h file_path) as [pages|e];
    [|intros H; right; left; exists (CallPdfPlumber file_path :: h);
      split; [reflexivity | exact H]].
  cbv zeta. fold (text_layer pages).
  destruct (Py.is_empty (text_layer pages) || _) eqn:Hshort.
  - destruct (_extract_with_document_intelligence self file_path
                (CallPdfPlumber file_path :: h)) as [[t|e] h1] eqn:Hfirst.
    + intros [= <- <-]. right. left.
      exists (CallPdfPlumber file_path :: h). split; [reflexivity|].
      exact Hfirst.
    + intros H. right. right. exists e, h1. split; [reflexivity | exact H].
  - intros [= <- <-]. left. exists pages. repeat split. exact Hshort.
Qed.

End ExtractionMore.

(** [_extract_from_pdf] never invokes the analysis backend more than
    twice, and what it returns is never the empty string: it is either the
    text layer, of at least 100 characters once stripped, obtained without
    the backend, or a non-empty text of the backend. *)
Theorem pdf_extraction_bounds (self : MultilingualRAGPipeline)
    (pdf_path : string) (h : History) :
  (analyze_calls (snd (_extract_from_pdf self pdf_path h))
   <= 2 + analyze_calls h)%nat
  /\ forall t,
       fst (_extract_from_pdf self pdf_path h) = Return t ->
       t <> ""
       /\ (analyze_calls (snd (_extract_from_pdf self pdf_path h))
           = analyze_calls h ->
           100 <= Py.len_str (Py.strip t)).
Proof.
  destruct (_extract_from_pdf self pdf_path h) as [o h'] eqn:Hrun.
  simpl fst. simpl snd.
  destruct (extract_from_pdf_cases self pdf_path h h' o Hrun)
    as [(pages & -> & -> & Hlong)|[(h0 & Hh0 & Hdi)|(e & h1 & Hfirst & Hdi)]].
  - split; [unfold analyze_calls; simpl; lia|].
    intros t [= <-]. apply orb_false_iff in Hlong.
    destruct Hlong as [Hne Hlen]. split.
    + intros Heq. now rewrite Heq in Hne.
    + intros _. lia.
  - destruct (analysis_invoked_once self pdf_path _ _ _ Hdi) as [Hle Hone].
    destruct (analysis_calls_grow self pdf_path _ _ _ Hdi) as [_ Hne].
    split; [lia|]. intros t ->. split; [now apply Hne|].
    specialize (Hone t eq_refl). lia.
  - destruct (analysis_invoked_once self pdf_path _ _ _ Hfirst) as [Hle1 _].
    destruct (analysis_calls_grow self pdf_path _ _ _ Hfirst) as [Hge1 _].
    destruct (analysis_invoked_once self pdf_path _ _ _ Hdi) as [Hle Hone].
    destruct (analysis_calls_grow self pdf_path _ _ _ Hdi) as [_ Hne].
    assert (analyze_calls (CallPdfPlumber pdf_path :: h) = analyze_calls h)
      as Hp by reflexivity.
    split; [lia|]. intros t ->. split; [now apply Hne|].
    specialize (Hone t eq_refl). lia.
Qed.

Lemma pdf_extraction_bounds_witness :
  fst (_extract_from_pdf Demo.pipeline "c.pdf" []) = Return Demo.french
  /\ Demo.french <> "".
Proof.
  split; [reflexivity|].
  exact (proj1 (proj2 (pdf_extraction_bounds Demo.pipeline "c.pdf" [])
                  Demo.french eq_refl)).
Defined.

(** Extraction from an HTML file: the text of the parser when it is
    there, the raw markup when importing the parser fails, and the
    parser's own exception otherwise; a file that cannot be read is not
    handed to the parser. *)
Theorem html_extraction (self : MultilingualRAGPipeline)
    (file_path : string) (h : History) :
  let rt := runtime self in
  (forall e,
     read_text rt h file_path = Raise e ->
     _extract_from_html self file_path h
     = (Raise e, CallReadText file_path :: h))
  /\ (forall markup,
        read_text rt h file_path = Return markup ->
        let h1 := CallReadText file_path :: h in
        _extract_from_html self file_path h
        = (match bs4_get_text rt h1 markup with
           | Return t => Return t
           | Raise (ImportError _) => Return markup
           | Raise e => Raise e
           end, CallBeautifulSoup markup :: h1)).
Proof.
  intros rt. unfold _extract_from_html, try_except, bind, call, ret, raise.
  fold rt. split.
  - intros e ->. reflexivity.
  - intros markup ->. cbv zeta.
    destruct (bs4_get_text rt _ markup) as [t|[]]; reflexivity.
Qed.

Lemma html_extraction_witness :
  _extract_from_html Demo.parserless "page.html" []
  = (Return "<p>bonjour</p>",
     [CallBeautifulSoup "<p>bonjour</p>"; CallReadText "page.html"]).
Proof.
  exact (proj2 (html_extraction Demo.parserless "page.html" [])
           "<p>bonjour</p>" eq_refl).
Defined.

(** ** More on the worker *)

Section WorkerMore.
Variable self : MultilingualRAGPipeline.
Variable file_path : string.
Variable output_dir : option string.

Let rt := runtime self.
Let ps := processing_settings self.
Let fmt := format_of self file_path.

Lemma index_chunks_nonneg (chunks : list Document) (h h' : History) (n : Z) :
  index_chunks self chunks h = (Return n, h') -> 0 <= n.
Proof.
  unfold index_chunks.
  destruct (search_client self) as [client|];
    [|unfold ret; intros [= <- _]; lia].
  destruct chunks as [|c chunks]; [unfold ret; intros [= <- _]; lia|].
  destruct (doc_dicts_total self (c :: chunks) h) as (docs & h1 & Hdocs).
  rewrite (bind_return _ _ _ _ _ Hdocs).
  unfold try_except, bind, call, ret.
  destruct (upload_documents client h1 docs); intros [= <- _];
    unfold count_succeeded, Py.len; lia.
Qed.

(** The [translated] flag and the statistics go together. *)
Lemma before_indexing_flag (h h' : History) (blob lang : string)
    (is_translated : bool) (stats : option Stats) (chunks : list Document) :
  before_indexing self file_path fmt h
  = (Return (blob, lang, is_translated, stats, chunks), h') ->
  is_translated = true <-> stats <> None.
Proof.
  unfold before_indexing. cbv zeta.
  destruct (negb _); [discriminate|].
  unfold bind;
    repeat (cbv beta iota;
            first [ let H := fresh in intro H; discriminate H
                  | match goal with
                    | |- context [match ?x with Some _ => _ | None => _ end] =>
                        is_var x; destruct x
                    end
                  | case_outcome ]);
    unfold ret; intros [= <- <- <- <- <- <-];
    match goal with
    | H : detect_and_translate _ _ _ = _ |- _ =>
        destruct (detect_and_translate_cases _ _ _ _ _ _ _ _ H)
          as [(_ & H1 & H2)|(H1 & _ & s' & _ & H2)]
    end;
    split; intro; congruence.
Qed.

Lemma unsupported_format_fails (h : History) :
  in_list fmt (Py.get (supported_formats ps) []) = false ->
  _process_single_document self file_path output_dir h
  = (Return (failed_result self file_path
               (UnsupportedFormatError ("Unsupported format: " ++ fmt))), h).
Proof.
  intros Hfmt. rewrite process_single_document_unfold.
  unfold process_steps. cbv zeta. fold ps fmt. now rewrite Hfmt.
Qed.

Lemma extraction_failure (h h1 h2 : History) (blob : string) (e : PyExc) :
  in_list fmt (Py.get (supported_formats ps) []) = true ->
  upload_document self (path_str rt file_path) None h = (Return blob, h1) ->
  extract_text self (path_str rt file_path) fmt h1 = (Raise e, h2) ->
  _process_single_document self file_path output_dir h
  = (Return (failed_result self file_path e), h2).
Proof.
  intros Hfmt Hup Hex. rewrite process_single_document_unfold.
  unfold process_steps. cbv zeta. fold rt ps fmt. rewrite Hfmt. cbn [negb].
  rewrite (bind_return _ _ _ _ _ Hup).
  now rewrite (bind_raise _ _ _ _ _ Hex).
Qed.

Lemma extract_text_unhandled (path : string) (h : History) :
  in_list fmt ["pdf"; "docx"; "pptx"; "txt"; "md"; "html"] = false ->
  extract_text self path fmt h
  = (Raise (UnsupportedFormatError ("Unsupported format: " ++ fmt)), h).
Proof.
  unfold in_list. cbn [existsb]. intros H.
  apply orb_false_iff in H. destruct H as [Hpdf H].
  apply orb_false_iff in H. destruct H as [Hdocx H].
  apply orb_false_iff in H. destruct H as [Hpptx H].
  apply orb_false_iff in H. destruct H as [Htxt H].
  apply orb_false_iff in H. destruct H as [Hmd H].
  apply orb_false_iff in H. destruct H as [Hhtml _].
  unfold extract_text, in_list, try_except, raise. cbn [existsb].
  rewrite Hpdf, Hdocx, Hpptx, Htxt, Hmd, Hhtml. reflexivity.
Qed.

End WorkerMore.

(** A document whose format is not among [supported_formats] is refused
    before anything is done with it: the result is the failed one with the
    message ["Unsupported format: <format>"], and no collaborator has been
    called. *)
Theorem unsupported_format_makes_no_call (self : MultilingualRAGPipeline)
    (file_path : string) (output_dir : option string) (h : History) :
  in_list (format_of self file_path)
    (Py.get (supported_formats (processing_settings self)) []) = false ->
  exists r,
    _process_single_document self file_path output_dir h = (Return r, h)
    /\ DocumentProcessingResult.success r = false
    /\ DocumentProcessingResult.error_message r
       = Some ("Unsupported format: " ++ format_of self file_path).
Proof.
  intros Hfmt. eexists. split; [now apply unsupported_format_fails|].
  split; reflexivity.
Qed.

Lemma unsupported_format_makes_no_call_witness :
  _process_single_document Demo.pipeline "archive.zip" None []
  = (Return (DocumentProcessingResult.make false "archive.zip" "zip"
               "unknown" false None 0 (Some "Unsupported format: zip") None),
     []).
Proof.
  destruct (unsupported_format_makes_no_call Demo.pipeline "archive.zip"
              None [] eq_refl) as (r & Hrun & _).
  rewrite Hrun. f_equal. f_equal.
  apply (f_equal fst) in Hrun. vm_compute in Hrun. now injection Hrun.
Defined.

(** A format that the configuration lists as supported but that
    [extract_text] does not handle (anything but pdf, docx, pptx, txt, md
    and html) is only refused at extraction: the original has been uploaded
    to storage by then, and the document fails with ["Unsupported format:
    <format>"]. *)
Theorem unhandled_format_fails_after_upload (self : MultilingualRAGPipeline)
    (file_path : string) (output_dir : option string) (h h1 : History)
    (blob : string) :
  let fmt := format_of self file_path in
  in_list fmt (Py.get (supported_formats (processing_settings self)) [])
  = true ->
  in_list fmt ["pdf"; "docx"; "pptx"; "txt"; "md"; "html"] = false ->
  upload_document self (path_str (runtime self) file_path) None h
  = (Return blob, h1) ->
  _process_single_document self file_path output_dir h
  = (Return (failed_result self file_path
               (UnsupportedFormatError ("Unsupported format: " ++ fmt))), h1).
Proof.
  intros fmt Hsup Hun Hup.
  apply (extraction_failure self file_path output_dir h h1 h1 blob);
    [exact Hsup | exact Hup|].
  now apply extract_text_unhandled.
Qed.

Lemma unhandled_format_fails_after_upload_witness :
  _process_single_document Demo.lenient "notes.rtf" None []
  = (Return (DocumentProcessingResult.make false "notes.rtf" "rtf" "unknown"
               false None 0 (Some "Unsupported format: rtf") None),
     Demo.uploaded_as "notes.rtf").
Proof.
  exact (unhandled_format_fails_after_upload Demo.lenient "notes.rtf" None
           [] (Demo.uploaded_as "notes.rtf")
           "https://blob/documents/documents/u0-notes.rtf"
           eq_refl eq_refl eq_refl).
Defined.

(** Text that strips to fewer than 50 characters is an extraction
    failure: the document fails with ["Insufficient text content
    extracted"] and neither the translator nor the index is called. *)
Theorem insufficient_text_fails (self : MultilingualRAGPipeline)
    (file_path : string) (output_dir : option string) (h h1 h2 : History)
    (blob text : string) :
  let rt := runtime self in
  in_list (format_of self file_path)
    (Py.get (supported_formats (processing_settings self)) []) = true ->
  upload_document self (path_str rt file_path) None h = (Return blob, h1) ->
  extract_text self (path_str rt file_path) (format_of self file_path) h1
  = (Return text, h2) ->
  Py.len_str (Py.strip text) < 50 ->
  _process_single_document self file_path output_dir h
  = (Return (failed_result self file_path
               (Exception "Insufficient text content extracted")), h2).
Proof.
  intros rt Hfmt Hup Hex Hlen. rewrite process_single_document_unfold.
  unfold process_steps. cbv zeta. fold rt. rewrite Hfmt. cbn [negb].
  rewrite (bind_return _ _ _ _ _ Hup), (bind_return _ _ _ _ _ Hex).
  replace (Py.len_str (Py.strip text) <? 50) with true
    by (symmetry; apply Z.ltb_lt; exact Hlen).
  now rewrite orb_true_r.
Qed.

Lemma insufficient_text_fails_witness :
  _process_single_document Demo.brief "c.pdf" None []
  = (Return (DocumentProcessingResult.make false "c.pdf" "pdf" "unknown"
               false None 0 (Some "Insufficient text content extracted")
               None),
     CallAnalyzeDocument "c.pdf" :: CallOpen "c.pdf"
       :: CallPdfPlumber "c.pdf" :: Demo.uploaded_as "c.pdf").
Proof.
  apply (insufficient_text_fails Demo.brief "c.pdf" None []
           (Demo.uploaded_as "c.pdf") _
           "https://blob/documents/documents/u0-c.pdf" "bref");
    solve [reflexivity | vm_compute; reflexivity].
Defined.

(** Without a storage client nothing is ingested: every document of a
    supported format fails with ["Blob storage client not available"]
    before any collaborator is called. *)
Theorem no_storage_client_fails_everything (self : MultilingualRAGPipeline)
    (file_path : string) (output_dir : option string) (h : History) :
  container_client self = None ->
  in_list (format_of self file_path)
    (Py.get (supported_formats (processing_settings self)) []) = true ->
  _process_single_document self file_path output_dir h
  = (Return (failed_result self file_path
               (Exception "Blob storage client not available")), h).
Proof.
  intros Hnone Hfmt.
  apply (original_upload_failure self file_path output_dir h h _ Hfmt).
  unfold upload_document. now rewrite Hnone.
Qed.

Lemma no_storage_client_fails_everything_witness :
  _process_single_document Demo.parserless "page.html" None []
  = (Return (DocumentProcessingResult.make false "page.html" "html"
               "unknown" false None 0
               (Some "Blob storage client not available") None), []).
Proof.
  exact (no_storage_client_fails_everything Demo.parserless "page.html"
           None [] eq_refl eq_refl).
Defined.

(** ** Invariants of a document's result *)

Section ResultShape.
Variable self : MultilingualRAGPipeline.
Variable output_dir : option string.

Lemma worker_result_well_formed (file_path : string) (h h' : History)
    (r : DocumentProcessingResult.t) :
  _process_single_document self file_path output_dir h = (Return r, h') ->
  well_formed self file_path r.
Proof.
  rewrite process_single_document_unfold, process_steps_split.
  unfold bind.
  destruct (before_indexing self file_path (format_of self file_path) h)
    as [[[[[[blob lang] is_translated] stats] chunks]|e] h1] eqn:Hpre.
  - destruct (index_chunks_total self chunks h1) as (n & h2 & Hindex).
    rewrite Hindex. unfold ret. intros [= <- <-].
    pose proof (index_chunks_nonneg self _ _ _ _ Hindex).
    pose proof (before_indexing_flag self file_path _ _ _ _ _ _ _ Hpre).
    unfold well_formed. simpl. repeat split; try tauto; try discriminate.
  - intros [= <- <-]. unfold well_formed, failed_result. simpl.
    repeat split; try discriminate; try lia; try tauto.
Qed.

Lemma document_outcome_well_formed (file_path : string) :
  well_formed self file_path (document_outcome self output_dir file_path).
Proof.
  destruct (document_outcome_worker self output_dir file_path) as (h & Hrun).
  exact (worker_result_well_formed _ _ _ _ Hrun).
Qed.

End ResultShape.

(** Every result of the worker names the document's path and format, has
    an error message exactly when it is not a success, carries no chunks,
    no translation, no blob url and the language ["unknown"] when it is a
    failure and a blob url when it is a success, never counts a negative
    number of chunks, and is flagged as translated exactly when it has
    translation statistics. *)
Theorem document_result_invariants (self : MultilingualRAGPipeline)
    (file_path : string) (output_dir : option string) (h h' : History)
    (r : DocumentProcessingResult.t) :
  _process_single_document self file_path output_dir h = (Return r, h') ->
  well_formed self file_path r.
Proof. apply worker_result_well_formed. Qed.

Lemma document_result_invariants_witness :
  well_formed Demo.pipeline "a.txt"
    (document_outcome Demo.pipeline None "a.txt")
  /\ well_formed Demo.pipeline "bad.txt"
       (document_outcome Demo.pipeline None "bad.txt").
Proof.
  split.
  - destruct (_process_single_document Demo.pipeline "a.txt" None [])
      as [[r|e] h] eqn:Hrun; [|vm_compute in Hrun; discriminate].
    replace (document_outcome Demo.pipeline None "a.txt") with r
      by (unfold document_outcome, recorded, submit; now rewrite Hrun).
    exact (document_result_invariants _ _ _ _ _ _ Hrun).
  - destruct (_process_single_document Demo.pipeline "bad.txt" None [])
      as [[r|e] h] eqn:Hrun; [|vm_compute in Hrun; discriminate].
    replace (document_outcome Demo.pipeline None "bad.txt") with r
      by (unfold document_outcome, recorded, submit; now rewrite Hrun).
    exact (document_result_invariants _ _ _ _ _ _ Hrun).
Defined.

(** ** More on the run *)

Section RunMore.
Variable self : MultilingualRAGPipeline.
Variable output_dir : option string.

Lemma as_completed_map {A B} (f : A -> B) (completion : list nat)
    (l : list A) :
  as_completed completion (map f l) = map f (as_completed completion l).
Proof.
  unfold as_completed. induction completion as [|i completion IH];
    [reflexivity|].
  simpl. rewrite map_app, IH, nth_error_map.
  now destruct (nth_error l i).
Qed.

Lemma run_results_order (completion : list nat) (file_paths : list string) :
  run_results self output_dir completion file_paths
  = map (document_outcome self output_dir)
      (as_completed completion file_paths).
Proof.
  unfold run_results. rewrite as_completed_map, map_map. reflexivity.
Qed.

Lemma collect_chunks (entries : list (Future * string))
    (collected : list DocumentProcessingResult.t) (chunks : Z) :
  snd (fold_left collect entries (collected, chunks))
  = chunks + sum_chunks (map recorded entries).
Proof.
  revert collected chunks.
  induction entries as [|[future file_path] entries IH];
    intros collected chunks; [simpl; lia|].
  destruct future as [result|e]; simpl fold_left; rewrite IH;
    unfold sum_chunks, recorded; simpl; lia.
Qed.

Lemma sum_chunks_nonneg (rs : list DocumentProcessingResult.t) :
  Forall (fun r => 0 <= DocumentProcessingResult.chunks_count r) rs ->
  0 <= sum_chunks rs.
Proof. induction 1; simpl; lia. Qed.

(** All there is in a returned report. *)
Lemma ingest_documents_report (completion : list nat)
    (file_paths : list string) (pr : PipelineResult.t) :
  ingest_documents self completion file_paths output_dir = Return pr ->
  let rs := run_results self output_dir completion file_paths in
  pr = PipelineResult.make
         (Py.len rs - count_if DocumentProcessingResult.success rs =? 0)
         (Py.len file_paths)
         (count_if DocumentProcessingResult.success rs)
         (Py.len rs - count_if DocumentProcessingResult.success rs)
         (count_if DocumentProcessingResult.translated rs)
         (sum_chunks rs) rs None.
Proof.
  unfold ingest_documents. cbv zeta.
  destruct (_ <=? 0); [discriminate|].
  destruct (fold_left _ _ _) as [collected chunks] eqn:Hloop.
  pose proof (f_equal snd Hloop) as Hchunks.
  apply (f_equal fst) in Hloop.
  rewrite collect_all in Hloop. rewrite collect_chunks in Hchunks.
  simpl in Hloop, Hchunks.
  fold (run_results self output_dir completion file_paths) in Hloop, Hchunks.
  destruct (_print_pipeline_summary _); [|discriminate].
  intros [= <-]. now rewrite <- Hloop, <- Hchunks.
Qed.

End RunMore.

(** A run that cannot start or cannot finish: with [max_concurrent_files]
    at or below zero [ingest_documents] raises the [ValueError] of the
    thread pool whatever the documents, and with an empty list of
    documents it raises [ZeroDivisionError] from the summary's success
    rate. *)
Theorem ingest_degenerate_runs (self : MultilingualRAGPipeline)
    (output_dir : option string) (completion : list nat)
    (file_paths : list string) :
  let workers :=
    Py.get (max_concurrent_files (processing_settings self)) 5 in
  (workers <= 0 ->
   ingest_documents self completion file_paths output_dir
   = Raise (ValueError "max_workers must be greater than 0"))
  /\ (0 < workers ->
      ingest_documents self completion [] output_dir
      = Raise (ZeroDivisionError "division by zero")).
Proof.
  intros workers. unfold ingest_documents. cbv zeta. fold workers. split.
  - intros H. now destruct (Z.leb_spec workers 0); [|lia].
  - intros H. destruct (Z.leb_spec workers 0); [lia|].
    replace (as_completed completion (map _ []))
      with (@nil (Future * string)); [reflexivity|].
    unfold as_completed. simpl.
    induction completion as [|i completion IH]; [reflexivity|].
    simpl. now destruct i.
Qed.

Lemma ingest_degenerate_runs_witness :
  ingest_documents Demo.pipeline [] [] None
  = Raise (ZeroDivisionError "division by zero").
Proof.
  apply (proj2 (ingest_degenerate_runs Demo.pipeline None [] [])).
  reflexivity.
Defined.

(** The results of a returned run are the outcomes of the documents in
    the order in which they completed, and the report's totals are
    computed from them: [total_chunks] is the sum of their chunk counts and
    [translated_files] the number of those flagged as translated. *)
Theorem run_report_follows_completion (self : MultilingualRAGPipeline)
    (output_dir : option string) (completion : list nat)
    (file_paths : list string) (pr : PipelineResult.t) :
  ingest_documents self completion file_paths output_dir = Return pr ->
  PipelineResult.results pr
  = map (document_outcome self output_dir)
      (as_completed completion file_paths)
  /\ PipelineResult.total_chunks pr = sum_chunks (PipelineResult.results pr)
  /\ PipelineResult.translated_files pr
     = count_if DocumentProcessingResult.translated
         (PipelineResult.results pr)
  /\ PipelineResult.error_message pr = None.
Proof.
  intros Hrun.
  rewrite (ingest_documents_report self output_dir _ _ _ Hrun). simpl.
  split; [apply run_results_order|]. repeat split.
Qed.

Lemma run_report_follows_completion_witness :
  exists pr,
    ingest_documents Demo.pipeline [1; 0; 2]%nat
      ["a.txt"; "bad.txt"; "c.pdf"] None = Return pr
    /\ map DocumentProcessingResult.original_file (PipelineResult.results pr)
       = ["bad.txt"; "a.txt"; "c.pdf"]
    /\ PipelineResult.total_chunks pr = 4.
Proof.
  destruct (ingest_documents Demo.pipeline [1; 0; 2]%nat
              ["a.txt"; "bad.txt"; "c.pdf"] None) as [pr|e] eqn:Hrun;
    [|vm_compute in Hrun; discriminate].
  exists pr. split; [reflexivity|].
  destruct (run_report_follows_completion _ _ _ _ _ Hrun)
    as (Hres & Hchunks & _).
  rewrite Hchunks, Hres. split; reflexivity.
Defined.

(** In a returned run in which every document completes once, the counts
    are ordered: no more translated documents than processed ones, no
    more processed ones than documents, and no negative count; the run is
    a success exactly when all documents were processed. *)
Theorem run_counts_ordered (self : MultilingualRAGPipeline)
    (output_dir : option string) (completion : list nat)
    (file_paths : list string) (pr : PipelineResult.t) :
  Permutation completion (seq 0 (List.length file_paths)) ->
  ingest_documents self completion file_paths output_dir = Return pr ->
  0 <= PipelineResult.translated_files pr
    <= PipelineResult.processed_files pr
  /\ PipelineResult.processed_files pr <= PipelineResult.total_files pr
  /\ 0 <= PipelineResult.failed_files pr
  /\ 0 <= PipelineResult.total_chunks pr
  /\ (PipelineResult.success pr = true <->
      PipelineResult.processed_files pr = PipelineResult.total_files pr).
Proof.
  intros Hperm Hrun.
  pose proof (run_results_permutation self output_dir _ _ Hperm) as Hrs.
  rewrite (ingest_documents_report self output_dir _ _ _ Hrun). simpl.
  set (rs := run_results self output_dir completion file_paths) in *.
  assert (Hlen : Py.len rs = Py.len file_paths).
  { unfold Py.len. f_equal. rewrite (Permutation_length Hrs).
    apply length_map. }
  assert (Hall : forall r, In r rs ->
            exists file_path,
              r = document_outcome self output_dir file_path).
  { intros r Hr. apply (Permutation_in _ Hrs) in Hr.
    apply in_map_iff in Hr. destruct Hr as (file_path & <- & _). eauto. }
  assert (Htr : count_if DocumentProcessingResult.translated rs
                <= count_if DocumentProcessingResult.success rs).
  { unfold count_if, Py.len. apply inj_le, filter_length_le.
    intros r Hr. destruct (Hall r Hr) as (file_path & ->).
    apply document_outcome_translated. }
  assert (Hsucc : count_if DocumentProcessingResult.success rs <= Py.len rs).
  { unfold count_if, Py.len.
    pose proof (filter_length DocumentProcessingResult.success rs). lia. }
  assert (0 <= sum_chunks rs).
  { apply sum_chunks_nonneg, Forall_forall. intros r Hr.
    destruct (Hall r Hr) as (file_path & ->).
    apply (document_outcome_well_formed self output_dir file_path). }
  assert (0 <= count_if DocumentProcessingResult.translated rs)
    by (unfold count_if, Py.len; lia).
  rewrite Z.eqb_eq. repeat split; lia.
Qed.

Lemma run_counts_ordered_witness :
  Permutation [1; 0; 2]%nat (seq 0 3)
  /\ exists pr,
       ingest_documents Demo.pipeline [1; 0; 2]%nat
         ["a.txt"; "bad.txt"; "c.pdf"] None = Return pr
       /\ PipelineResult.translated_files pr
          <= PipelineResult.processed_files pr.
Proof.
  assert (Hperm : Permutation [1; 0; 2]%nat (seq 0 3)) by apply perm_swap.
  split; [exact Hperm|].
  destruct (ingest_documents Demo.pipeline [1; 0; 2]%nat
              ["a.txt"; "bad.txt"; "c.pdf"] None) as [pr|e] eqn:Hrun;
    [|vm_compute in Hrun; discriminate].
  exists pr. split; [reflexivity|].
  exact (proj2 (proj1 (run_counts_ordered Demo.pipeline None [1; 0; 2]%nat
                         ["a.txt"; "bad.txt"; "c.pdf"] pr Hperm Hrun))).
Defined.

(** ** Construction of the pipeline *)

Lemma when_available_returned {A} (pf : Platform) (build : Outcome A)
    (client : option A) :
  when_available pf build = Return client ->
  AZURE_LIBS_AVAILABLE pf = true -> client <> None.
Proof.
  unfold when_available. intros H Hlibs. rewrite Hlibs in H.
  destruct build; simpl in H; [injection H as <- | ]; discriminate.
Qed.

(** Without the Azure libraries the pipeline cannot be constructed: the
    constructor raises, at the latest when it makes sure the search index
    exists. A pipeline that has been constructed therefore has its
    document-analysis, storage and search clients, the settings the
    configuration file gave, and a search index that was created or
    updated. *)
Theorem constructed_pipeline_has_clients (pf : Platform)
    (config_file : string) :
  (AZURE_LIBS_AVAILABLE pf = false ->
   exists e, new_pipeline pf config_file = Raise e)
  /\ (forall pipeline,
        new_pipeline pf config_file = Return pipeline ->
        AZURE_LIBS_AVAILABLE pf = true
        /\ doc_intelligence_client pipeline <> None
        /\ container_client pipeline <> None
        /\ search_client pipeline <> None
        /\ load_config pf config_file
           = Return (processing_settings pipeline)
        /\ create_or_update_search_index pf = Return tt).
Proof.
  unfold new_pipeline, and_then. split.
  - intros Hlibs. unfold when_available, ensure_index_exists.
    rewrite Hlibs.
    destruct (load_config pf config_file); [|eauto].
    destruct (new_translator pf); eauto.
  - intros pipeline.
    destruct (load_config pf config_file) as [config|]; [|discriminate].
    destruct (when_available pf (new_document_intelligence_client pf))
      as [di|] eqn:Hdi; [|discriminate].
    destruct (new_translator pf) as [tr|]; [|discriminate].
    destruct (when_available pf (new_container_client pf))
      as [cc|] eqn:Hcc; [|discriminate].
    destruct (when_available pf (new_search_client pf))
      as [sc|] eqn:Hsc; [|discriminate].
    unfold ensure_index_exists.
    destruct sc as [client|]; [|discriminate].
    destruct (create_or_update_search_index pf) as [[]|]; [|discriminate].
    intros [= <-]. simpl.
    assert (Hlibs : AZURE_LIBS_AVAILABLE pf = true).
    { unfold when_available in Hsc.
      destruct (AZURE_LIBS_AVAILABLE pf); [reflexivity | discriminate]. }
    repeat split; try discriminate; try assumption.
    + exact (when_available_returned _ _ _ Hdi Hlibs).
    + exact (when_available_returned _ _ _ Hcc Hlibs).
Qed.

Lemma constructed_pipeline_has_clients_witness :
  new_pipeline Site.cloud "multilingual_config.json" = Return Demo.pipeline
  /\ container_client Demo.pipeline <> None
  /\ exists e, new_pipeline Site.bare "multilingual_config.json" = Raise e.
Proof.
  split; [reflexivity|].
  destruct (constructed_pipeline_has_clients Site.cloud
              "multilingual_config.json") as [_ Hcloud].
  destruct (constructed_pipeline_has_clients Site.bare
              "multilingual_config.json") as [Hbare _].
  split; [|exact (Hbare eq_refl)].
  exact (proj1 (proj2 (proj2 (Hcloud Demo.pipeline eq_refl)))).
Defined.

(** ** The command line *)


(** ** The set-up script *)

Lemma copy_template_writes_template (m : Setup.Machine) (a : Setup.Action) :
  In a (snd (Setup.copy_template m)) ->
  exists text, a = Setup.Wrote text /\ Setup.read_template m = Return text.
Proof.
  unfold Setup.copy_template.
  destruct (Setup.read_template m) as [text|e]; [|intros []].
  destruct (Setup.write_config m text); simpl; intros [<-|[]]; eauto.
Qed.

(** [setup_configuration] only writes the configuration file when there
    is a template and either no configuration file yet or a user who
    answered [y] (in either case) to the question whether to overwrite it;
    what it writes is the text of the template. An existing file that the
    user keeps counts as a configuration that is set up. *)
Theorem configuration_kept_without_consent (m : Setup.Machine) :
  (forall a,
     In a (snd (Setup.setup_configuration m)) -> Setup.wrote a = true ->
     Setup.template_exists m = true
     /\ (Setup.config_exists m = false
         \/ Py.lower (Setup.input m Setup.overwrite_prompt) = "y")
     /\ exists text,
          a = Setup.Wrote text /\ Setup.read_template m = Return text)
  /\ (Setup.template_exists m = true -> Setup.config_exists m = true ->
      Py.lower (Setup.input m Setup.overwrite_prompt) <> "y" ->
      Setup.setup_configuration m
      = (true, [Setup.Asked Setup.overwrite_prompt])).
Proof.
  unfold Setup.setup_configuration. split.
  - intros a.
    destruct (Setup.template_exists m); cbn [negb]; [|intros []].
    destruct (Setup.config_exists m).
    + destruct (String.eqb_spec
                  (Py.lower (Setup.input m Setup.overwrite_prompt)) "y")
        as [Hyes|Hno]; cbn [negb].
      * destruct (Setup.copy_template m) as [ok actions] eqn:Hcopy.
        intros [<-|Hin]; [discriminate|]. intros _.
        split; [reflexivity|]. split; [now right|].
        apply copy_template_writes_template. now rewrite Hcopy.
      * intros [<-|[]]. discriminate.
    + intros Hin _. split; [reflexivity|]. split; [now left|].
      now apply copy_template_writes_template.
  - intros -> -> Hno. cbn [negb].
    destruct (String.eqb_spec
                (Py.lower (Setup.input m Setup.overwrite_prompt)) "y");
      [contradiction | reflexivity].
Qed.

Lemma configuration_kept_without_consent_witness :
  Setup.setup_configuration Site.laptop
  = (true, [Setup.Asked Setup.overwrite_prompt])
  /\ Setup.setup_configuration Site.fresh = (true, [Setup.Wrote "{}"]).
Proof.
  split; [|reflexivity].
  apply (proj2 (configuration_kept_without_consent Site.laptop));
    solve [reflexivity | discriminate].
Defined.

(** [install_dependencies] runs nothing but [pip install -r
    requirements.txt], and outside a virtual environment only after the
    user answered [y] to the warning; otherwise it reports failure without
    running anything. *)
Theorem packages_installed_with_consent (m : Setup.Machine) :
  (forall a,
     In a (snd (Setup.install_dependencies m)) -> Setup.ran a = true ->
     a = Setup.Ran "pip install -r requirements.txt"
     /\ (Setup.in_venv m = true
         \/ Py.lower (Setup.input m Setup.continue_prompt) = "y"))
  /\ (Setup.in_venv m = false ->
      Py.lower (Setup.input m Setup.continue_prompt) <> "y" ->
      Setup.install_dependencies m
      = (false, [Setup.Asked Setup.continue_prompt])).
Proof.
  unfold Setup.install_dependencies, Setup.run_command. split.
  - intros a. destruct (Setup.in_venv m); cbn [negb].
    + intros [<-|[]] _. split; [reflexivity | now left].
    + destruct (String.eqb_spec
                  (Py.lower (Setup.input m Setup.continue_prompt)) "y")
        as [Hyes|Hno]; cbn [negb].
      * intros [<-|[<-|[]]]; [discriminate|]. intros _.
        split; [reflexivity | now right].
      * intros [<-|[]]. discriminate.
  - intros -> Hno. cbn [negb].
    destruct (String.eqb_spec
                (Py.lower (Setup.input m Setup.continue_prompt)) "y");
      [contradiction | reflexivity].
Qed.

Lemma packages_installed_with_consent_witness :
  Setup.install_dependencies Site.laptop
  = (false, [Setup.Asked Setup.continue_prompt]).
Proof.
  apply (proj2 (packages_installed_with_consent Site.laptop));
    solve [reflexivity | discriminate].
Defined.

(** The set-up exits with 0 exactly when Python is at least 3.8, the
    packages were installed and the configuration is set up; whether the
    pipeline module can then be imported does not matter. With an older
    Python it exits with 1 before asking or running anything, and it never
    sets up the configuration when the installation failed. *)
Theorem setup_exit_code (m : Setup.Machine) :
  (fst (Setup.main m) = 0 \/ fst (Setup.main m) = 1)
  /\ (fst (Setup.main m) = 0 <->
      (3 < Setup.python_major m
       \/ (Setup.python_major m = 3 /\ 8 <= Setup.python_minor m))
      /\ fst (Setup.install_dependencies m) = true
      /\ fst (Setup.setup_configuration m) = true)
  /\ (Setup.python_major m < 3
      \/ (Setup.python_major m = 3 /\ Setup.python_minor m < 8) ->
      Setup.main m = (1, []))
  /\ (fst (Setup.install_dependencies m) = false ->
      forall a, In a (snd (Setup.main m)) -> Setup.wrote a = false).
Proof.
  assert (Hcheck : Setup.check_python_version m = true <->
            3 < Setup.python_major m
            \/ (Setup.python_major m = 3 /\ 8 <= Setup.python_minor m)).
  { unfold Setup.check_python_version.
    destruct (Z.ltb_spec (Setup.python_major m) 3);
      destruct (Z.eqb_spec (Setup.python_major m) 3);
      destruct (Z.ltb_spec (Setup.python_minor m) 8); simpl;
      split; intros; try discriminate; try reflexivity; lia. }
  assert (Hinstall : forall a,
            In a (snd (Setup.install_dependencies m)) ->
            Setup.wrote a = false).
  { unfold Setup.install_dependencies, Setup.run_command. intros a.
    destruct (negb (Setup.in_venv m));
      [destruct (negb _)|]; simpl; intuition (subst; reflexivity). }
  unfold Setup.main.
  destruct (Setup.check_python_version m); cbn [negb].
  - pose proof (proj1 Hcheck eq_refl) as Hnew.
    destruct (Setup.install_dependencies m) as [installed a1].
    destruct installed; cbn [negb].
    + destruct (Setup.setup_configuration m) as [configured a2].
      destruct configured; cbn [negb]; simpl fst.
      * split; [now left|]. split; [tauto|].
        split; [intros; lia | discriminate].
      * split; [now right|].
        split; [split; [discriminate | intros (_ & _ & H); discriminate]|].
        split; [intros; lia | discriminate].
    + simpl fst. simpl snd in *. split; [now right|].
      split; [split; [discriminate | intros (_ & H & _); discriminate]|].
      split; [intros; lia | intros _; exact Hinstall].
  - simpl fst. split; [now right|].
    split; [split; [discriminate|]|].
    + intros (H & _). apply (proj2 Hcheck) in H. discriminate.
    + split; [reflexivity | intros _ a []].
Qed.

Lemma setup_exit_code_witness :
  Setup.main Site.laptop = (1, [Setup.Asked Setup.continue_prompt])
  /\ fst (Setup.main Site.fresh) = 0.
Proof.
  split; [reflexivity|].
  apply (proj1 (proj2 (setup_exit_code Site.fresh))).
  split; [right; simpl; lia | split; reflexivity].
Defined.

(** ** Chunking with embeddings *)

(** A failure of the credential or of [chunk_content] never leaves
    [_chunk_and_embed_content]: the chunks are then those of the fallback
    chunker. The only exception it can raise is the [ValueError] of that
    fallback, when [chunk_overlap] equals [chunk_size]. When
    [chunk_content] returns, its chunks are passed on as they are. *)
Theorem embedding_failure_stays_inside (self : MultilingualRAGPipeline)
    (text filename u file_format : string) (h : History) :
  let ps := processing_settings self in
  let rt := runtime self in
  let run := _chunk_and_embed_content self text filename u file_format h in
  (forall e,
     fst run = Raise e ->
     e = ValueError "range() arg 3 must not be zero"
     /\ Py.get (chunk_overlap ps) 100 = Py.get (chunk_size ps) 1000)
  /\ (forall e,
        DefaultAzureCredential rt h = Raise e ->
        run = (_create_simple_chunks ps text filename u,
               CallDefaultAzureCredential :: h))
  /\ (forall e,
        DefaultAzureCredential rt h = Return tt ->
        chunk_content rt (CallDefaultAzureCredential :: h) text filename u
          (Py.get (chunk_size ps) 1000) (Py.get (min_chunk_size ps) 50)
          (Py.get (chunk_overlap ps) 100) = Raise e ->
        fst run = _create_simple_chunks ps text filename u)
  /\ (forall chunks,
        DefaultAzureCredential rt h = Return tt ->
        chunk_content rt (CallDefaultAzureCredential :: h) text filename u
          (Py.get (chunk_size ps) 1000) (Py.get (min_chunk_size ps) 50)
          (Py.get (chunk_overlap ps) 100) = Return chunks ->
        fst run = Return chunks).
Proof.
  intros ps rt run. subst run.
  unfold _chunk_and_embed_content, try_except, bind, call, lift.
  cbv zeta. fold ps rt. split; [|split; [|split]].
  - assert (Hfallback : forall e,
              _create_simple_chunks ps text filename u = Raise e ->
              e = ValueError "range() arg 3 must not be zero"
              /\ Py.get (chunk_overlap ps) 100
                 = Py.get (chunk_size ps) 1000).
    { unfold _create_simple_chunks, Py.range. intros e.
      destruct (Z.eqb_spec (Py.get (chunk_size ps) 1000
                            - Py.get (chunk_overlap ps) 100) 0);
        [intros [= <-]; split; [reflexivity | lia]|].
      destruct (0 <? _); discriminate. }
    intros e. destruct (DefaultAzureCredential rt h) as [[]|e1]; simpl;
      [|apply Hfallback].
    destruct (chunk_content rt _ _ _ _ _ _ _); simpl;
      [discriminate | apply Hfallback].
  - intros e ->. reflexivity.
  - intros e -> ->. reflexivity.
  - intros chunks -> ->. reflexivity.
Qed.

Lemma embedding_failure_stays_inside_witness :
  _chunk_and_embed_content Demo.pipeline "aa bb cc dd ee" "f.txt"
    "http://blob" "txt" []
  = (_create_simple_chunks Demo.settings "aa bb cc dd ee" "f.txt"
       "http://blob", [CallDefaultAzureCredential]).
Proof.
  exact (proj1 (proj2 (embedding_failure_stays_inside Demo.pipeline
                         "aa bb cc dd ee" "f.txt" "http://blob" "txt" []))
           (ExternalError "CredentialUnavailableError" "no credential")
           eq_refl).
Defined.
